(** * The OpenManus memory orchestration layer

    A shallow embedding of [src/knowledge/graph_db.py],
    [src/knowledge/vector_db.py], [src/knowledge/memory.py],
    [src/knowledge/memory_retrieval.py] and of the extraction part of
    [src/agents/knowledge_agent.py].

    Python values are a small universe [PyVal]; every method runs in a
    state-and-exception monad over a [World] that holds the Neo4j server,
    the Chroma collection, the wall clock, a fault oracle for the calls
    that leave the process, and the mutable fields of the three Python
    objects (GraphDatabase, VectorDatabase, MemoryManager). *)

From Stdlib Require Import List String Ascii ZArith Bool Lia Arith.
From Stdlib Require Import Permutation Sorted DecimalString.
From Stdlib Require DecimalPos.
Import ListNotations.
Local Open Scope string_scope.
Local Open Scope Z_scope.
Set Warnings "-register-all".

(* ===================================================================== *)
(** ** Python values *)
(* ===================================================================== *)

(** The floats that are no decimal: what [json.loads] makes of the texts
    NaN, Infinity and -Infinity. *)
Inductive NonFinite : Type :=
| NaN
| PosInf
| NegInf.

(** The values that flow through the program: JSON-shaped data, plus the
    graph nodes that the Neo4j driver hands back inside result records.
    A finite float is kept as a decimal [m * 10^e]; the program never
    computes with one. *)
Inductive PyVal : Type :=
| VNone
| VBool (b : bool)
| VInt (z : Z)
| VFloat (m e : Z)
| VStr (s : string)
| VList (l : list PyVal)
| VDict (d : list (string * PyVal))
| VNode (id : Z) (labels : list string) (props : list (string * PyVal))
| VNonFinite (f : NonFinite).

(** A dict with string keys, in insertion order. *)
Definition Dict := list (string * PyVal).

(** The exceptions the program can meet. [StoreError] stands for whatever
    a driver raises (network, syntax, validation) other than Neo4j's
    [ServiceUnavailable]. *)
Inductive Exn : Type :=
| TypeError
| KeyError
| AttributeError
| ValueError
| IndexError
| OverflowError
| JSONDecodeError
| ServiceUnavailable
| StoreError.

(** The outcome of evaluating a Python expression. *)
Inductive Res (A : Type) : Type :=
| Ok (a : A)
| Raise (e : Exn).
Arguments Ok {A} a.
Arguments Raise {A} e.

(** [d.get(k)] on a dict: the first binding of [k]. *)
Fixpoint dict_lookup (d : Dict) (k : string) : option PyVal :=
  match d with
  | [] => None
  | (k', v) :: d' => if String.eqb k k' then Some v else dict_lookup d' k
  end.

(** [d[k] = v]: an existing key keeps its position, a new one goes last. *)
Fixpoint dict_set (d : Dict) (k : string) (v : PyVal) : Dict :=
  match d with
  | [] => [(k, v)]
  | (k', v') :: d' =>
      if String.eqb k k' then (k', v) :: d' else (k', v') :: dict_set d' k v
  end.

(** [{**a, **b}]: the bindings of [b] written over those of [a]. *)
Definition dict_update (a b : Dict) : Dict :=
  fold_left (fun acc kv => dict_set acc (fst kv) (snd kv)) b a.

(** [d.get(k, default)]. *)
Definition dict_get (d : Dict) (k : string) (default : PyVal) : PyVal :=
  match dict_lookup d k with
  | Some v => v
  | None => default
  end.

(** Python truthiness, as [if x:] and [x or y] test it. *)
Definition truthy (v : PyVal) : bool :=
  match v with
  | VNone => false
  | VBool b => b
  | VInt z => negb (z =? 0)
  | VFloat m _ => negb (m =? 0)
  | VStr s => negb (String.eqb s "")
  | VList l => match l with [] => false | _ => true end
  | VDict d => match d with [] => false | _ => true end
  | VNode _ _ _ => true
  | VNonFinite _ => true
  end.

(** [x or y]. *)
Definition py_or (x y : PyVal) : PyVal := if truthy x then x else y.

Fixpoint strings_eqb (l l' : list string) : bool :=
  match l, l' with
  | [], [] => true
  | x :: xs, y :: ys => String.eqb x y && strings_eqb xs ys
  | _, _ => false
  end.

(** [a == b]: structural equality of values; nan equals nothing, itself
    included. *)
Fixpoint pyval_eqb (a b : PyVal) : bool :=
  let fix list_eqb (l l' : list PyVal) : bool :=
    match l, l' with
    | [], [] => true
    | x :: xs, y :: ys => pyval_eqb x y && list_eqb xs ys
    | _, _ => false
    end in
  let fix dict_eqb (d d' : list (string * PyVal)) : bool :=
    match d, d' with
    | [], [] => true
    | (k, x) :: xs, (k', y) :: ys =>
        String.eqb k k' && pyval_eqb x y && dict_eqb xs ys
    | _, _ => false
    end in
  match a, b with
  | VNone, VNone => true
  | VBool x, VBool y => Bool.eqb x y
  | VInt x, VInt y => x =? y
  | VFloat m e, VFloat m' e' => (m =? m') && (e =? e')
  | VStr s, VStr s' => String.eqb s s'
  | VList l, VList l' => list_eqb l l'
  | VDict d, VDict d' => dict_eqb d d'
  | VNode i ls ps, VNode i' ls' ps' =>
      (i =? i') && strings_eqb ls ls' && dict_eqb ps ps'
  | VNonFinite PosInf, VNonFinite PosInf => true
  | VNonFinite NegInf, VNonFinite NegInf => true
  | _, _ => false
  end.

(** [v == "text"] for a string literal. *)
Definition is_str (v : PyVal) (text : string) : bool :=
  match v with
  | VStr s => String.eqb s text
  | _ => false
  end.

(** [str(n)] of an int: the decimal numeral, with a minus sign below zero. *)
Definition str_of_int (z : Z) : string := NilZero.string_of_int (Z.to_int z).

(** ASCII white space, which [int()] strips from both ends. *)
Definition is_space (c : ascii) : bool :=
  let n := nat_of_ascii c in
  ((9 <=? n) && (n <=? 13))%nat || (n =? 32)%nat.

Definition is_digit (c : ascii) : bool :=
  let n := nat_of_ascii c in ((48 <=? n) && (n <=? 57))%nat.

Definition digit_val (c : ascii) : Z := Z.of_nat (nat_of_ascii c) - 48.

Fixpoint drop_space (l : list ascii) : list ascii :=
  match l with
  | c :: l' => if is_space c then drop_space l' else l
  | [] => []
  end.

(** The digits of an int literal: digits with single underscores between
    them. [prev] tells whether the previous character was a digit. *)
Fixpoint int_digits (l : list ascii) (prev : bool) (acc : Z) : option Z :=
  match l with
  | [] => if prev then Some acc else None
  | c :: l' =>
      if is_digit c then int_digits l' true (10 * acc + digit_val c)
      else if (nat_of_ascii c =? 95)%nat && prev then int_digits l' false acc
      else None
  end.

(** [int(s)] on a string: optional white space, an optional sign, then
    decimal digits; [None] is Python's ValueError. *)
Definition int_of_str (s : string) : option Z :=
  let body := rev (drop_space (rev (drop_space (list_ascii_of_string s)))) in
  match body with
  | "-"%char :: ds => option_map Z.opp (int_digits ds false 0)
  | "+"%char :: ds => int_digits ds false 0
  | ds => int_digits ds false 0
  end.

(** [int(v)]. *)
Definition py_int (v : PyVal) : Res Z :=
  match v with
  | VInt z => Ok z
  | VBool b => Ok (if b then 1 else 0)
  | VFloat m e => if e <? 0 then Ok (Z.quot m (10 ^ (- e))) else Ok (m * 10 ^ e)
  | VStr s => match int_of_str s with Some z => Ok z | None => Raise ValueError end
  | VNonFinite NaN => Raise ValueError
  | VNonFinite _ => Raise OverflowError
  | _ => Raise TypeError
  end.

(** [for x in v]: the elements of a list, the keys of a dict, the
    characters of a string; anything else is not iterable. *)
Definition py_iter (v : PyVal) : Res (list PyVal) :=
  match v with
  | VList l => Ok l
  | VDict d => Ok (map (fun kv => VStr (fst kv)) d)
  | VStr s => Ok (map (fun c => VStr (String c EmptyString)) (list_ascii_of_string s))
  | _ => Raise TypeError
  end.

(** [v[k]] with a string key: only a dict (or a node) can be indexed so. *)
Definition py_getitem (v : PyVal) (k : string) : Res PyVal :=
  match v with
  | VDict d | VNode _ _ d =>
      match dict_lookup d k with Some x => Ok x | None => Raise KeyError end
  | _ => Raise TypeError
  end.

(** [v.get(k, default)]: only dicts and nodes have the method. *)
Definition py_get (v : PyVal) (k : string) (default : PyVal) : Res PyVal :=
  match v with
  | VDict d | VNode _ _ d => Ok (dict_get d k default)
  | _ => Raise AttributeError
  end.

(** [needle in hay] on strings: [needle] occurs in [hay] as a substring. *)
Fixpoint str_contains (needle hay : string) : bool :=
  String.prefix needle hay ||
  match hay with
  | EmptyString => false
  | String _ hay' => str_contains needle hay'
  end.

(* ===================================================================== *)
(** ** Calling a Python function *)
(* ===================================================================== *)

(** A signature lists the parameters after [self] in order, each with its
    default when it has one. *)
Definition Signature := list (string * option PyVal).

(** A parameter slot while the call is being bound. *)
Record Slot := { slot_name : string; slot_default : option PyVal; slot_value : option PyVal }.

(** Positional arguments fill the parameters from the left; one too many
    is a TypeError ([None]). *)
Fixpoint fill_positional (sig : Signature) (pos : list PyVal) : option (list Slot) :=
  match sig, pos with
  | _, [] => Some (map (fun p => Build_Slot (fst p) (snd p) None) sig)
  | [], _ :: _ => None
  | p :: sig', v :: pos' =>
      option_map (cons (Build_Slot (fst p) (snd p) (Some v))) (fill_positional sig' pos')
  end.

(** A keyword argument goes to the parameter of that name: none of that
    name is "unexpected keyword argument", one already filled is
    "multiple values"; both are TypeErrors. *)
Fixpoint fill_keyword (slots : list Slot) (k : string) (v : PyVal) : option (list Slot) :=
  match slots with
  | [] => None
  | s :: slots' =>
      if String.eqb k (slot_name s) then
        match slot_value s with
        | Some _ => None
        | None => Some (Build_Slot (slot_name s) (slot_default s) (Some v) :: slots')
        end
      else option_map (cons s) (fill_keyword slots' k v)
  end.

Fixpoint fill_keywords (slots : list Slot) (kw : Dict) : option (list Slot) :=
  match kw with
  | [] => Some slots
  | (k, v) :: kw' =>
      match fill_keyword slots k v with
      | Some slots' => fill_keywords slots' kw'
      | None => None
      end
  end.

(** What is left unfilled takes its default; a parameter with neither is
    "missing required argument". *)
Fixpoint fill_defaults (slots : list Slot) : option (list PyVal) :=
  match slots with
  | [] => Some []
  | s :: slots' =>
      match (match slot_value s with Some v => Some v | None => slot_default s end) with
      | Some v => option_map (cons v) (fill_defaults slots')
      | None => None
      end
  end.

(** The values of the parameters, in signature order, for the call
    positional arguments [pos] and keyword arguments [kw] of a call;
    Python raises TypeError before the body runs. *)
Definition bind_args (sig : Signature) (pos : list PyVal) (kw : Dict) : Res (list PyVal) :=
  match fill_positional sig pos with
  | None => Raise TypeError
  | Some slots =>
      match fill_keywords slots kw with
      | None => Raise TypeError
      | Some slots' =>
          match fill_defaults slots' with
          | None => Raise TypeError
          | Some vs => Ok vs
          end
      end
  end.

(* ===================================================================== *)
(** ** The world outside the interpreter *)
(* ===================================================================== *)

(** A node and a relationship of the Neo4j server. *)
Record Node := { node_id : Z; node_labels : list string; node_props : Dict }.
Record Rel := { rel_start : Z; rel_end : Z; rel_type : string; rel_props : Dict }.

(** A document of the Chroma collection. *)
Record Document := { doc_id : string; doc_text : string; doc_meta : Dict }.

(** What the libraries outside [src/] compute. The development is
    parametric in them: [json.loads] ([None] when it raises
    JSONDecodeError), [json.dumps], [str.lower], [datetime.isoformat] of a
    clock reading in microseconds, [str()] of a float or a container,
    Chroma's [where] filter, and Chroma's embedding search, which ranks
    the documents against a query text and pairs each with its distance. *)
Class Externals : Type := {
  json_loads : string -> option PyVal;
  json_dumps : PyVal -> string;
  str_lower : string -> string;
  py_repr : PyVal -> string;
  isoformat : Z -> string;
  where_matches : Dict -> Dict -> bool;
  nearest : string -> list Document -> list (Document * PyVal)
}.

(** The nodes and the relationships of the server, and the id of its
    next node. *)
Definition Graph : Type := (list Node * list Rel * Z)%type.

Record World := {
  (* the Neo4j server; newest node and relationship first *)
  nodes : list Node;
  rels : list Rel;
  next_id : Z;
  (* what a call of session.run does that this development does not
     read: the text of the statement, the keyword arguments and the
     graph give the outcome and the graph that is left *)
  unread : string -> Dict -> Graph -> Res (list PyVal) * Graph;
  (* the Chroma collection, in insertion order *)
  docs : list Document;
  (* the wall clock, in microseconds, and the uuid4 source *)
  clock : Z;
  uuids : Z;
  (* what the next calls that leave the process meet: [Some e] makes the
     call raise [e]; an exhausted oracle means every call goes through *)
  faults : list (option Exn);
  (* GraphDatabase.driver is not None *)
  driver : bool;
  (* VectorDatabase.client / .collection is not None *)
  client : bool;
  collection : bool;
  (* MemoryManager.initialized *)
  initialized : bool
}.

Definition set_graph (ns : list Node) (rs : list Rel) (n : Z) (w : World) : World :=
  Build_World ns rs n (unread w) (docs w) (clock w) (uuids w) (faults w)
              (driver w) (client w) (collection w) (initialized w).
Definition set_docs (ds : list Document) (w : World) : World :=
  Build_World (nodes w) (rels w) (next_id w) (unread w) ds (clock w) (uuids w) (faults w)
              (driver w) (client w) (collection w) (initialized w).
Definition set_clock (c : Z) (w : World) : World :=
  Build_World (nodes w) (rels w) (next_id w) (unread w) (docs w) c (uuids w) (faults w)
              (driver w) (client w) (collection w) (initialized w).
Definition set_uuids (u : Z) (w : World) : World :=
  Build_World (nodes w) (rels w) (next_id w) (unread w) (docs w) (clock w) u (faults w)
              (driver w) (client w) (collection w) (initialized w).
Definition set_faults (fs : list (option Exn)) (w : World) : World :=
  Build_World (nodes w) (rels w) (next_id w) (unread w) (docs w) (clock w) (uuids w) fs
              (driver w) (client w) (collection w) (initialized w).
Definition set_driver (b : bool) (w : World) : World :=
  Build_World (nodes w) (rels w) (next_id w) (unread w) (docs w) (clock w) (uuids w) (faults w)
              b (client w) (collection w) (initialized w).
Definition set_client (b : bool) (w : World) : World :=
  Build_World (nodes w) (rels w) (next_id w) (unread w) (docs w) (clock w) (uuids w) (faults w)
              (driver w) b (collection w) (initialized w).
Definition set_collection (b : bool) (w : World) : World :=
  Build_World (nodes w) (rels w) (next_id w) (unread w) (docs w) (clock w) (uuids w) (faults w)
              (driver w) (client w) b (initialized w).
Definition set_initialized (b : bool) (w : World) : World :=
  Build_World (nodes w) (rels w) (next_id w) (unread w) (docs w) (clock w) (uuids w) (faults w)
              (driver w) (client w) (collection w) b.

(* ===================================================================== *)
(** ** The monad of Python statements *)
(* ===================================================================== *)

(** A statement takes the world to an outcome and the world it leaves
    behind; an exception does not undo what was done before it. *)
Definition M (A : Type) : Type := World -> Res A * World.

Definition ret {A} (a : A) : M A := fun w => (Ok a, w).
Definition raise {A} (e : Exn) : M A := fun w => (Raise e, w).
Definition bind {A B} (m : M A) (k : A -> M B) : M B :=
  fun w => match m w with
           | (Ok a, w') => k a w'
           | (Raise e, w') => (Raise e, w')
           end.
Definition lift {A} (r : Res A) : M A := fun w => (r, w).
Definition gets {A} (f : World -> A) : M A := fun w => (Ok (f w), w).
Definition modify (f : World -> World) : M unit := fun w => (Ok tt, f w).

Declare Scope py_scope.
Delimit Scope py_scope with py.
Notation "x <- m ;; k" := (bind m (fun x => k))
  (at level 61, m at next level, right associativity) : py_scope.
Notation "m ;;; k" := (bind m (fun _ => k))
  (at level 61, right associativity) : py_scope.
Local Open Scope py_scope.

(** [try: m  except Exception: h]. *)
Definition try_except {A} (m : M A) (h : Exn -> M A) : M A :=
  fun w => match m w with
           | (Ok a, w') => (Ok a, w')
           | (Raise e, w') => h e w'
           end.

(** [try: m  except ServiceUnavailable: h]: any other exception goes on. *)
Definition try_except_unavailable {A} (m : M A) (h : M A) : M A :=
  try_except m (fun e => match e with ServiceUnavailable => h | _ => raise e end).

(** The answer of the fault oracle for the next call, and the world with
    that answer used up. *)
Definition next_fault (w : World) : option Exn * World :=
  match faults w with
  | f :: fs => (f, set_faults fs w)
  | [] => (None, w)
  end.

(** A call that leaves the process first asks the fault oracle. *)
Definition outside {A} (op : M A) : M A :=
  fun w => match next_fault w with
           | (Some e, w') => (Raise e, w')
           | (None, w') => op w'
           end.

(** [for x in xs: body x]. *)
Fixpoint for_each {A} (xs : list A) (body : A -> M unit) : M unit :=
  match xs with
  | [] => ret tt
  | x :: xs' => body x ;;; for_each xs' body
  end.

(** [datetime.datetime.now()]: the reading of the clock, which moves on. *)
Definition datetime_now : M Z :=
  fun w => (Ok (clock w), set_clock (clock w + 1) w).

(** [datetime.datetime.now().isoformat()]. *)
Definition now_isoformat `{Externals} : M PyVal :=
  t <- datetime_now ;; ret (VStr (isoformat t)).

(* ===================================================================== *)
(** ** The Neo4j server *)
(* ===================================================================== *)

(** The Cypher statements the program sends, one constructor for each
    text in the source; [statement_text] below gives the texts. Three of
    them are built with f-strings, which splice the labels and the
    property keys ([CCreateNode]), the relationship type and the
    property keys ([CCreateRel]) and the label and the limit
    ([CMatchLabel]) into the text. *)
Inductive Cypher : Type :=
| CReturnOne
| CCreateNode (labels : list string)
| CCreateRel (rtype : string) (keys : list string)
| CFactById
| CFactMentions
| CConversationMessages
| CEntityByName
| CFactsAboutEntity
| CMatchLabel (label : string) (limit : Z)
| CDeleteFacts
| CDeleteConversations
| CDeleteAll.

Definition newline : string := String (ascii_of_nat 10) EmptyString.

(** [', '.join([f"{k}: ${k}" for k in keys])]. *)
Definition properties_str (keys : list string) : string :=
  String.concat ", " (map (fun k => k ++ ": $" ++ k) keys).

(** The text that is sent for a statement: graph_db.py lines 43, 68-71
    and 100-105, memory.py lines 178, 185, 252-256, 266-270 and 303-307,
    memory_retrieval.py lines 33-37 and 139. The property keys of a node
    are the keys of the parameters. *)
Definition statement_text (q : Cypher) (params : Dict) : string :=
  match q with
  | CReturnOne => "RETURN 1"
  | CCreateNode ls =>
      "CREATE (n:" ++ String.concat ":" ls ++ " {" ++ properties_str (map fst params)
      ++ "}) RETURN id(n) as node_id"
  | CCreateRel t keys =>
      "MATCH (a), (b) " ++ newline
      ++ "                  WHERE id(a) = $start_id AND id(b) = $end_id " ++ newline
      ++ "                  CREATE (a)-[r:" ++ t ++ " {" ++ properties_str keys ++ "}]->(b) "
      ++ newline
      ++ "                  RETURN type(r)"
  | CFactById => "MATCH (f:Fact) WHERE id(f) = $id RETURN f"
  | CFactMentions => "MATCH (f:Fact)-[:MENTIONS]->(e) WHERE id(f) = $id RETURN e"
  | CConversationMessages =>
      "MATCH (c:Conversation)-[:CONTAINS]->(m:Message) WHERE id(c) = $id RETURN m ORDER BY m.order"
  | CEntityByName =>
      newline ++ "        MATCH (e) " ++ newline
      ++ "        WHERE e.name = $name" ++ newline
      ++ "        RETURN e" ++ newline ++ "        "
  | CFactsAboutEntity =>
      newline ++ "        MATCH (f:Fact)-[:MENTIONS]->(e)" ++ newline
      ++ "        WHERE e.name = $name" ++ newline
      ++ "        RETURN f" ++ newline ++ "        "
  | CMatchLabel l n =>
      newline ++ "        MATCH (e:" ++ l ++ ")" ++ newline
      ++ "        RETURN e" ++ newline
      ++ "        LIMIT " ++ str_of_int n ++ newline ++ "        "
  | CDeleteFacts => "MATCH (f:Fact) DETACH DELETE f"
  | CDeleteConversations => "MATCH (c:Conversation) DETACH DELETE c"
  | CDeleteAll => "MATCH (n) DETACH DELETE n"
  end.

(** A name as Cypher reads one without backticks, in ASCII: a letter,
    then letters, digits and underscores. *)
Definition is_letter (c : ascii) : bool :=
  let n := nat_of_ascii c in
  ((65 <=? n) && (n <=? 90) || (97 <=? n) && (n <=? 122))%nat.

Fixpoint name_tail (s : string) : bool :=
  match s with
  | EmptyString => true
  | String c s' => (is_letter c || is_digit c || (nat_of_ascii c =? 95)%nat) && name_tail s'
  end.

Definition identifier (s : string) : bool :=
  match s with
  | EmptyString => false
  | String c s' => is_letter c && name_tail s'
  end.

(** Labels that are names, one at least. *)
Definition label_names (ls : list string) : bool :=
  match ls with
  | [] => false
  | _ :: _ => forallb identifier ls
  end.

(** Whether every spliced part of the statement is a name. Only then is
    the text the statement that the constructor stands for: a label such
    as Person:Admin gives two labels, another text is refused by the
    server or is a statement of its own. *)
Definition well_spliced (q : Cypher) (params : Dict) : bool :=
  match q with
  | CCreateNode ls => label_names ls && forallb identifier (map fst params)
  | CCreateRel t keys => identifier t && forallb identifier keys
  | CMatchLabel l _ => identifier l
  | _ => true
  end.

Definition has_label (l : string) (n : Node) : bool :=
  existsb (String.eqb l) (node_labels n).

Definition find_node (ns : list Node) (i : Z) : option Node :=
  find (fun n => node_id n =? i) ns.

Definition node_val (n : Node) : PyVal :=
  VNode (node_id n) (node_labels n) (node_props n).

(** A result record with one column. *)
Definition record1 (column : string) (v : PyVal) : PyVal := VDict [(column, v)].

(** [id(x) = $id]. *)
Definition id_is (params : Dict) (n : Node) : bool :=
  pyval_eqb (VInt (node_id n)) (dict_get params "id" VNone).

(** [x.name = $name]; a missing property is null and equals nothing. *)
Definition name_is (params : Dict) (n : Node) : bool :=
  match dict_lookup (node_props n) "name" with
  | Some v => pyval_eqb v (dict_get params "name" VNone)
  | None => false
  end.

(** The key of ORDER BY m.order: the stored integer, a missing one last. *)
Definition order_key (n : Node) : option Z :=
  match dict_lookup (node_props n) "order" with
  | Some (VInt z) => Some z
  | _ => None
  end.

Definition order_leb (a b : Node) : bool :=
  match order_key a, order_key b with
  | Some x, Some y => x <=? y
  | Some _, None => true
  | None, Some _ => false
  | None, None => true
  end.

Fixpoint insert_by_order (n : Node) (l : list Node) : list Node :=
  match l with
  | [] => [n]
  | m :: l' => if order_leb n m then n :: m :: l' else m :: insert_by_order n l'
  end.

(** ORDER BY m.order, ascending. *)
Fixpoint sort_by_order (l : list Node) : list Node :=
  match l with
  | [] => []
  | n :: l' => insert_by_order n (sort_by_order l')
  end.

(** The pairs [(a)-[:t]->(b)] of the graph, in scan order. *)
Definition matches_of (w : World) (t : string) : list (Node * Node) :=
  flat_map (fun r =>
    if String.eqb (rel_type r) t then
      match find_node (nodes w) (rel_start r), find_node (nodes w) (rel_end r) with
      | Some a, Some b => [(a, b)]
      | _, _ => []
      end
    else []) (rels w).

(** A property set to null is not stored. *)
Definition stored_props (params : Dict) : Dict :=
  filter (fun kv => match snd kv with VNone => false | _ => true end) params.

Definition param_int (params : Dict) (k : string) : option Z :=
  match dict_lookup params k with
  | Some (VInt z) => Some z
  | _ => None
  end.

(** A call that this development does not read: the world says what it
    returns and what it leaves of the graph. *)
Definition run_unread (text : string) (params : Dict) : M (list PyVal) :=
  fun w =>
  let '(r, (ns, rs, n)) := unread w text params (nodes w, rels w, next_id w) in
  (r, set_graph ns rs n w).

(** MATCH (x:l) DETACH DELETE x: the nodes with the label go, and the
    relationships that start or end at one of them. *)
Definition delete_label (l : string) (w : World) : World :=
  let gone := fun i => match find_node (nodes w) i with
                       | Some n => has_label l n
                       | None => false
                       end in
  set_graph (filter (fun n => negb (has_label l n)) (nodes w))
            (filter (fun r => negb (gone (rel_start r) || gone (rel_end r))) (rels w))
            (next_id w) w.

(** What the server does with a statement and its parameters, and the
    records it sends back. A statement with a spliced part that is no
    name is not read here. *)
Definition cypher (q : Cypher) (params : Dict) : M (list PyVal) :=
  fun w =>
  match q with
  | CReturnOne => (Ok [record1 "1" (VInt 1)], w)
  | CCreateNode ls =>
      if well_spliced q params then
        let n := Build_Node (next_id w) ls (stored_props params) in
        (Ok [record1 "node_id" (VInt (next_id w))],
         set_graph (n :: nodes w) (rels w) (next_id w + 1) w)
      else run_unread (statement_text q params) params w
  | CCreateRel t keys =>
      if well_spliced q params then
        match param_int params "start_id", param_int params "end_id" with
        | Some a, Some b =>
            match find_node (nodes w) a, find_node (nodes w) b with
            | Some _, Some _ =>
                let props := map (fun k => (k, dict_get params k VNone)) keys in
                (Ok [record1 "type(r)" (VStr t)],
                 set_graph (nodes w) (Build_Rel a b t (stored_props props) :: rels w)
                           (next_id w) w)
            | _, _ => (Ok [], w)
            end
        | _, _ => (Ok [], w)
        end
      else run_unread (statement_text q params) params w
  | CFactById =>
      (Ok (map (fun n => record1 "f" (node_val n))
               (filter (fun n => has_label "Fact" n && id_is params n) (nodes w))), w)
  | CFactMentions =>
      (Ok (map (fun ab => record1 "e" (node_val (snd ab)))
               (filter (fun ab => has_label "Fact" (fst ab) && id_is params (fst ab))
                       (matches_of w "MENTIONS"))), w)
  | CConversationMessages =>
      (Ok (map (fun m => record1 "m" (node_val m))
               (sort_by_order
                  (map snd (filter (fun ab => has_label "Conversation" (fst ab)
                                              && has_label "Message" (snd ab)
                                              && id_is params (fst ab))
                                   (matches_of w "CONTAINS"))))), w)
  | CEntityByName =>
      (Ok (map (fun n => record1 "e" (node_val n)) (filter (name_is params) (nodes w))), w)
  | CFactsAboutEntity =>
      (Ok (map (fun ab => record1 "f" (node_val (fst ab)))
               (filter (fun ab => has_label "Fact" (fst ab) && name_is params (snd ab))
                       (matches_of w "MENTIONS"))), w)
  | CMatchLabel l n =>
      if well_spliced q params then
        if n <? 0 then (Raise StoreError, w)
        else (Ok (map (fun x => record1 "e" (node_val x))
                      (firstn (Z.to_nat n) (filter (has_label l) (nodes w)))), w)
      else run_unread (statement_text q params) params w
  | CDeleteFacts => (Ok [], delete_label "Fact" w)
  | CDeleteConversations => (Ok [], delete_label "Conversation" w)
  | CDeleteAll => (Ok [], set_graph [] [] (next_id w) w)
  end.

Definition has_key (d : Dict) (k : string) : bool :=
  match dict_lookup d k with
  | Some _ => true
  | None => false
  end.

(** [with self.driver.session() as session: session.run(text, **params)].
    The parameters of the statement are passed as keyword arguments of
    the driver's [run(self, query, parameters=None, **kwargs)]: one that
    is called query or self gives that parameter a second value, a
    TypeError of the call itself, raised before anything is sent; one
    that is called parameters goes to the driver's parameter of that
    name, and what the driver makes of it is not read here. *)
Definition session_run (q : Cypher) (params : Dict) : M (list PyVal) :=
  if has_key params "query" || has_key params "self" then raise TypeError
  else if has_key params "parameters"
  then outside (run_unread (statement_text q params) params)
  else outside (cypher q params).

(* ===================================================================== *)
(** ** graph_db.py: class GraphDatabase *)
(* ===================================================================== *)

(** [Optional[int]] as [if x:] tests it: None and 0 are both false. *)
Definition id_truthy (o : option Z) : bool :=
  match o with
  | Some z => negb (z =? 0)
  | None => false
  end.

(** [':'.join(labels)]: every label must be a string. *)
Fixpoint join_labels (labels : list PyVal) : Res (list string) :=
  match labels with
  | [] => Ok []
  | VStr s :: ls =>
      match join_labels ls with
      | Ok ss => Ok (s :: ss)
      | Raise e => Raise e
      end
  | _ :: _ => Raise TypeError
  end.

Module GraphDatabase.

(** [GraphDatabase.connect], graph_db.py lines 33-47: the driver is
    assigned as soon as it is built, the test query comes after; only
    ServiceUnavailable is caught. *)
Definition connect : M bool :=
  try_except_unavailable
    (outside (modify (set_driver true)) ;;;
     session_run CReturnOne [] ;;;
     ret true)
    (ret false).

(** [if not self.driver: if not self.connect(): return ...]; tells
    whether the method goes on. *)
Definition ensure_driver : M bool :=
  d <- gets driver ;;
  if d then ret true else connect.

(** [GraphDatabase.create_node], lines 54-80: the label text is built
    before the try block; the properties are the parameters of the
    statement. *)
Definition create_node (labels : list PyVal) (properties : Dict) : M (option Z) :=
  go <- ensure_driver ;;
  if negb go then ret None else
  labels_str <- lift (join_labels labels) ;;
  try_except
    (result <- session_run (CCreateNode labels_str) properties ;;
     ret (match result with
          | VDict record :: _ =>
              match dict_lookup record "node_id" with
              | Some (VInt z) => Some z
              | _ => None
              end
          | _ => None
          end))
    (fun _ => ret None).

(** [GraphDatabase.create_relationship], lines 82-114: True when the
    statement returned a record, that is when both nodes exist. *)
Definition create_relationship (start_node_id end_node_id : Z)
           (relationship_type : string) (properties : option Dict) : M bool :=
  go <- ensure_driver ;;
  if negb go then ret false else
  let properties := match properties with Some p => p | None => [] end in
  try_except
    (let params := dict_update [("start_id", VInt start_node_id);
                                ("end_id", VInt end_node_id)] properties in
     result <- session_run (CCreateRel relationship_type (map fst properties)) params ;;
     ret (match result with [] => false | _ :: _ => true end))
    (fun _ => ret false).

(** [GraphDatabase.query], lines 116-138. *)
Definition query (cypher_query : Cypher) (params : option Dict) : M (list PyVal) :=
  go <- ensure_driver ;;
  if negb go then ret [] else
  let params := match params with Some p => if truthy (VDict p) then p else [] | None => [] end in
  try_except (session_run cypher_query params) (fun _ => ret []).

End GraphDatabase.

(* ===================================================================== *)
(** ** The Chroma collection *)
(* ===================================================================== *)

(** [len(v)]. *)
Definition py_len (v : PyVal) : Res nat :=
  match v with
  | VList l => Ok (List.length l)
  | VDict d => Ok (List.length d)
  | VStr s => Ok (String.length s)
  | _ => Raise TypeError
  end.

(** [v[i]] with an integer index in range of a list. *)
Definition py_index (v : PyVal) (i : nat) : Res PyVal :=
  match v with
  | VList l => match nth_error l i with Some x => Ok x | None => Raise IndexError end
  | VDict _ => Raise KeyError
  | _ => Raise TypeError
  end.

(** [collection.add] validates its input: as many metadatas and ids as
    documents, every document and id a string, every metadata a dict. *)
Fixpoint new_documents (documents metadatas ids : list PyVal) : option (list Document) :=
  match documents, metadatas, ids with
  | [], [], [] => Some []
  | VStr t :: ds, VDict m :: ms, VStr i :: is_ =>
      option_map (cons (Build_Document i t m)) (new_documents ds ms is_)
  | _, _, _ => None
  end.

Definition collection_add (documents metadatas ids : PyVal) : M unit :=
  outside
    (match documents, metadatas, ids with
     | VList ds, VList ms, VList is_ =>
         match new_documents ds ms is_ with
         | Some new => fun w => (Ok tt, set_docs (docs w ++ new) w)
         | None => raise ValueError
         end
     | _, _, _ => raise ValueError
     end).

Definition hit_lists (hits : list (Document * PyVal)) : Dict :=
  [("ids", VList [VList (map (fun h => VStr (doc_id (fst h))) hits)]);
   ("documents", VList [VList (map (fun h => VStr (doc_text (fst h))) hits)]);
   ("metadatas", VList [VList (map (fun h => VDict (doc_meta (fst h))) hits)]);
   ("distances", VList [VList (map snd hits)])].

(** [collection.query(query_texts=[q], n_results=n, where=f)]: the [n]
    nearest of the documents that pass the filter, as parallel lists. *)
Definition collection_query `{Externals} (query_text n_results where_ : PyVal) : M PyVal :=
  outside
    (match query_text, n_results with
     | VStr q, VInt n =>
         if n <=? 0 then raise ValueError else
         match where_ with
         | VNone =>
             fun w => (Ok (VDict (hit_lists (firstn (Z.to_nat n) (nearest q (docs w))))), w)
         | VDict f =>
             fun w => (Ok (VDict (hit_lists (firstn (Z.to_nat n)
                         (nearest q (filter (fun d => where_matches f (doc_meta d)) (docs w)))))), w)
         | _ => raise ValueError
         end
     | _, _ => raise ValueError
     end).

Definition id_in (ids : list PyVal) (d : Document) : bool :=
  existsb (fun i => is_str i (doc_id d)) ids.

(** [collection.delete(ids=...)]. *)
Definition collection_delete_ids (ids : PyVal) : M unit :=
  outside
    (match ids with
     | VList is_ => fun w => (Ok tt, set_docs (filter (fun d => negb (id_in is_ d)) (docs w)) w)
     | _ => raise ValueError
     end).

(** [collection.delete(where=...)]. *)
Definition collection_delete_where `{Externals} (where_ : PyVal) : M unit :=
  outside
    (match where_ with
     | VDict f =>
         fun w => (Ok tt, set_docs (filter (fun d => negb (where_matches f (doc_meta d))) (docs w)) w)
     | _ => raise ValueError
     end).

(** [str(uuid.uuid4())]. *)
Definition uuid4 : M PyVal :=
  fun w => (Ok (VStr ("uuid-" ++ str_of_int (uuids w))), set_uuids (uuids w + 1) w).

Fixpoint uuid4s (n : nat) : M (list PyVal) :=
  match n with
  | O => ret []
  | S n' => u <- uuid4 ;; us <- uuid4s n' ;; ret (u :: us)
  end.

(* ===================================================================== *)
(** ** vector_db.py: class VectorDatabase *)
(* ===================================================================== *)

Module VectorDatabase.

(** [VectorDatabase.connect], vector_db.py lines 35-62: client,
    embedding function and collection are assigned one after the other;
    every exception is caught. *)
Definition connect : M bool :=
  try_except
    (outside (modify (set_client true)) ;;;
     outside (ret tt) ;;;
     outside (modify (set_collection true)) ;;;
     ret true)
    (fun _ => ret false).

(** [if not self.client or not self.collection: if not self.connect():
    return ...]; tells whether the method goes on. *)
Definition ensure_collection : M bool :=
  c <- gets client ;;
  k <- gets collection ;;
  if negb c || negb k then connect else ret true.

(** [VectorDatabase.add_documents], lines 64-99: its parameters, its
    body, and the call. *)
Definition add_documents_sig : Signature :=
  [("documents", None); ("metadatas", Some VNone); ("ids", Some VNone)].

Definition add_documents_body (documents metadatas ids : PyVal) : M bool :=
  go <- ensure_collection ;;
  if negb go then ret false else
  try_except
    (ids <- (if negb (truthy ids)
             then n <- lift (py_len documents) ;; us <- uuid4s n ;; ret (VList us)
             else ret ids) ;;
     metadatas <- (if negb (truthy metadatas)
                   then n <- lift (py_len documents) ;; ret (VList (repeat (VDict []) n))
                   else ret metadatas) ;;
     collection_add documents metadatas ids ;;;
     ret true)
    (fun _ => ret false).

Definition add_documents (pos : list PyVal) (kw : Dict) : M bool :=
  args <- lift (bind_args add_documents_sig pos kw) ;;
  match args with
  | [documents; metadatas; ids] => add_documents_body documents metadatas ids
  | _ => raise TypeError
  end.

(** [VectorDatabase.query], lines 101-138. *)
Definition query_sig : Signature :=
  [("query_text", None); ("n_results", Some (VInt 5)); ("filter_metadata", Some VNone)].

(** One step of the formatting loop: the dict built for index [i]. *)
Definition formatted (results : PyVal) (i : nat) : Res PyVal :=
  let column := fun k =>
    match py_getitem results k with
    | Ok c => match py_index c 0 with
              | Ok row => py_index row i
              | Raise e => Raise e
              end
    | Raise e => Raise e
    end in
  match column "documents" with
  | Raise e => Raise e
  | Ok document =>
  match column "metadatas" with
  | Raise e => Raise e
  | Ok metadata =>
  match column "ids" with
  | Raise e => Raise e
  | Ok id =>
  match (match results with
         | VDict r => match dict_lookup r "distances" with
                      | Some _ => column "distances"
                      | None => Ok VNone
                      end
         | _ => Raise TypeError
         end) with
  | Raise e => Raise e
  | Ok distance =>
      Ok (VDict [("document", document); ("metadata", metadata);
                 ("id", id); ("distance", distance)])
  end end end end.

Fixpoint format_results (results : PyVal) (indices : list nat) : Res (list PyVal) :=
  match indices with
  | [] => Ok []
  | i :: rest =>
      match formatted results i with
      | Raise e => Raise e
      | Ok r => match format_results results rest with
                | Raise e => Raise e
                | Ok rs => Ok (r :: rs)
                end
      end
  end.

Definition query_body `{Externals} (query_text n_results filter_metadata : PyVal)
  : M (list PyVal) :=
  go <- ensure_collection ;;
  if negb go then ret [] else
  try_except
    (results <- collection_query query_text n_results filter_metadata ;;
     documents <- lift (py_getitem results "documents") ;;
     row <- lift (py_index documents 0) ;;
     n <- lift (py_len row) ;;
     lift (format_results results (seq 0 n)))
    (fun _ => ret []).

Definition query `{Externals} (pos : list PyVal) (kw : Dict) : M (list PyVal) :=
  args <- lift (bind_args query_sig pos kw) ;;
  match args with
  | [query_text; n_results; filter_metadata] => query_body query_text n_results filter_metadata
  | _ => raise TypeError
  end.

(** [VectorDatabase.delete], lines 140-165. *)
Definition delete_sig : Signature :=
  [("ids", Some VNone); ("filter_metadata", Some VNone)].

Definition delete_body `{Externals} (ids filter_metadata : PyVal) : M bool :=
  go <- ensure_collection ;;
  if negb go then ret false else
  try_except
    (if truthy ids then collection_delete_ids ids ;;; ret true
     else if truthy filter_metadata then collection_delete_where filter_metadata ;;; ret true
     else ret false)
    (fun _ => ret false).

Definition delete `{Externals} (pos : list PyVal) (kw : Dict) : M bool :=
  args <- lift (bind_args delete_sig pos kw) ;;
  match args with
  | [ids; filter_metadata] => delete_body ids filter_metadata
  | _ => raise TypeError
  end.

End VectorDatabase.

(* ===================================================================== *)
(** ** memory.py: class MemoryManager *)
(* ===================================================================== *)

(** [str(x) if x else None] and [f"prefix{x}" if x else None] on a node
    id: the text only for an id that tests true. *)
Definition text_if_truthy (prefix : string) (o : option Z) : PyVal :=
  match o with
  | Some z => if id_truthy o then VStr (prefix ++ str_of_int z) else VNone
  | None => VNone
  end.

(** [f"{v}"]. *)
Definition py_format `{Externals} (v : PyVal) : string :=
  match v with
  | VStr s => s
  | VInt z => str_of_int z
  | VBool true => "True"
  | VBool false => "False"
  | VNone => "None"
  | _ => py_repr v
  end.

(** [**metadata] needs a mapping. *)
Definition unpack (v : PyVal) : Res Dict :=
  match v with
  | VDict d => Ok d
  | _ => Raise TypeError
  end.

(** The dict [categorize_memories] returns. *)
Record Categorized := { facts : list PyVal; conversations : list PyVal }.

(** The dict [get_entity_information] returns. *)
Record EntityInformation := { entity : PyVal; related_facts : list PyVal }.

Module MemoryManager.

(** [MemoryManager.initialize], memory.py lines 33-42. *)
Definition initialize : M bool :=
  graph_connected <- GraphDatabase.connect ;;
  vector_connected <- VectorDatabase.connect ;;
  modify (set_initialized (graph_connected && vector_connected)) ;;;
  ret (graph_connected && vector_connected).

(** [if not self.initialized and not self.initialize(): return ...];
    tells whether the method goes on. *)
Definition ensure_initialized : M bool :=
  i <- gets initialized ;;
  if i then ret true else initialize.

(** The body of the loop over [related_entities]. *)
Definition mention `{Externals} (fact_node_id : Z) (entity : PyVal) : M unit :=
  type_ <- lift (py_get entity "type" (VStr "Entity")) ;;
  name <- lift (py_get entity "name" VNone) ;;
  properties <- lift (py_get entity "properties" (VDict [])) ;;
  entity_node_id <- GraphDatabase.create_node [type_]
                      [("name", name); ("properties", VStr (json_dumps properties))] ;;
  match entity_node_id with
  | Some e =>
      if id_truthy entity_node_id
      then GraphDatabase.create_relationship fact_node_id e "MENTIONS" None ;;; ret tt
      else ret tt
  | None => ret tt
  end.

(** [MemoryManager.store_fact], lines 44-92. *)
Definition store_fact `{Externals} (fact source related_entities : PyVal) : M (option Z) :=
  go <- ensure_initialized ;;
  if negb go then ret None else
  timestamp <- now_isoformat ;;
  let properties := [("content", fact); ("timestamp", timestamp);
                     ("source", py_or source (VStr "agent"))] in
  fact_node_id <- GraphDatabase.create_node [VStr "Fact"] properties ;;
  (match fact_node_id with
   | Some f =>
       if truthy related_entities && id_truthy fact_node_id
       then entities <- lift (py_iter related_entities) ;; for_each entities (mention f)
       else ret tt
   | None => ret tt
   end) ;;;
  timestamp' <- now_isoformat ;;
  VectorDatabase.add_documents []
    [("documents", VList [fact]);
     ("metadatas", VList [VDict [("type", VStr "fact");
                                 ("source", py_or source (VStr "agent"));
                                 ("timestamp", timestamp');
                                 ("graph_id", text_if_truthy "" fact_node_id)]]);
     ("ids", VList [text_if_truthy "fact_" fact_node_id])] ;;;
  ret fact_node_id.

(** The body of the loop over [enumerate(messages)]. *)
Definition store_message `{Externals} (conversation_node_id : option Z)
           (im : nat * PyVal) : M unit :=
  let (i, message) := im in
  role <- lift (py_get message "role" (VStr "unknown")) ;;
  content <- lift (py_get message "content" (VStr "")) ;;
  stamp <- now_isoformat ;;
  timestamp <- lift (py_get message "timestamp" stamp) ;;
  let message_properties := [("role", role); ("content", content);
                             ("timestamp", timestamp); ("order", VInt (Z.of_nat i))] in
  message_node_id <- GraphDatabase.create_node [VStr "Message"] message_properties ;;
  match message_node_id, conversation_node_id with
  | Some m, Some c =>
      if id_truthy message_node_id && id_truthy conversation_node_id
      then GraphDatabase.create_relationship c m "CONTAINS" None ;;; ret tt
      else ret tt
  | _, _ => ret tt
  end.

(** [f"{m.get('role', 'unknown')}: {m.get('content', '')}"] for every
    message. *)
Fixpoint message_lines `{Externals} (messages : list PyVal) : Res (list string) :=
  match messages with
  | [] => Ok []
  | m :: ms =>
      match py_get m "role" (VStr "unknown") with
      | Raise e => Raise e
      | Ok role =>
      match py_get m "content" (VStr "") with
      | Raise e => Raise e
      | Ok content =>
      match message_lines ms with
      | Raise e => Raise e
      | Ok ls => Ok ((py_format role ++ ": " ++ py_format content) :: ls)
      end end end
  end.

(** [MemoryManager.store_conversation], lines 94-151. *)
Definition store_conversation `{Externals} (messages : list PyVal)
           (context metadata : PyVal) : M bool :=
  go <- ensure_initialized ;;
  if negb go then ret false else
  let metadata := py_or metadata (VDict []) in
  timestamp <- now_isoformat ;;
  extra <- lift (unpack metadata) ;;
  let properties := dict_update [("timestamp", timestamp);
                                 ("context", py_or context (VStr ""))] extra in
  conversation_node_id <- GraphDatabase.create_node [VStr "Conversation"] properties ;;
  for_each (combine (seq 0 (List.length messages)) messages)
           (store_message conversation_node_id) ;;;
  lines <- lift (message_lines messages) ;;
  let conversation_text := String.concat newline lines in
  timestamp' <- now_isoformat ;;
  extra' <- lift (unpack metadata) ;;
  VectorDatabase.add_documents []
    [("documents", VList [VStr conversation_text]);
     ("metadatas", VList [VDict (dict_update
                             [("type", VStr "conversation");
                              ("timestamp", timestamp');
                              ("context", py_or context (VStr ""));
                              ("graph_id", text_if_truthy "" conversation_node_id)]
                             extra')]);
     ("ids", VList [text_if_truthy "conversation_" conversation_node_id])] ;;;
  ret true.

(** The body of the enrichment loop: the hit, with what the graph adds. *)
Definition enhance `{Externals} (result : PyVal) : M PyVal :=
  metadata <- lift (py_get result "metadata" (VDict [])) ;;
  graph_id <- lift (py_get metadata "graph_id" VNone) ;;
  if truthy graph_id then
    type_ <- lift (py_get metadata "type" VNone) ;;
    if is_str type_ "fact" then
      id <- lift (py_int graph_id) ;;
      related <- GraphDatabase.query CFactMentions (Some [("id", VInt id)]) ;;
      match result with
      | VDict r => ret (VDict (dict_set r "related_entities" (VList related)))
      | _ => raise TypeError
      end
    else
      type_' <- lift (py_get metadata "type" VNone) ;;
      if is_str type_' "conversation" then
        id <- lift (py_int graph_id) ;;
        messages <- GraphDatabase.query CConversationMessages (Some [("id", VInt id)]) ;;
        match result with
        | VDict r => ret (VDict (dict_set r "messages" (VList messages)))
        | _ => raise TypeError
        end
      else ret result
  else ret result.

Fixpoint enhance_all `{Externals} (results : list PyVal) : M (list PyVal) :=
  match results with
  | [] => ret []
  | result :: rest =>
      r <- enhance result ;;
      rs <- enhance_all rest ;;
      ret (r :: rs)
  end.

(** [MemoryManager.retrieve_relevant_memories], lines 153-192. *)
Definition retrieve_relevant_memories `{Externals} (query : PyVal) (limit : Z)
  : M (list PyVal) :=
  go <- ensure_initialized ;;
  if negb go then ret [] else
  results <- VectorDatabase.query [query] [("n_results", VInt limit)] ;;
  enhance_all results.

(** [memory.get("metadata", {}).get("type")]. *)
Definition memory_type_of (memory : PyVal) : Res PyVal :=
  match py_get memory "metadata" (VDict []) with
  | Ok metadata => py_get metadata "type" VNone
  | Raise e => Raise e
  end.

(** The loop that sorts the memories into the two lists. *)
Fixpoint categorize (memories : list PyVal) (categorized : Categorized) : Res Categorized :=
  match memories with
  | [] => Ok categorized
  | memory :: rest =>
      match memory_type_of memory with
      | Raise e => Raise e
      | Ok memory_type =>
          if is_str memory_type "fact" then
            categorize rest (Build_Categorized (facts categorized ++ [memory])
                                               (conversations categorized))
          else if is_str memory_type "conversation" then
            categorize rest (Build_Categorized (facts categorized)
                                               (conversations categorized ++ [memory]))
          else categorize rest categorized
      end
  end.

(** [MemoryManager.categorize_memories], lines 209-237. *)
Definition categorize_memories `{Externals} (query : PyVal) : M Categorized :=
  go <- ensure_initialized ;;
  if negb go then ret (Build_Categorized [] []) else
  memories <- retrieve_relevant_memories query 10 ;;
  lift (categorize memories (Build_Categorized [] [])).

(** [[record["f"] for record in facts_result]]. *)
Fixpoint column_f (facts_result : list PyVal) : Res (list PyVal) :=
  match facts_result with
  | [] => Ok []
  | record :: rest =>
      match py_getitem record "f" with
      | Raise e => Raise e
      | Ok f => match column_f rest with
                | Raise e => Raise e
                | Ok fs => Ok (f :: fs)
                end
      end
  end.

(** [MemoryManager.get_entity_information], lines 239-278. *)
Definition get_entity_information (entity_name : PyVal) : M EntityInformation :=
  go <- ensure_initialized ;;
  if negb go then ret (Build_EntityInformation VNone []) else
  entity_result <- GraphDatabase.query CEntityByName (Some [("name", entity_name)]) ;;
  match entity_result with
  | [] => ret (Build_EntityInformation VNone [])
  | first :: _ =>
      entity <- lift (py_getitem first "e") ;;
      facts_result <- GraphDatabase.query CFactsAboutEntity (Some [("name", entity_name)]) ;;
      related_facts <- lift (column_f facts_result) ;;
      ret (Build_EntityInformation entity related_facts)
  end.

(** [MemoryManager.clear_memory], lines 280-312. *)
Definition clear_memory `{Externals} (memory_type : PyVal) : M bool :=
  go <- ensure_initialized ;;
  if negb go then ret false else
  try_except
    ((if truthy memory_type
      then VectorDatabase.delete [] [("where", VDict [("type", memory_type)])]
      else VectorDatabase.delete [] [("where", VDict [])]) ;;;
     (if is_str memory_type "fact"
      then GraphDatabase.query CDeleteFacts None ;;; ret tt
      else if is_str memory_type "conversation"
      then GraphDatabase.query CDeleteConversations None ;;; ret tt
      else match memory_type with
           | VNone => GraphDatabase.query CDeleteAll None ;;; ret tt
           | _ => ret tt
           end) ;;;
     ret true)
    (fun _ => ret false).

End MemoryManager.

(* ===================================================================== *)
(** ** memory_retrieval.py: class MemoryRetrieval *)
(* ===================================================================== *)

(** The static methods take the memory manager as their first argument;
    MemoryManager's methods of the same names pass their arguments on
    unchanged. *)
Module MemoryRetrieval.

(** [retrieve_by_entity_type], memory_retrieval.py lines 18-39, for a
    string and an int, as the signature has them: both are spliced into
    the text of the statement. *)
Definition retrieve_by_entity_type (entity_type : string) (limit : Z) : M (list PyVal) :=
  go <- MemoryManager.ensure_initialized ;;
  if negb go then ret [] else
  GraphDatabase.query (CMatchLabel entity_type limit) (Some []).

(** [datetime.timedelta(days=days)], in microseconds: a timedelta holds
    at most 999999999 days either way. *)
Definition timedelta_days (days : Z) : Res Z :=
  if Z.abs days <=? 999999999 then Ok (days * 86400000000) else Raise OverflowError.

(** The first and the last datetime, 0001-01-01T00:00:00 and
    9999-12-31T23:59:59.999999, in microseconds from the epoch. *)
Definition datetime_min : Z := -62135596800000000.
Definition datetime_max : Z := 253402300799999999.

(** [t - delta] for a datetime and a timedelta: the result must be a
    datetime. *)
Definition datetime_sub (t delta : Z) : Res Z :=
  if (datetime_min <=? t - delta) && (t - delta <=? datetime_max)
  then Ok (t - delta)
  else Raise OverflowError.

(** [retrieve_recent_memories], lines 71-99. *)
Definition retrieve_recent_memories `{Externals} (memory_type : PyVal) (days limit : Z)
  : M (list PyVal) :=
  go <- MemoryManager.ensure_initialized ;;
  if negb go then ret [] else
  now <- datetime_now ;;
  delta <- lift (timedelta_days days) ;;
  threshold <- lift (datetime_sub now delta) ;;
  let threshold_date := VStr (isoformat threshold) in
  let where_clause := [("timestamp", VDict [("$gt", threshold_date)])] in
  let where_clause := if truthy memory_type
                      then dict_set where_clause "type" memory_type
                      else where_clause in
  VectorDatabase.query []
    [("query", VStr ""); ("where", VDict where_clause); ("n_results", VInt limit)].

(** [retrieve_memories_by_source], lines 101-120. *)
Definition retrieve_memories_by_source `{Externals} (source : PyVal) (limit : Z)
  : M (list PyVal) :=
  go <- MemoryManager.ensure_initialized ;;
  if negb go then ret [] else
  VectorDatabase.query []
    [("query", VStr ""); ("where", VDict [("source", source)]); ("n_results", VInt limit)].

(** [retrieve_related_facts], lines 122-153. *)
Definition retrieve_related_facts `{Externals} (fact_id : PyVal) (limit : Z)
  : M (list PyVal) :=
  go <- MemoryManager.ensure_initialized ;;
  if negb go then ret [] else
  id <- (match fact_id with
         | VStr _ => z <- lift (py_int fact_id) ;; ret (VInt z)
         | _ => ret fact_id
         end) ;;
  fact_node <- GraphDatabase.query CFactById (Some [("id", id)]) ;;
  match fact_node with
  | [] => ret []
  | first :: _ =>
      f <- lift (py_getitem first "f") ;;
      fact_content <- lift (py_get f "content" (VStr "")) ;;
      hits <- VectorDatabase.query []
                [("query", fact_content); ("where", VDict [("type", VStr "fact")]);
                 ("n_results", VInt (limit + 1))] ;;
      ret (skipn 1 hits)
  end.

End MemoryRetrieval.

(* ===================================================================== *)
(** ** knowledge_agent.py: the extraction part of [knowledge_agent] *)
(* ===================================================================== *)

(** [v.lower()]: only a string has the method. *)
Definition py_lower `{Externals} (v : PyVal) : Res string :=
  match v with
  | VStr s => Ok (str_lower s)
  | _ => Raise AttributeError
  end.

(** A list or a dict cannot be the key of a dict. *)
Definition hashable (v : PyVal) : bool :=
  match v with
  | VList _ | VDict _ => false
  | _ => true
  end.

(** Whether two keys of a dict are one key: the same object, or equal.
    Every nan of the program is the one object that [json.loads] gives
    for NaN. *)
Definition key_eqb (k k' : PyVal) : bool :=
  match k, k' with
  | VNonFinite NaN, VNonFinite NaN => true
  | _, _ => pyval_eqb k k'
  end.

(** [entity_info[k] = v]. *)
Fixpoint info_set (d : list (PyVal * EntityInformation)) (k : PyVal) (v : EntityInformation)
  : list (PyVal * EntityInformation) :=
  match d with
  | [] => [(k, v)]
  | (k', v') :: d' =>
      if key_eqb k k' then (k', v) :: d' else (k', v') :: info_set d' k v
  end.

(** From the two answers of the language model on: the text of the
    entity answer and of the fact answer are the inputs
    ([entity_extraction_response.content] and
    [fact_extraction_response.content]). *)
Module KnowledgeAgent.

(** knowledge_agent.py lines 74-80, the first try block: the entities,
    or [[]] when the answer does not parse. *)
Definition parse_entities `{Externals} (entity_content : string) : PyVal :=
  match json_loads entity_content with
  | Some extracted_entities => extracted_entities
  | None => VList []
  end.

(** The inner loop: the entities whose lowered name occurs in the
    lowered content of the fact. *)
Fixpoint link `{Externals} (entities : list PyVal) (fact : PyVal) : Res (list PyVal) :=
  match entities with
  | [] => Ok []
  | entity :: rest =>
      match py_getitem entity "name" with
      | Raise e => Raise e
      | Ok name =>
      match py_lower name with
      | Raise e => Raise e
      | Ok needle =>
      match py_getitem fact "content" with
      | Raise e => Raise e
      | Ok content =>
      match py_lower content with
      | Raise e => Raise e
      | Ok hay =>
      match link rest fact with
      | Raise e => Raise e
      | Ok related => Ok (if str_contains needle hay then entity :: related else related)
      end end end end end
  end.

Definition related_entities_of `{Externals} (entities fact : PyVal) : Res (list PyVal) :=
  match py_iter entities with
  | Raise e => Raise e
  | Ok es => link es fact
  end.

(** The body of the loop over the facts. *)
Definition store_extracted `{Externals} (entities fact : PyVal) : M unit :=
  related_entities <- lift (related_entities_of entities fact) ;;
  content <- lift (py_getitem fact "content") ;;
  MemoryManager.store_fact content (VStr "conversation") (VList related_entities) ;;;
  ret tt.

(** Lines 82-100, the second try block. *)
Definition store_facts `{Externals} (entities : PyVal) (fact_content : string) : M unit :=
  try_except
    (facts <- (match json_loads fact_content with
               | Some v => ret v
               | None => raise JSONDecodeError
               end) ;;
     fs <- lift (py_iter facts) ;;
     for_each fs (store_extracted entities))
    (fun _ => ret tt).

(** Lines 102-107, the loop that fills [entity_info]. *)
Fixpoint entity_information (entities : list PyVal)
         (entity_info : list (PyVal * EntityInformation))
  : M (list (PyVal * EntityInformation)) :=
  match entities with
  | [] => ret entity_info
  | entity :: rest =>
      entity_name <- lift (py_get entity "name" VNone) ;;
      if truthy entity_name then
        info <- MemoryManager.get_entity_information entity_name ;;
        if hashable entity_name
        then entity_information rest (info_set entity_info entity_name info)
        else raise TypeError
      else entity_information rest entity_info
  end.

(** The entities and the entity information that [knowledge_agent]
    returns, after the facts are stored. *)
Definition extraction `{Externals} (entity_content fact_content : string)
  : M (PyVal * list (PyVal * EntityInformation)) :=
  let entities := parse_entities entity_content in
  store_facts entities fact_content ;;;
  es <- lift (py_iter entities) ;;
  entity_info <- entity_information es [] ;;
  ret (entities, entity_info).

End KnowledgeAgent.

(* ===================================================================== *)
(** ** prompts/template.py: class OpenManusPromptTemplate *)
(* ===================================================================== *)

(** [s.replace(c, by)] for a pattern of one character. *)
Fixpoint str_replace (c : ascii) (by_ : string) (s : string) : string :=
  match s with
  | EmptyString => EmptyString
  | String x s' =>
      if Ascii.eqb x c then by_ ++ str_replace c by_ s'
      else String x (str_replace c by_ s')
  end.

(** The length of the longest run of characters other than [>] that
    [s] starts with: what the greedy [[^>>]+] takes. *)
Fixpoint span_not_gt (s : string) : nat :=
  match s with
  | EmptyString => O
  | String x s' => if Ascii.eqb x ">"%char then O else S (span_not_gt s')
  end.

(** [s[n:]]. *)
Fixpoint str_skip (n : nat) (s : string) : string :=
  match n, s with
  | S k, String _ s' => str_skip k s'
  | _, _ => s
  end.

(** A match of the pattern [<<([^>>]+)>>] at the start of [s], as its
    length: two [<], a run of at least one character other than [>],
    two [>]. The character class excludes [>], so giving back part of
    the run cannot make the closing [>>] match. *)
Definition placeholder_at (s : string) : option nat :=
  match s with
  | String "<"%char (String "<"%char rest) =>
      let n := span_not_gt rest in
      if (0 <? n)%nat && String.prefix ">>" (str_skip n rest)
      then Some (n + 4)%nat
      else None
  | _ => None
  end.

(** [re.sub(pattern, "{1}", s)] for that pattern: the text is scanned
    from the left, every match is replaced by the replacement text and
    the scan goes on behind it. [skip] counts the characters of the
    current match that are still to be passed over. The replacement text
    holds no backslash, so it is copied as it stands. *)
Fixpoint re_sub (skip : nat) (s : string) : string :=
  match s with
  | EmptyString => EmptyString
  | String x s' =>
      match skip with
      | S k => re_sub k s'
      | O =>
          match placeholder_at (String x s') with
          | Some n => "{1}" ++ re_sub (n - 1) s'
          | None => String x (re_sub 0 s')
          end
      end
  end.

(** What the module asks of its surroundings: the prompt files next to
    template.py ([open(path).read()]), [strftime] of a clock reading
    with the format of line 55, the making of a PromptTemplate from a
    template text (which checks the text), its [format] on keyword
    arguments, [get_llm()] and [llm.invoke(prompt).content]. Where one
    of them raises, the instance names the exception; no statement
    depends on which it is. *)
Class Prompting : Type := {
  read_text : string -> Res string;
  strftime : Z -> string;
  prompt_template : string -> Res string;
  prompt_format : string -> Dict -> Res string;
  get_llm : Res unit;
  llm_invoke : PyVal -> Res string
}.

Module OpenManusPromptTemplate.

(** What [get_prompt_template] does with the text of the file,
    template.py lines 37-41. *)
Definition process (template : string) : string :=
  re_sub 0 (str_replace "}"%char "}}" (str_replace "{"%char "{{" template)).

(** [OpenManusPromptTemplate.get_prompt_template], lines 24-41. *)
Definition get_prompt_template `{Prompting} (prompt_name : string) : Res string :=
  match read_text (prompt_name ++ ".md") with
  | Ok template => Ok (process template)
  | Raise e => Raise e
  end.

(** [OpenManusPromptTemplate.apply_prompt_template], lines 44-64. The
    PromptTemplate is made first; the keyword arguments of [format] are
    CURRENT_TIME and the items of the state, and a state that has the
    key CURRENT_TIME itself gives the keyword twice. *)
Definition apply_prompt_template `{Prompting} (prompt_name : string) (state : PyVal)
  : M PyVal :=
  now <- datetime_now ;;
  let current_time := strftime now in
  template <- lift (get_prompt_template prompt_name) ;;
  prompt <- lift (prompt_template template) ;;
  items <- lift (unpack state) ;;
  (match dict_lookup items "CURRENT_TIME" with
   | Some _ => raise TypeError
   | None => ret tt
   end) ;;;
  system_prompt <- lift (prompt_format prompt (("CURRENT_TIME", VStr current_time) :: items)) ;;
  messages <- lift (py_getitem state "messages") ;;
  match messages with
  | VList l => ret (VList (VDict [("role", VStr "system");
                                  ("content", VStr system_prompt)] :: l))
  | _ => raise TypeError
  end.

End OpenManusPromptTemplate.

(* ===================================================================== *)
(** ** knowledge_agent.py: [knowledge_agent] as a whole *)
(* ===================================================================== *)

(** A message of the workflow state: an object of one of the langchain
    message classes, with its content. The agent tells HumanMessage and
    AIMessage from the rest; [SystemMessage] stands for every other
    class. *)
Inductive MessageClass : Type :=
| HumanMessage
| AIMessage
| SystemMessage.

Record Message := { message_class : MessageClass; message_content : PyVal }.

(** The workflow state, a dict: its messages (when it has the key) and
    its context (when it has the key). *)
Record State := { state_messages : option (list Message); state_context : option PyVal }.

(** The dict that [knowledge_agent] returns. *)
Record StateUpdate := {
  memory_context : list PyVal;
  categorized_memories : Categorized;
  entity_information : list (PyVal * EntityInformation);
  returned_messages : list Message
}.

(** Lines 47-50: the role that goes with a message class. *)
Definition role_of (msg : Message) : string :=
  match message_class msg with
  | HumanMessage => "user"
  | AIMessage => "assistant"
  | SystemMessage => "system"
  end.

(** [knowledge_agent], knowledge_agent.py lines 20-115. *)
Definition knowledge_agent `{Externals} `{Prompting} (state : State) : M StateUpdate :=
  i <- gets initialized ;;
  (if i then ret tt else MemoryManager.initialize ;;; ret tt) ;;;
  messages <- (match state_messages state with
               | Some ms => ret ms
               | None => raise KeyError
               end) ;;
  let latest_message := match rev messages with
                        | last :: _ => message_content last
                        | [] => VStr ""
                        end in
  let conversation_context := match state_context state with
                              | Some c => c
                              | None => VStr ""
                              end in
  relevant_memories <- MemoryManager.retrieve_relevant_memories latest_message 5 ;;
  categorized <- MemoryManager.categorize_memories latest_message ;;
  let formatted_messages :=
    map (fun msg => VDict [("role", VStr (role_of msg)); ("content", message_content msg)])
        messages in
  MemoryManager.store_conversation formatted_messages conversation_context
    (VDict [("source", VStr "agent_workflow")]) ;;;
  lift get_llm ;;;
  fact_extraction_prompt <-
    OpenManusPromptTemplate.apply_prompt_template "knowledge_extraction"
      (VDict [("conversation", latest_message)]) ;;
  fact_extraction_response <- lift (llm_invoke fact_extraction_prompt) ;;
  entity_extraction_prompt <-
    OpenManusPromptTemplate.apply_prompt_template "entity_extraction"
      (VDict [("conversation", latest_message)]) ;;
  entity_extraction_response <- lift (llm_invoke entity_extraction_prompt) ;;
  extracted <- KnowledgeAgent.extraction entity_extraction_response fact_extraction_response ;;
  ret (Build_StateUpdate relevant_memories categorized (snd extracted) messages).

(* ===================================================================== *)
(** ** A reference instance of the libraries *)
(* ===================================================================== *)

(** Executable stand-ins for the libraries, used to run the model on
    concrete inputs: a JSON reader and writer for what Python's json
    reads, the RFC 8259 grammar and the three constants NaN, Infinity and
    -Infinity (non-ASCII text is passed through byte by byte), ASCII
    lower-casing,
    ISO-8601 formatting of a clock reading, equality and integer
    comparison filters, and a ranking that puts exact matches first. The
    theorems below hold for every instance, not only for this one. *)
Module Reference.

Definition quote : ascii := ascii_of_nat 34.
Definition backslash : ascii := ascii_of_nat 92.

Definition is_json_space (c : ascii) : bool :=
  let n := nat_of_ascii c in
  ((n =? 32) || (n =? 9) || (n =? 10) || (n =? 13))%nat.

Fixpoint skip_ws (l : list ascii) : list ascii :=
  match l with
  | c :: l' => if is_json_space c then skip_ws l' else l
  | [] => []
  end.

Fixpoint strip_prefix (p l : list ascii) : option (list ascii) :=
  match p, l with
  | [], _ => Some l
  | a :: p', b :: l' => if Ascii.eqb a b then strip_prefix p' l' else None
  | _ :: _, [] => None
  end.

Definition hex_val (c : ascii) : option nat :=
  let n := nat_of_ascii c in
  if ((48 <=? n) && (n <=? 57))%nat then Some (n - 48)%nat
  else if ((97 <=? n) && (n <=? 102))%nat then Some (n - 87)%nat
  else if ((65 <=? n) && (n <=? 70))%nat then Some (n - 55)%nat
  else None.

(** The UTF-8 bytes of a code point below 2^16. *)
Definition utf8 (cp : nat) : list ascii :=
  if (cp <? 128)%nat then [ascii_of_nat cp]
  else if (cp <? 2048)%nat then
    [ascii_of_nat (192 + cp / 64); ascii_of_nat (128 + cp mod 64)]
  else
    [ascii_of_nat (224 + cp / 4096); ascii_of_nat (128 + (cp / 64) mod 64);
     ascii_of_nat (128 + cp mod 64)].

(** The text of a string literal after its opening quote. *)
Fixpoint read_string (fuel : nat) (l : list ascii) : option (list ascii * list ascii) :=
  match fuel with
  | O => None
  | S fuel' =>
      match l with
      | [] => None
      | c :: r =>
          if Ascii.eqb c quote then Some ([], r)
          else if Ascii.eqb c backslash then
            match r with
            | "u"%char :: a :: b :: c' :: d :: r' =>
                match hex_val a, hex_val b, hex_val c', hex_val d with
                | Some x, Some y, Some z, Some t =>
                    option_map (fun sr => ((utf8 (((x * 16 + y) * 16 + z) * 16 + t)%nat ++ fst sr)%list,
                                           snd sr))
                               (read_string fuel' r')
                | _, _, _, _ => None
                end
            | e :: r' =>
                let unescaped :=
                  if Ascii.eqb e quote then Some quote
                  else if Ascii.eqb e backslash then Some backslash
                  else match e with
                       | "/"%char => Some "/"%char
                       | "b"%char => Some (ascii_of_nat 8)
                       | "f"%char => Some (ascii_of_nat 12)
                       | "n"%char => Some (ascii_of_nat 10)
                       | "r"%char => Some (ascii_of_nat 13)
                       | "t"%char => Some (ascii_of_nat 9)
                       | _ => None
                       end in
                match unescaped with
                | Some u => option_map (fun sr => (u :: fst sr, snd sr)) (read_string fuel' r')
                | None => None
                end
            | [] => None
            end
          else if (nat_of_ascii c <? 32)%nat then None
          else option_map (fun sr => (c :: fst sr, snd sr)) (read_string fuel' r)
      end
  end.

Fixpoint read_digits (l : list ascii) : list ascii * list ascii :=
  match l with
  | c :: r => if is_digit c then let (ds, r') := read_digits r in (c :: ds, r') else ([], l)
  | [] => ([], [])
  end.

Definition digits_val (ds : list ascii) : Z :=
  fold_left (fun acc c => 10 * acc + digit_val c) ds 0.

(** A number: an int when it has neither fraction nor exponent. *)
Definition read_number (l : list ascii) : option (PyVal * list ascii) :=
  let (neg, l1) := match l with "-"%char :: r => (true, r) | _ => (false, l) end in
  let (int_part, l2) := read_digits l1 in
  let sign := fun z : Z => if neg then - z else z in
  match int_part with
  | [] => None
  | d :: more =>
      if Ascii.eqb d "0"%char && negb (match more with [] => true | _ => false end) then None else
      let '(frac, l3, has_frac) :=
        match l2 with
        | "."%char :: r => let (fs, r') := read_digits r in (fs, r', true)
        | _ => ([], l2, false)
        end in
      if has_frac && (match frac with [] => true | _ => false end) then None else
      let exponent :=
        match l3 with
        | c :: r =>
            if Ascii.eqb c "e"%char || Ascii.eqb c "E"%char then
              let (eneg, r1) := match r with
                                | "-"%char :: r' => (true, r')
                                | "+"%char :: r' => (false, r')
                                | _ => (false, r)
                                end in
              let (es, r2) := read_digits r1 in
              match es with
              | [] => None
              | _ => Some (Some (if eneg then - digits_val es else digits_val es), r2)
              end
            else Some (None, l3)
        | [] => Some (None, l3)
        end in
      match exponent with
      | None => None
      | Some (None, rest) =>
          if has_frac
          then Some (VFloat (sign (digits_val (int_part ++ frac)%list))
                            (- Z.of_nat (List.length frac)), rest)
          else Some (VInt (sign (digits_val int_part)), rest)
      | Some (Some e, rest) =>
          Some (VFloat (sign (digits_val (int_part ++ frac)%list))
                       (e - Z.of_nat (List.length frac)), rest)
      end
  end.

Fixpoint read_value (fuel : nat) (l : list ascii) : option (PyVal * list ascii) :=
  match fuel with
  | O => None
  | S fuel' =>
      match skip_ws l with
      | [] => None
      | c :: r =>
          if Ascii.eqb c quote then
            option_map (fun sr => (VStr (string_of_list_ascii (fst sr)), snd sr))
                       (read_string (List.length r) r)
          else match c with
          | "["%char =>
              match skip_ws r with
              | "]"%char :: r' => Some (VList [], r')
              | _ => option_map (fun vr => (VList (fst vr), snd vr)) (read_elements fuel' r)
              end
          | "{"%char =>
              match skip_ws r with
              | "}"%char :: r' => Some (VDict [], r')
              | _ => option_map (fun vr => (VDict (fst vr), snd vr)) (read_members fuel' r)
              end
          | "n"%char => option_map (pair VNone) (strip_prefix (list_ascii_of_string "ull") r)
          | "t"%char => option_map (pair (VBool true)) (strip_prefix (list_ascii_of_string "rue") r)
          | "f"%char => option_map (pair (VBool false)) (strip_prefix (list_ascii_of_string "alse") r)
          | "N"%char =>
              option_map (pair (VNonFinite NaN)) (strip_prefix (list_ascii_of_string "aN") r)
          | "I"%char =>
              option_map (pair (VNonFinite PosInf))
                         (strip_prefix (list_ascii_of_string "nfinity") r)
          | _ =>
              match read_number (c :: r) with
              | Some vr => Some vr
              | None =>
                  option_map (pair (VNonFinite NegInf))
                             (strip_prefix (list_ascii_of_string "-Infinity") (c :: r))
              end
          end
      end
  end
with read_elements (fuel : nat) (l : list ascii) : option (list PyVal * list ascii) :=
  match fuel with
  | O => None
  | S fuel' =>
      match read_value fuel' l with
      | None => None
      | Some (v, r) =>
          match skip_ws r with
          | ","%char :: r' =>
              option_map (fun vr => (v :: fst vr, snd vr)) (read_elements fuel' r')
          | "]"%char :: r' => Some ([v], r')
          | _ => None
          end
      end
  end
with read_members (fuel : nat) (l : list ascii) : option (Dict * list ascii) :=
  match fuel with
  | O => None
  | S fuel' =>
      match skip_ws l with
      | c :: r =>
          if negb (Ascii.eqb c quote) then None else
          match read_string (List.length r) r with
          | None => None
          | Some (k, r1) =>
              match skip_ws r1 with
              | ":"%char :: r2 =>
                  match read_value fuel' r2 with
                  | None => None
                  | Some (v, r3) =>
                      let key := string_of_list_ascii k in
                      match skip_ws r3 with
                      | ","%char :: r4 =>
                          option_map (fun dr => (dict_update [(key, v)] (fst dr), snd dr))
                                     (read_members fuel' r4)
                      | "}"%char :: r4 => Some ([(key, v)], r4)
                      | _ => None
                      end
                  end
              | _ => None
              end
          end
      | [] => None
      end
  end.

(** [json.loads]: one value, and nothing but white space after it. *)
Definition loads (s : string) : option PyVal :=
  let l := list_ascii_of_string s in
  match read_value (2 * List.length l + 2) l with
  | Some (v, rest) => match skip_ws rest with [] => Some v | _ => None end
  | None => None
  end.

Definition escape_char (c : ascii) : string :=
  if Ascii.eqb c quote then String backslash (String quote EmptyString)
  else if Ascii.eqb c backslash then String backslash (String backslash EmptyString)
  else if (nat_of_ascii c =? 10)%nat then String backslash "n"
  else if (nat_of_ascii c =? 13)%nat then String backslash "r"
  else if (nat_of_ascii c =? 9)%nat then String backslash "t"
  else String c EmptyString.

Definition quoted (s : string) : string :=
  String quote (String.concat "" (map escape_char (list_ascii_of_string s)))
  ++ String quote EmptyString.

(** [json.dumps], with Python's separators. *)
Fixpoint dumps (v : PyVal) : string :=
  let fix elements (l : list PyVal) : string :=
    match l with
    | [] => ""
    | x :: xs => match xs with
                 | [] => dumps x
                 | _ => dumps x ++ ", " ++ elements xs
                 end
    end in
  let fix members (d : list (string * PyVal)) : string :=
    match d with
    | [] => ""
    | (k, x) :: xs => match xs with
                      | [] => quoted k ++ ": " ++ dumps x
                      | _ => quoted k ++ ": " ++ dumps x ++ ", " ++ members xs
                      end
    end in
  match v with
  | VNone => "null"
  | VBool true => "true"
  | VBool false => "false"
  | VInt z => str_of_int z
  | VFloat m e => str_of_int m ++ "e" ++ str_of_int e
  | VStr s => quoted s
  | VList l => "[" ++ elements l ++ "]"
  | VDict d => "{" ++ members d ++ "}"
  | VNode _ _ _ => "null"
  | VNonFinite NaN => "NaN"
  | VNonFinite PosInf => "Infinity"
  | VNonFinite NegInf => "-Infinity"
  end.

Definition lower_char (c : ascii) : ascii :=
  let n := nat_of_ascii c in
  if ((65 <=? n) && (n <=? 90))%nat then ascii_of_nat (n + 32) else c.

(** [str.lower] on ASCII letters. *)
Definition lower (s : string) : string :=
  string_of_list_ascii (map lower_char (list_ascii_of_string s)).

(** The civil date of a day count from 1970-01-01. *)
Definition civil (days : Z) : Z * Z * Z :=
  let z := days + 719468 in
  let era := z / 146097 in
  let doe := z - era * 146097 in
  let yoe := (doe - doe / 1460 + doe / 36524 - doe / 146096) / 365 in
  let doy := doe - (365 * yoe + yoe / 4 - yoe / 100) in
  let mp := (5 * doy + 2) / 153 in
  let d := doy - (153 * mp + 2) / 5 + 1 in
  let m := if mp <? 10 then mp + 3 else mp - 9 in
  (if m <=? 2 then yoe + era * 400 + 1 else yoe + era * 400, m, d).

Fixpoint zeros (n : nat) : string :=
  match n with
  | O => ""
  | S n' => "0" ++ zeros n'
  end.

Definition padded (width : nat) (z : Z) : string :=
  let s := str_of_int z in zeros (width - String.length s) ++ s.

(** [datetime.isoformat()] of a count of microseconds from the epoch. *)
Definition iso (t : Z) : string :=
  let days := t / 86400000000 in
  let rest := t mod 86400000000 in
  let '(y, m, d) := civil days in
  let secs := rest / 1000000 in
  let micro := rest mod 1000000 in
  padded 4 y ++ "-" ++ padded 2 m ++ "-" ++ padded 2 d ++ "T"
  ++ padded 2 (secs / 3600) ++ ":" ++ padded 2 ((secs / 60) mod 60) ++ ":"
  ++ padded 2 (secs mod 60)
  ++ (if micro =? 0 then "" else "." ++ padded 6 micro).

(** One condition of a [where] filter on a metadata value. *)
Definition condition (c : PyVal) (v : option PyVal) : bool :=
  match c, v with
  | VDict [(op, VInt bound)], Some (VInt x) =>
      if String.eqb op "$gt" then bound <? x
      else if String.eqb op "$gte" then bound <=? x
      else if String.eqb op "$lt" then x <? bound
      else if String.eqb op "$lte" then x <=? bound
      else if String.eqb op "$ne" then negb (x =? bound)
      else if String.eqb op "$eq" then x =? bound
      else false
  | VDict _, _ => false
  | _, Some x => pyval_eqb c x
  | _, None => false
  end.

Definition where_ (f meta : Dict) : bool :=
  forallb (fun kc => condition (snd kc) (dict_lookup meta (fst kc))) f.

(** A ranking without embeddings: the documents whose text is the query
    come first, at distance 0, the others follow at distance 1. *)
Definition rank (q : string) (ds : list Document) : list (Document * PyVal) :=
  (map (fun d => (d, VFloat 0 0)) (filter (fun d => String.eqb (doc_text d) q) ds)
   ++ map (fun d => (d, VFloat 1 0)) (filter (fun d => negb (String.eqb (doc_text d) q)) ds))%list.

Definition externals : Externals :=
  Build_Externals loads dumps lower dumps iso where_ rank.

(** A server that refuses every statement that is not read here. *)
Definition refuses (text : string) (params : Dict) (g : Graph) : Res (list PyVal) * Graph :=
  (Raise StoreError, g).

(** An empty Neo4j server and an empty collection, nothing connected,
    every call going through. *)
Definition fresh : World :=
  Build_World [] [] 0 refuses [] 1762189500000000 0 [] false false false false.

(** The same, connected and initialized, with node ids continuing
    from [n]. *)
Definition ready (n : Z) : World :=
  Build_World [] [] n refuses [] 1762189500000000 0 [] true true true true.

End Reference.

(* ===================================================================== *)
(** ** Vocabulary of the statements *)
(* ===================================================================== *)

(** Both adapters are connected and the manager is initialized. *)
Definition connected (w : World) : Prop :=
  initialized w = true /\ driver w = true /\ client w = true /\ collection w = true.

(** The [n]-th next call that leaves the process goes through. *)
Definition goes_through (n : nat) (w : World) : bool :=
  match nth_error (faults w) n with
  | Some (Some _) => false
  | _ => true
  end.

(** Node ids are handed out in increasing order: no relationship starts
    at an id that has not been handed out yet. *)
Definition rels_wf (w : World) : Prop :=
  forall r, In r (rels w) -> rel_start r < next_id w.

(** The Fact node that [store_fact] writes in the world [w]. *)
Definition fact_node `{Externals} (w : World) (fact source : PyVal) : Node :=
  Build_Node (next_id w) ["Fact"]
    (stored_props [("content", fact); ("timestamp", VStr (isoformat (clock w)));
                   ("source", py_or source (VStr "agent"))]).

(** The document that mirrors it in the collection. *)
Definition fact_document `{Externals} (w : World) (text : string) (source : PyVal) : Document :=
  Build_Document ("fact_" ++ str_of_int (next_id w)) text
    [("type", VStr "fact"); ("source", py_or source (VStr "agent"));
     ("timestamp", VStr (isoformat (clock w + 1)));
     ("graph_id", VStr (str_of_int (next_id w)))].

(** The dict that [VectorDatabase.query] builds for one hit. *)
Definition hit_dict (h : Document * PyVal) : PyVal :=
  VDict [("document", VStr (doc_text (fst h))); ("metadata", VDict (doc_meta (fst h)));
         ("id", VStr (doc_id (fst h))); ("distance", snd h)].

(** The type of a memory, compared with a literal. *)
Definition of_type (t : string) (memory : PyVal) : bool :=
  match MemoryManager.memory_type_of memory with
  | Ok v => is_str v t
  | Raise _ => false
  end.

(** The name of an extracted entity, when it has one that is a string. *)
Definition entity_name (e : PyVal) : option string :=
  match e with
  | VDict d => match dict_lookup d "name" with
               | Some (VStr s) => Some s
               | _ => None
               end
  | _ => None
  end.

(** The linking test of the pipeline on an entity with a name. *)
Definition name_occurs `{Externals} (content : string) (e : PyVal) : bool :=
  match entity_name e with
  | Some n => str_contains (str_lower n) (str_lower content)
  | None => false
  end.

(** The Message node that [store_conversation] writes for the message at
    position [i], when the conversation node has id [c] and the clock
    read [t] at the start of the call. *)
Definition message_node `{Externals} (c t : Z) (i : nat) (message : Dict) : Node :=
  Build_Node (c + 1 + Z.of_nat i) ["Message"]
    (stored_props
       [("role", dict_get message "role" (VStr "unknown"));
        ("content", dict_get message "content" (VStr ""));
        ("timestamp", dict_get message "timestamp" (VStr (isoformat (t + 1 + Z.of_nat i))));
        ("order", VInt (Z.of_nat i))]).

Fixpoint message_nodes `{Externals} (c t : Z) (i : nat) (messages : list Dict) : list Node :=
  match messages with
  | [] => []
  | m :: ms => message_node c t i m :: message_nodes c t (S i) ms
  end.

(** The Conversation node that [store_conversation] writes in [w]. *)
Definition conversation_node `{Externals} (w : World) (context : PyVal) (extra : Dict) : Node :=
  Build_Node (next_id w) ["Conversation"]
    (stored_props (dict_update [("timestamp", VStr (isoformat (clock w)));
                                ("context", py_or context (VStr ""))] extra)).

(** The CONTAINS relationship from the conversation [c] to a message. *)
Definition contains (c : Z) (message : Node) : Rel :=
  Build_Rel c (node_id message) "CONTAINS" [].

(** The value of a decimal numeral read from the left, continuing from
    [acc]. *)
Fixpoint uint_val (d : Decimal.uint) (acc : Z) : Z :=
  match d with
  | Decimal.Nil => acc
  | Decimal.D0 d => uint_val d (10 * acc)
  | Decimal.D1 d => uint_val d (10 * acc + 1)
  | Decimal.D2 d => uint_val d (10 * acc + 2)
  | Decimal.D3 d => uint_val d (10 * acc + 3)
  | Decimal.D4 d => uint_val d (10 * acc + 4)
  | Decimal.D5 d => uint_val d (10 * acc + 5)
  | Decimal.D6 d => uint_val d (10 * acc + 6)
  | Decimal.D7 d => uint_val d (10 * acc + 7)
  | Decimal.D8 d => uint_val d (10 * acc + 8)
  | Decimal.D9 d => uint_val d (10 * acc + 9)
  end.

(** The texts that [str(uuid.uuid4())] gives from the state [u] of the
    source on, [n] of them. *)
Fixpoint uuid_names (u : Z) (n : nat) : list string :=
  match n with
  | O => []
  | S n' => ("uuid-" ++ str_of_int u) :: uuid_names (u + 1) n'
  end.

(** The documents that the collection makes of parallel lists of ids,
    texts and metadata. *)
Fixpoint documents_of (ids texts : list string) (metas : list Dict) : list Document :=
  match ids, texts, metas with
  | i :: ids', t :: texts', m :: metas' =>
      Build_Document i t m :: documents_of ids' texts' metas'
  | _, _, _ => []
  end.

(** The line of the conversation text that stands for one message. *)
Definition message_line `{Externals} (message : Dict) : string :=
  py_format (dict_get message "role" (VStr "unknown")) ++ ": "
  ++ py_format (dict_get message "content" (VStr "")).

(** The document that mirrors a conversation of the messages [ms],
    stored in the world [w], in the collection. *)
Definition conversation_document `{Externals} (w : World) (ms : list Dict)
           (context : PyVal) (extra : Dict) : Document :=
  Build_Document ("conversation_" ++ str_of_int (next_id w))
    (String.concat newline (map message_line ms))
    (dict_update
       [("type", VStr "conversation");
        ("timestamp", VStr (isoformat (clock w + 1 + Z.of_nat (List.length ms))));
        ("context", py_or context (VStr ""));
        ("graph_id", VStr (str_of_int (next_id w)))]
       extra).

(** A hit of the vector search, with what the enrichment has added. *)
Definition enriched (h : Document * PyVal) (added : Dict) : PyVal :=
  VDict ([("document", VStr (doc_text (fst h))); ("metadata", VDict (doc_meta (fst h)));
          ("id", VStr (doc_id (fst h))); ("distance", snd h)] ++ added)%list.

(** The threshold date of [retrieve_recent_memories] can be computed:
    the number of days fits a timedelta, and the date that many days
    before the reading [now] of the clock is a date of the calendar. *)
Definition threshold_in_range (now days : Z) : bool :=
  (Z.abs days <=? 999999999)
  && (MemoryRetrieval.datetime_min <=? now - days * 86400000000)
  && (now - days * 86400000000 <=? MemoryRetrieval.datetime_max).

(** A property key that reaches the statement as it stands: a name, and
    none of the parameters of the driver's [run]. *)
Definition plain_key (k : string) : bool :=
  identifier k && negb (existsb (String.eqb k) ["self"; "query"; "parameters"]).

(** A dict of properties whose keys are all plain. *)
Definition plain_keys (d : Dict) : bool := forallb (fun kv => plain_key (fst kv)) d.

(** A memory that the enrichment makes of a hit: the four keys of the
    hit, and at most one key behind them, related_entities or
    messages. *)
Definition enriched_hit (h : Document * PyVal) (memory : PyVal) : Prop :=
  exists added,
    memory = enriched h added
    /\ (added = []
        \/ exists l, added = [("related_entities", VList l)]
                     \/ added = [("messages", VList l)]).

(** The enrichment can read the graph id in the metadata of a hit: the
    id tests false, or the type is neither fact nor conversation, or
    [int] accepts the id. *)
Definition graph_id_reads (meta : Dict) : bool :=
  let graph_id := dict_get meta "graph_id" VNone in
  let type_ := dict_get meta "type" VNone in
  if truthy graph_id && (is_str type_ "fact" || is_str type_ "conversation")
  then match py_int graph_id with Ok _ => true | Raise _ => false end
  else true.

(** The type of a related entity as [store_fact] reads it: the value of
    the key type, "Entity" when the key is missing; it can label a node
    only when it is a string. *)
Definition entity_type (e : Dict) : option string :=
  match dict_get e "type" (VStr "Entity") with
  | VStr s => Some s
  | _ => None
  end.

(** The type of the entity is a string that is a name, so that it labels
    the node of the entity. *)
Definition labelled (e : Dict) : bool :=
  match entity_type e with
  | Some s => identifier s
  | None => false
  end.

(** The node that [store_fact] writes for the related entity at
    position [i], when the Fact node has the id [f]. *)
Definition entity_node `{Externals} (f : Z) (i : nat) (e : Dict) : Node :=
  Build_Node (f + 1 + Z.of_nat i)
    (match entity_type e with Some s => [s] | None => [] end)
    (stored_props [("name", dict_get e "name" VNone);
                   ("properties", VStr (json_dumps (dict_get e "properties" (VDict []))))]).

Fixpoint entity_nodes `{Externals} (f : Z) (i : nat) (es : list Dict) : list Node :=
  match es with
  | [] => []
  | e :: es' => entity_node f i e :: entity_nodes f (S i) es'
  end.

(** The MENTIONS relationship from the fact [f] to an entity node. *)
Definition mentions (f : Z) (e : Node) : Rel :=
  Build_Rel f (node_id e) "MENTIONS" [].

(** No character of [s] is [c]. *)
Fixpoint str_without (c : ascii) (s : string) : bool :=
  match s with
  | EmptyString => true
  | String x s' => negb (Ascii.eqb x c) && str_without c s'
  end.

(** An instance of the surroundings of the agent for the examples:
    every prompt file holds the same one-line template, formatting
    returns the template as it stands, and the language model answers
    with an empty JSON list. *)
Definition plain_prompting : Prompting :=
  Build_Prompting
    (fun _ => Ok "Facts of <<conversation>> at <<CURRENT_TIME>>")
    (fun _ => "Mon Nov 03 2025 17:05:00 ")
    (fun template => Ok template)
    (fun template _ => Ok template)
    (Ok tt)
    (fun _ => Ok "[]").

(* ===================================================================== *)
(** ** The monad *)
(* ===================================================================== *)

Lemma bind_ok {A B} {m : M A} (k : A -> M B) {w a w'} :
  m w = (Ok a, w') -> bind m k w = k a w'.
Proof. intros Hm. unfold bind. rewrite Hm. reflexivity. Qed.

Lemma bind_raise {A B} {m : M A} (k : A -> M B) {w e w'} :
  m w = (Raise e, w') -> bind m k w = (Raise e, w').
Proof. intros Hm. unfold bind. rewrite Hm. reflexivity. Qed.

Lemma ensure_initialized_on w :
  initialized w = true -> MemoryManager.ensure_initialized w = (Ok true, w).
Proof.
  intros Hi. unfold MemoryManager.ensure_initialized, bind, gets.
  rewrite Hi. reflexivity.
Qed.

Lemma ensure_driver_on w :
  driver w = true -> GraphDatabase.ensure_driver w = (Ok true, w).
Proof.
  intros Hd. unfold GraphDatabase.ensure_driver, bind, gets.
  rewrite Hd. reflexivity.
Qed.

Lemma ensure_collection_on w :
  client w = true -> collection w = true ->
  VectorDatabase.ensure_collection w = (Ok true, w).
Proof.
  intros Hc Hk. unfold VectorDatabase.ensure_collection, bind, gets.
  rewrite Hc, Hk. reflexivity.
Qed.

Ltac fields :=
  cbn [nodes rels next_id unread docs clock uuids faults driver client collection initialized
       set_graph set_docs set_clock set_uuids set_faults set_driver set_client
       set_collection set_initialized fst snd] in *.

Ltac step_faults F := unfold next_fault; fields; try rewrite F; fields.

Lemma next_fault_healthy w : faults w = [] -> next_fault w = (None, w).
Proof. intros F. unfold next_fault. rewrite F. reflexivity. Qed.

(* ===================================================================== *)
(** ** What one adapter call does *)
(* ===================================================================== *)

Lemma plain_key_name k : plain_key k = true -> identifier k = true.
Proof. unfold plain_key. intros Hk. apply andb_prop in Hk. apply Hk. Qed.

Lemma plain_keys_names d : plain_keys d = true -> forallb identifier (map fst d) = true.
Proof.
  induction d as [| [k v] d IH]; [reflexivity |].
  cbn [plain_keys forallb map fst]. intros Hd. apply andb_prop in Hd.
  destruct Hd as [Hk Hd]. rewrite (plain_key_name _ Hk). apply IH. exact Hd.
Qed.

Lemma plain_keys_lookup d k :
  plain_keys d = true -> plain_key k = false -> has_key d k = false.
Proof.
  intros Hd Hk. unfold has_key. induction d as [| [k' v] d IH]; [reflexivity |].
  cbn [plain_keys forallb fst] in Hd. apply andb_prop in Hd. destruct Hd as [Hk' Hd].
  cbn [dict_lookup]. destruct (String.eqb_spec k k') as [-> | _].
  - rewrite Hk' in Hk. discriminate.
  - apply IH. exact Hd.
Qed.

(** Parameters with plain keys reach the server as they stand. *)
Lemma session_run_plain q params :
  plain_keys params = true -> session_run q params = outside (cypher q params).
Proof.
  intros Hp. unfold session_run.
  rewrite (plain_keys_lookup params "query" Hp eq_refl).
  rewrite (plain_keys_lookup params "self" Hp eq_refl).
  rewrite (plain_keys_lookup params "parameters" Hp eq_refl).
  reflexivity.
Qed.

Lemma plain_keys_set d k v :
  plain_keys d = true -> plain_key k = true -> plain_keys (dict_set d k v) = true.
Proof.
  intros Hd Hk. induction d as [| [k' v'] d IH]; cbn [dict_set].
  - cbn. rewrite Hk. reflexivity.
  - cbn [plain_keys forallb fst] in Hd. apply andb_prop in Hd. destruct Hd as [Hk' Hd].
    destruct (String.eqb k k'); cbn [plain_keys forallb fst]; rewrite Hk'; cbn [andb].
    + exact Hd.
    + apply IH. exact Hd.
Qed.

Lemma plain_keys_update b : forall a,
  plain_keys a = true -> plain_keys b = true -> plain_keys (dict_update a b) = true.
Proof.
  unfold dict_update. induction b as [| [k v] b IH]; intros a Ha Hb; [exact Ha |].
  cbn [plain_keys forallb fst] in Hb. apply andb_prop in Hb. destruct Hb as [Hk Hb].
  cbn [fold_left fst snd]. apply IH; [| exact Hb].
  apply plain_keys_set; assumption.
Qed.

Lemma create_node_run labels ls props w :
  driver w = true -> join_labels labels = Ok ls ->
  label_names ls = true -> plain_keys props = true ->
  GraphDatabase.create_node labels props w =
  match next_fault w with
  | (Some e, w') => (Ok None, w')
  | (None, w') =>
      (Ok (Some (next_id w')),
       set_graph (Build_Node (next_id w') ls (stored_props props) :: nodes w')
                 (rels w') (next_id w' + 1) w')
  end.
Proof.
  intros Hd Hl Hls Hp. unfold GraphDatabase.create_node.
  rewrite (bind_ok _ (ensure_driver_on _ Hd)). cbn [negb].
  unfold lift, bind at 1. rewrite Hl.
  rewrite (session_run_plain _ _ Hp).
  unfold try_except, outside, bind.
  destruct (next_fault w) as [[e|] w']; [reflexivity |].
  unfold cypher, well_spliced. rewrite Hls, (plain_keys_names _ Hp). reflexivity.
Qed.

Lemma create_relationship_run a b t w :
  driver w = true -> identifier t = true ->
  GraphDatabase.create_relationship a b t None w =
  match next_fault w with
  | (Some e, w') => (Ok false, w')
  | (None, w') =>
      match find_node (nodes w') a, find_node (nodes w') b with
      | Some _, Some _ =>
          (Ok true, set_graph (nodes w') (Build_Rel a b t [] :: rels w') (next_id w') w')
      | _, _ => (Ok false, w')
      end
  end.
Proof.
  intros Hd Ht. unfold GraphDatabase.create_relationship.
  rewrite (bind_ok _ (ensure_driver_on _ Hd)). cbn [negb].
  rewrite session_run_plain by reflexivity.
  unfold try_except, outside, bind.
  destruct (next_fault w) as [[e|] w']; [reflexivity |].
  unfold cypher, well_spliced. rewrite Ht. cbn.
  destruct (find_node (nodes w') a); [| reflexivity].
  destruct (find_node (nodes w') b); reflexivity.
Qed.

Lemma add_documents_run `{Externals} text meta idv w :
  client w = true -> collection w = true ->
  VectorDatabase.add_documents []
    [("documents", VList [text]); ("metadatas", VList [VDict meta]); ("ids", VList [idv])] w =
  match next_fault w with
  | (Some e, w') => (Ok false, w')
  | (None, w') =>
      match text, idv with
      | VStr t, VStr i => (Ok true, set_docs (docs w' ++ [Build_Document i t meta]) w')
      | _, _ => (Ok false, w')
      end
  end.
Proof.
  intros Hc Hk.
  change (VectorDatabase.add_documents [] _ w)
    with (VectorDatabase.add_documents_body (VList [text]) (VList [VDict meta]) (VList [idv]) w).
  unfold VectorDatabase.add_documents_body.
  rewrite (bind_ok _ (ensure_collection_on _ Hc Hk)). cbn [negb truthy].
  unfold try_except, collection_add, outside, bind, ret.
  destruct (next_fault w) as [[e|] w']; [reflexivity |].
  destruct text; try reflexivity; destruct idv; reflexivity.
Qed.

Lemma text_if_truthy_nonzero prefix {z} :
  z <> 0 -> text_if_truthy prefix (Some z) = VStr (prefix ++ str_of_int z).
Proof.
  intros Hz. unfold text_if_truthy, id_truthy.
  destruct (Z.eqb_spec z 0); [contradiction | reflexivity].
Qed.

(* ===================================================================== *)
(** ** Keyword arguments that the callee does not have *)
(* ===================================================================== *)

(** The call of [retrieve_relevant_memories], [query(text, n_results=3)],
    binds; a call with a keyword the signature lacks, or with the
    required [query_text] missing, does not. *)
Example query_binds_positional_and_keyword :
  bind_args VectorDatabase.query_sig [VStr "text"] [("n_results", VInt 3)]
  = Ok [VStr "text"; VInt 3; VNone].
Proof. reflexivity. Qed.

Example query_unexpected_keyword :
  bind_args VectorDatabase.query_sig [VStr "text"] [("where", VDict [])] = Raise TypeError.
Proof. reflexivity. Qed.

Example query_missing_query_text :
  bind_args VectorDatabase.query_sig [] [("n_results", VInt 3)] = Raise TypeError.
Proof. reflexivity. Qed.

Example query_multiple_values :
  bind_args VectorDatabase.query_sig [VStr "text"] [("query_text", VStr "again")]
  = Raise TypeError.
Proof. reflexivity. Qed.

(** [VectorDatabase.query] has no parameter called [query] or [where]. *)
Lemma query_rejects_query_keyword `{Externals} (q f n : PyVal) w :
  VectorDatabase.query [] [("query", q); ("where", f); ("n_results", n)] w
  = (Raise TypeError, w).
Proof. reflexivity. Qed.

(** [VectorDatabase.delete] has no parameter called [where]. *)
Lemma delete_rejects_where_keyword `{Externals} (f : PyVal) w :
  VectorDatabase.delete [] [("where", f)] w = (Raise TypeError, w).
Proof. reflexivity. Qed.

Lemma retrieve_recent_memories_run `{Externals} memory_type days limit w :
  initialized w = true ->
  MemoryRetrieval.retrieve_recent_memories memory_type days limit w
  = (Raise (if threshold_in_range (clock w) days then TypeError else OverflowError),
     set_clock (clock w + 1) w).
Proof.
  intros Hi. unfold MemoryRetrieval.retrieve_recent_memories.
  rewrite (bind_ok _ (ensure_initialized_on _ Hi)). cbn [negb].
  unfold bind at 1. unfold datetime_now.
  unfold threshold_in_range, MemoryRetrieval.timedelta_days, MemoryRetrieval.datetime_sub.
  unfold bind at 1, lift at 1.
  destruct (Z.abs days <=? 999999999); cbn [andb]; [| reflexivity].
  unfold bind at 1, lift at 1.
  destruct ((MemoryRetrieval.datetime_min <=? clock w - days * 86400000000)
            && (clock w - days * 86400000000 <=? MemoryRetrieval.datetime_max));
    [| reflexivity].
  apply query_rejects_query_keyword.
Qed.

Lemma retrieve_memories_by_source_run `{Externals} source limit w :
  initialized w = true ->
  MemoryRetrieval.retrieve_memories_by_source source limit w = (Raise TypeError, w).
Proof.
  intros Hi. unfold MemoryRetrieval.retrieve_memories_by_source.
  rewrite (bind_ok _ (ensure_initialized_on _ Hi)). simpl.
  apply query_rejects_query_keyword.
Qed.

Lemma clear_memory_run `{Externals} memory_type w :
  initialized w = true ->
  MemoryManager.clear_memory memory_type w = (Ok false, w).
Proof.
  intros Hi. unfold MemoryManager.clear_memory.
  rewrite (bind_ok _ (ensure_initialized_on _ Hi)). simpl.
  unfold try_except.
  destruct (truthy memory_type);
    rewrite (bind_raise _ (delete_rejects_where_keyword _ _)); reflexivity.
Qed.

(* ===================================================================== *)
(** ** VectorDatabase.delete without a target *)
(* ===================================================================== *)

(** Connecting never raises and touches neither store. *)
Lemma vector_connect_keeps_stores w :
  exists b w', VectorDatabase.connect w = (Ok b, w')
               /\ docs w' = docs w /\ nodes w' = nodes w /\ rels w' = rels w.
Proof.
  unfold VectorDatabase.connect, try_except, bind, outside, modify, ret, next_fault.
  destruct (faults w) as [|[e1|] fs] eqn:F1; cbn.
  - rewrite F1. cbn. rewrite F1. eauto 6.
  - eauto 6.
  - destruct fs as [|[e2|] fs]; cbn; [eauto 6 | eauto 6 |].
    destruct fs as [|[e3|] fs]; cbn; eauto 6.
Qed.

Lemma ensure_collection_keeps_stores w :
  exists b w', VectorDatabase.ensure_collection w = (Ok b, w')
               /\ docs w' = docs w /\ nodes w' = nodes w /\ rels w' = rels w.
Proof.
  unfold VectorDatabase.ensure_collection, bind, gets.
  destruct (negb (client w) || negb (collection w)).
  - apply vector_connect_keeps_stores.
  - exists true, w. auto.
Qed.

Lemma delete_body_without_target `{Externals} ids filter_metadata w :
  truthy ids = false -> truthy filter_metadata = false ->
  exists w', VectorDatabase.delete_body ids filter_metadata w = (Ok false, w')
             /\ docs w' = docs w /\ nodes w' = nodes w /\ rels w' = rels w.
Proof.
  intros Hids Hf. unfold VectorDatabase.delete_body.
  destruct (ensure_collection_keeps_stores w) as (b & w' & Hrun & Hkeep).
  rewrite (bind_ok _ Hrun).
  destruct b; cbn.
  - unfold try_except. rewrite Hids, Hf. cbn. exists w'. auto.
  - exists w'. auto.
Qed.

(** C10. A call of [VectorDatabase.delete] whose [ids] and
    [filter_metadata] are both absent, None or empty returns False and
    deletes nothing: the collection holds the documents it held, and the
    graph is as it was. *)
Theorem delete_without_target_deletes_nothing `{Externals} pos kw ids filter_metadata w :
  bind_args VectorDatabase.delete_sig pos kw = Ok [ids; filter_metadata] ->
  truthy ids = false ->
  truthy filter_metadata = false ->
  fst (VectorDatabase.delete pos kw w) = Ok false
  /\ docs (snd (VectorDatabase.delete pos kw w)) = docs w
  /\ nodes (snd (VectorDatabase.delete pos kw w)) = nodes w
  /\ rels (snd (VectorDatabase.delete pos kw w)) = rels w.
Proof.
  intros Hargs Hids Hf.
  destruct (delete_body_without_target ids filter_metadata w Hids Hf) as (w' & Hrun & Hkeep).
  assert (Hcall : VectorDatabase.delete pos kw w = (Ok false, w')).
  { unfold VectorDatabase.delete, bind, lift. rewrite Hargs. exact Hrun. }
  rewrite Hcall. cbn. auto.
Qed.

(* ===================================================================== *)
(** ** The retrieval methods that pass [query=] and [where=] *)
(* ===================================================================== *)

(** C1 (the code departs from the claim). On an initialized manager
    [retrieve_recent_memories] and [retrieve_memories_by_source] do not
    degrade to an empty list: each raises TypeError to its caller, for
    every argument and whatever the stores hold or do, because it calls
    [VectorDatabase.query] with the keywords [query] and [where], which
    that method does not have. (For a number of days so large that the
    threshold date cannot be computed, [retrieve_recent_memories] raises
    OverflowError to its caller before it comes to that call.) *)
Theorem retrieval_raises_to_the_caller `{Externals} memory_type days source limit w :
  initialized w = true ->
  fst (MemoryRetrieval.retrieve_recent_memories memory_type days limit w)
  = Raise (if threshold_in_range (clock w) days then TypeError else OverflowError)
  /\ fst (MemoryRetrieval.retrieve_memories_by_source source limit w) = Raise TypeError.
Proof.
  intros Hi. split.
  - rewrite (retrieve_recent_memories_run _ _ _ _ Hi). reflexivity.
  - rewrite (retrieve_memories_by_source_run _ _ _ Hi). reflexivity.
Qed.

(** The call of the usage example, [retrieve_recent_memories(days=1,
    limit=3)], after [initialize()] on reachable stores. *)
Lemma retrieval_raises_to_the_caller_witness :
  let w := snd (MemoryManager.initialize Reference.fresh) in
  initialized w = true
  /\ fst (MemoryRetrieval.retrieve_recent_memories
            (H := Reference.externals) VNone 1 3 w) = Raise TypeError
  /\ fst (MemoryRetrieval.retrieve_memories_by_source
            (H := Reference.externals) (VStr "example") 3 w) = Raise TypeError.
Proof.
  split; [reflexivity |].
  apply (retrieval_raises_to_the_caller (H := Reference.externals)). reflexivity.
Defined.

(** C4 (the code departs from the claim). On an initialized manager
    [retrieve_recent_memories] returns no record at all, recent or not:
    for every memory type, number of days and limit it reads the clock
    once and then raises, before the collection is asked anything. The
    exception is TypeError whenever the threshold date can be computed,
    and OverflowError when the number of days is too large for that. *)
Theorem retrieve_recent_memories_returns_nothing `{Externals} memory_type days limit w :
  initialized w = true ->
  MemoryRetrieval.retrieve_recent_memories memory_type days limit w
  = (Raise (if threshold_in_range (clock w) days then TypeError else OverflowError),
     set_clock (clock w + 1) w).
Proof. intros Hi. apply retrieve_recent_memories_run. exact Hi. Qed.

(* ===================================================================== *)
(** ** clear_memory *)
(* ===================================================================== *)

(** C2 (the code departs from the claim). On an initialized manager
    [clear_memory] deletes nothing: with or without a type it returns
    False and leaves both stores exactly as they were, because
    [VectorDatabase.delete] is called with the keyword [where], which it
    does not have; the TypeError is caught before the graph is touched. *)
Theorem clear_memory_deletes_nothing `{Externals} memory_type w :
  initialized w = true ->
  MemoryManager.clear_memory memory_type w = (Ok false, w).
Proof. intros Hi. apply clear_memory_run. exact Hi. Qed.

Lemma retrieve_recent_memories_returns_nothing_witness :
  let w := snd (MemoryManager.store_fact (H := Reference.externals)
                  (VStr "OpenManus is an agent framework") (VStr "test") VNone
                  (Reference.ready 7)) in
  initialized w = true
  /\ MemoryRetrieval.retrieve_recent_memories (H := Reference.externals) (VStr "fact") 0 10 w
     = (Raise TypeError, set_clock (clock w + 1) w).
Proof.
  split; [reflexivity |].
  apply (retrieve_recent_memories_returns_nothing (H := Reference.externals)). reflexivity.
Defined.

(** A fact is stored, then [clear_memory("fact")] is called: the Fact
    node is still what [retrieve_by_entity_type("Fact")] returns. *)
Lemma clear_memory_deletes_nothing_witness :
  let w := snd (MemoryManager.store_fact (H := Reference.externals)
                  (VStr "OpenManus is an agent framework") (VStr "test") VNone
                  (Reference.ready 7)) in
  initialized w = true
  /\ MemoryManager.clear_memory (H := Reference.externals) (VStr "fact") w = (Ok false, w)
  /\ fst (MemoryRetrieval.retrieve_by_entity_type "Fact" 10 w)
     = Ok [record1 "e" (VNode 7 ["Fact"]
                          [("content", VStr "OpenManus is an agent framework");
                           ("timestamp", VStr "2025-11-03T17:05:00");
                           ("source", VStr "test")])].
Proof.
  split; [reflexivity |]. split; [| reflexivity].
  apply (clear_memory_deletes_nothing (H := Reference.externals)). reflexivity.
Defined.

(* ===================================================================== *)
(** ** store_fact *)
(* ===================================================================== *)

(** [store_fact] without related entities on a connected manager: two
    calls leave the process, the node creation and the vector write. *)
Lemma store_fact_run `{Externals} text source related w :
  connected w -> truthy related = false ->
  exists w',
    MemoryManager.store_fact (VStr text) source related w
    = (Ok (if goes_through 0 w then Some (next_id w) else None), w')
    /\ connected w'
    /\ faults w' = skipn 2 (faults w)
    /\ (goes_through 0 w = true ->
        nodes w' = fact_node w (VStr text) source :: nodes w
        /\ (next_id w <> 0 ->
            docs w' = if goes_through 1 w
                      then (docs w ++ [fact_document w text source])%list
                      else docs w))
    /\ (goes_through 0 w = false -> nodes w' = nodes w /\ docs w' = docs w).
Proof.
  intros (Hi & Hd & Hc & Hk) Hrel.
  unfold MemoryManager.store_fact, now_isoformat, datetime_now, bind, ret, lift.
  rewrite (ensure_initialized_on _ Hi). cbn [negb].
  rewrite (create_node_run [VStr "Fact"] ["Fact"] _ (set_clock (clock w + 1) w) Hd eq_refl eq_refl)
    by reflexivity.
  unfold goes_through, connected.
  destruct (faults w) as [|[e1|] fs] eqn:F; step_faults F.
  - (* the oracle is exhausted: both writes go through *)
    rewrite Hrel. cbn [andb].
    rewrite add_documents_run by (fields; assumption).
    step_faults F. cbn [nth_error skipn].
    destruct (Z.eq_dec (next_id w) 0) as [Z0 | Z0].
    + rewrite Z0. cbn [text_if_truthy id_truthy Z.eqb negb].
      eexists. split; [reflexivity |]. fields.
      repeat split; auto; try discriminate; try contradiction.
      unfold fact_node. rewrite Z0. reflexivity.
    + rewrite (text_if_truthy_nonzero "" Z0), (text_if_truthy_nonzero "fact_" Z0).
      eexists. split; [reflexivity |]. fields.
      repeat split; auto; discriminate.
  - (* the node creation raises *)
    rewrite add_documents_run by (fields; assumption).
    step_faults F. cbn [nth_error text_if_truthy skipn].
    destruct fs as [|[e2|] fs']; fields;
      (eexists; split; [reflexivity |]; fields;
       repeat split; auto; discriminate).
  - (* the node is created; the vector write meets the next answer *)
    rewrite Hrel. cbn [andb].
    rewrite add_documents_run by (fields; assumption).
    step_faults F. cbn [nth_error skipn].
    destruct (Z.eq_dec (next_id w) 0) as [Z0 | Z0].
    + rewrite Z0. cbn [text_if_truthy id_truthy Z.eqb negb].
      destruct fs as [|[e2|] fs']; fields;
        (eexists; split; [reflexivity |]; fields;
         repeat split; auto; try discriminate; try contradiction;
         unfold fact_node; rewrite Z0; reflexivity).
    + rewrite (text_if_truthy_nonzero "" Z0), (text_if_truthy_nonzero "fact_" Z0).
      destruct fs as [|[e2|] fs']; fields;
        (eexists; split; [reflexivity |]; fields;
         repeat split; auto; discriminate).
Qed.

(** C6 (amended). On a connected manager, for every fact text and
    source and no related entities, [store_fact] returns the id of the
    new Fact node exactly when the node creation goes through and None
    when it does not, whatever the vector write does. When the node is
    created with an id other than 0 and the vector write goes through,
    one document is added: id ["fact_" + str(id)], the fact text, and
    the metadata type "fact", the source (["agent"] when the given one
    is None or empty), a timestamp, graph_id [str(id)]. When the vector
    write fails, or the node creation does, no document is added. *)
Theorem store_fact_returns_the_graph_id `{Externals} text source related w :
  connected w -> truthy related = false ->
  exists w',
    MemoryManager.store_fact (VStr text) source related w
    = (Ok (if goes_through 0 w then Some (next_id w) else None), w')
    /\ (goes_through 0 w = true ->
        nodes w' = fact_node w (VStr text) source :: nodes w)
    /\ (goes_through 0 w = true -> next_id w <> 0 -> goes_through 1 w = true ->
        docs w' = (docs w ++ [fact_document w text source])%list)
    /\ (goes_through 0 w = true -> next_id w <> 0 -> goes_through 1 w = false ->
        docs w' = docs w)
    /\ (goes_through 0 w = false -> nodes w' = nodes w /\ docs w' = docs w).
Proof.
  intros Hc Hrel.
  destruct (store_fact_run text source related w Hc Hrel)
    as (w' & Hrun & _ & _ & Hmade & Hnot).
  exists w'. split; [exact Hrun |].
  split; [intros G; apply (Hmade G) |].
  split; [intros G Z0 G1; destruct (Hmade G) as [_ Hd]; rewrite (Hd Z0), G1; reflexivity |].
  split; [intros G Z0 G1; destruct (Hmade G) as [_ Hd]; rewrite (Hd Z0), G1; reflexivity |].
  exact Hnot.
Qed.

(** The scenario of the specification: the fact "OpenManus is an agent
    framework" from the source "test", on a server whose next id is 7. *)
Lemma store_fact_returns_the_graph_id_witness :
  exists w',
    MemoryManager.store_fact (H := Reference.externals)
      (VStr "OpenManus is an agent framework") (VStr "test") VNone (Reference.ready 7)
    = (Ok (Some 7), w')
    /\ docs w' = [Build_Document "fact_7" "OpenManus is an agent framework"
                    [("type", VStr "fact"); ("source", VStr "test");
                     ("timestamp", VStr "2025-11-03T17:05:00.000001");
                     ("graph_id", VStr "7")]].
Proof.
  destruct (store_fact_returns_the_graph_id (H := Reference.externals)
              "OpenManus is an agent framework" (VStr "test") VNone (Reference.ready 7))
    as (w' & Hrun & _ & Hdoc & _).
  - repeat split; reflexivity.
  - reflexivity.
  - exists w'. split; [exact Hrun |].
    apply Hdoc; [reflexivity | discriminate | reflexivity].
Defined.

(** C6 (the claim as stated fails). With the empty string as the given
    source the node is created and its id returned, but the only
    document written carries the source "agent", and none carries the
    given one. With a vector write that fails, the id is returned and no
    document is added. *)
Lemma store_fact_given_source_counterexample :
  (let r := MemoryManager.store_fact (H := Reference.externals)
              (VStr "OpenManus is an agent framework") (VStr "") VNone (Reference.ready 7) in
   fst r = Ok (Some 7)
   /\ map (fun d => dict_lookup (doc_meta d) "source") (docs (snd r)) = [Some (VStr "agent")]
   /\ ~ (exists d, In d (docs (snd r)) /\ dict_lookup (doc_meta d) "source" = Some (VStr "")))
  /\ (let r := MemoryManager.store_fact (H := Reference.externals)
                 (VStr "OpenManus is an agent framework") (VStr "test") VNone
                 (set_faults [None; Some StoreError] (Reference.ready 7)) in
      fst r = Ok (Some 7) /\ docs (snd r) = []).
Proof.
  split.
  - split; [reflexivity |]. split; [reflexivity |].
    intros (d & Hin & Hsrc). vm_compute in Hin.
    destruct Hin as [<- | []]. vm_compute in Hsrc. discriminate.
  - split; reflexivity.
Qed.

(* ===================================================================== *)
(** ** retrieve_related_facts *)
(* ===================================================================== *)

Lemma graph_query_run q p w :
  driver w = true -> truthy (VDict p) = true -> plain_keys p = true ->
  GraphDatabase.query q (Some p) w =
  match next_fault w with
  | (Some e, w') => (Ok [], w')
  | (None, w') =>
      match cypher q p w' with
      | (Ok records, w'') => (Ok records, w'')
      | (Raise e, w'') => (Ok [], w'')
      end
  end.
Proof.
  intros Hd Hp Hk. unfold GraphDatabase.query.
  rewrite (bind_ok _ (ensure_driver_on _ Hd)). cbn [negb]. rewrite Hp.
  rewrite (session_run_plain _ _ Hk).
  unfold try_except, outside.
  destruct (next_fault w) as [[e|] w']; [reflexivity |].
  destruct (cypher q p w') as [[records|e] w'']; reflexivity.
Qed.

Lemma retrieve_related_facts_run `{Externals} i limit w n :
  initialized w = true -> driver w = true -> faults w = [] ->
  In n (nodes w) -> has_label "Fact" n = true -> node_id n = i ->
  MemoryRetrieval.retrieve_related_facts (VInt i) limit w = (Raise TypeError, w).
Proof.
  intros Hi Hd F Hin Hl Hid. unfold MemoryRetrieval.retrieve_related_facts.
  rewrite (bind_ok _ (ensure_initialized_on _ Hi)). cbn [negb].
  unfold bind at 1. unfold ret at 1.
  unfold bind at 1. rewrite (graph_query_run CFactById [("id", VInt i)] w Hd eq_refl eq_refl).
  rewrite (next_fault_healthy _ F). cbn [cypher].
  destruct (filter (fun n0 => has_label "Fact" n0 && id_is [("id", VInt i)] n0) (nodes w))
    as [| n' rest] eqn:Hf.
  - exfalso.
    assert (Hn : In n (filter (fun n0 => has_label "Fact" n0 && id_is [("id", VInt i)] n0)
                              (nodes w))).
    { apply filter_In. split; [exact Hin |].
      rewrite Hl. unfold id_is. cbn. rewrite Hid. apply Z.eqb_refl. }
    rewrite Hf in Hn. exact Hn.
  - cbn [map]. unfold record1, node_val.
    unfold bind at 1, lift at 1. cbn [py_getitem dict_lookup String.eqb Ascii.eqb Bool.eqb].
    unfold bind at 1, lift at 1. cbn [py_get].
    rewrite (bind_raise _ (query_rejects_query_keyword _ _ _ _)). reflexivity.
Qed.

(** C3 (the code departs from the claim). For a fact that [store_fact]
    has just written, on a connected manager whose stores answer every
    call, [retrieve_related_facts] with the fact's own id finds the Fact
    node and then raises TypeError: its semantic query is sent with the
    keywords [query] and [where], which [VectorDatabase.query] does not
    have, so no result set is returned for any limit. *)
Theorem related_facts_of_a_stored_fact_raise `{Externals} text source related limit w :
  connected w -> faults w = [] -> truthy related = false ->
  exists w',
    MemoryManager.store_fact (VStr text) source related w = (Ok (Some (next_id w)), w')
    /\ MemoryRetrieval.retrieve_related_facts (VInt (next_id w)) limit w'
       = (Raise TypeError, w').
Proof.
  intros Hc F Hrel.
  destruct (store_fact_run text source related w Hc Hrel)
    as (w' & Hrun & (Hi & Hd & _) & Hf & Hmade & _).
  assert (G : goes_through 0 w = true) by (unfold goes_through; rewrite F; reflexivity).
  rewrite G in Hrun. rewrite F in Hf. cbn in Hf.
  exists w'. split; [exact Hrun |].
  destruct (Hmade G) as [Hnodes _].
  apply (retrieve_related_facts_run _ limit w' (fact_node w (VStr text) source));
    auto.
  rewrite Hnodes. left. reflexivity.
Qed.

Lemma related_facts_of_a_stored_fact_raise_witness :
  exists w',
    MemoryManager.store_fact (H := Reference.externals)
      (VStr "OpenManus is an agent framework") (VStr "test") VNone (Reference.ready 7)
    = (Ok (Some 7), w')
    /\ MemoryRetrieval.retrieve_related_facts (H := Reference.externals) (VInt 7) 10 w'
       = (Raise TypeError, w').
Proof.
  apply (related_facts_of_a_stored_fact_raise (H := Reference.externals)
           "OpenManus is an agent framework" (VStr "test") VNone 10 (Reference.ready 7)).
  - repeat split; reflexivity.
  - reflexivity.
  - reflexivity.
Defined.

(* ===================================================================== *)
(** ** The extraction part of knowledge_agent *)
(* ===================================================================== *)

(** A fact answer that does not parse stores nothing, whatever the
    entities are. *)
Lemma store_facts_unparsable `{Externals} entities fact_content w :
  json_loads fact_content = None ->
  KnowledgeAgent.store_facts entities fact_content w = (Ok tt, w).
Proof.
  intros Hf. unfold KnowledgeAgent.store_facts, try_except.
  rewrite Hf. reflexivity.
Qed.

(** C8 (amended). When [json.loads] raises on both answers of the
    extraction service, the extraction part of [knowledge_agent] ends
    without an exception, with no entity, no entity information and no
    fact: no call of [store_fact] is made and the world, both stores
    included, is left as it was. *)
Theorem unparsable_answers_store_nothing `{Externals} entity_content fact_content w :
  json_loads entity_content = None ->
  json_loads fact_content = None ->
  KnowledgeAgent.extraction entity_content fact_content w = (Ok (VList [], []), w).
Proof.
  intros He Hf. unfold KnowledgeAgent.extraction, KnowledgeAgent.parse_entities.
  rewrite He.
  rewrite (bind_ok _ (store_facts_unparsable (VList []) fact_content w Hf)).
  reflexivity.
Qed.

(** The scenario of the specification: the service answers with the
    literal text "not json". *)
Lemma unparsable_answers_store_nothing_witness :
  json_loads (Externals := Reference.externals) "not json" = None
  /\ KnowledgeAgent.extraction (H := Reference.externals) "not json" "not json"
       (Reference.ready 7)
     = (Ok (VList [], []), Reference.ready 7).
Proof.
  split; [reflexivity |].
  apply (unparsable_answers_store_nothing (H := Reference.externals)); reflexivity.
Defined.

(** C8 (the claim as stated fails). The text NaN is not well-formed
    JSON, but [json.loads] reads it as the float nan and does not raise.
    When the service answers NaN, the entities are that float: the fact
    loop fails inside its try block, and the loop over the entities,
    which no try block guards, raises TypeError to the caller of the
    agent. *)
Lemma answer_nan_raises_counterexample :
  json_loads (Externals := Reference.externals) "NaN" = Some (VNonFinite NaN)
  /\ KnowledgeAgent.extraction (H := Reference.externals) "NaN" "NaN" (Reference.ready 7)
     = (Raise TypeError, Reference.ready 7).
Proof. split; reflexivity. Qed.

Lemma entity_name_getitem e n :
  entity_name e = Some n -> py_getitem e "name" = Ok (VStr n).
Proof.
  unfold entity_name, py_getitem. destruct e; try discriminate.
  destruct (dict_lookup d "name") as [[]|]; try discriminate.
  intros [= ->]. reflexivity.
Qed.

Lemma name_occurs_named `{Externals} content e {n} :
  entity_name e = Some n ->
  name_occurs content e = str_contains (str_lower n) (str_lower content).
Proof. intros Hn. unfold name_occurs. rewrite Hn. reflexivity. Qed.

Lemma link_filter `{Externals} entities fact content :
  Forall (fun e => entity_name e <> None) entities ->
  py_getitem fact "content" = Ok (VStr content) ->
  KnowledgeAgent.link entities fact = Ok (filter (name_occurs content) entities).
Proof.
  intros Hnamed Hcontent. induction Hnamed as [| e es He _ IH]; [reflexivity |].
  cbn [KnowledgeAgent.link filter].
  destruct (entity_name e) as [n|] eqn:Hn; [| contradiction].
  rewrite (entity_name_getitem _ _ Hn). cbn [py_lower].
  rewrite Hcontent. cbn [py_lower]. rewrite IH.
  rewrite (name_occurs_named content _ Hn). reflexivity.
Qed.

Lemma for_each_app {A} (xs ys : list A) (body : A -> M unit) w :
  for_each (xs ++ ys) body w = (for_each xs body ;;; for_each ys body) w.
Proof.
  revert w. induction xs as [| x xs IH]; intros w; cbn [app for_each].
  - reflexivity.
  - unfold bind. destruct (body x w) as [[[] | e] w1]; [| reflexivity].
    rewrite IH. reflexivity.
Qed.

(** C9 (amended). When every extracted entity has a string name and
    every extracted fact a string content, then for every extracted
    fact: the related entities that the pipeline computes for it are
    exactly the extracted entities whose name, lowercased, occurs as a
    substring of the content of the fact, lowercased, in their order.
    When the loop reaches the fact, that is, when the loop over the
    facts before it has ended without an exception, the pipeline goes
    on with the call of [store_fact] for the content of the fact with
    the source "conversation" and exactly these related entities, and
    then with the facts behind it. When the loop over the facts before
    it has raised, the pipeline ends where the exception was raised,
    without an exception of its own, and the fact is not passed to
    [store_fact]. *)
Theorem entity_linked_iff_name_occurs `{Externals} entities facts fact_content :
  Forall (fun e => entity_name e <> None) entities ->
  Forall (fun fact => exists content, py_getitem fact "content" = Ok (VStr content)) facts ->
  json_loads fact_content = Some (VList facts) ->
  forall before fact after content,
    facts = (before ++ fact :: after)%list ->
    py_getitem fact "content" = Ok (VStr content) ->
    KnowledgeAgent.related_entities_of (VList entities) fact
    = Ok (filter (name_occurs content) entities)
    /\ (forall e, In e (filter (name_occurs content) entities) <->
                  In e entities
                  /\ exists n, entity_name e = Some n
                               /\ str_contains (str_lower n) (str_lower content) = true)
    /\ (forall w w1,
          for_each before (KnowledgeAgent.store_extracted (VList entities)) w = (Ok tt, w1) ->
          KnowledgeAgent.store_facts (VList entities) fact_content w
          = try_except
              (MemoryManager.store_fact (VStr content) (VStr "conversation")
                 (VList (filter (name_occurs content) entities)) ;;;
               for_each after (KnowledgeAgent.store_extracted (VList entities)))
              (fun _ => ret tt) w1)
    /\ (forall w e w1,
          for_each before (KnowledgeAgent.store_extracted (VList entities)) w = (Raise e, w1) ->
          KnowledgeAgent.store_facts (VList entities) fact_content w = (Ok tt, w1)).
Proof.
  intros Hnamed Hfacts Hparse before fact after content Hsplit Hcontent.
  pose proof (link_filter entities fact content Hnamed Hcontent) as Hlink.
  assert (Hrun : forall w,
            KnowledgeAgent.store_facts (VList entities) fact_content w
            = try_except
                (for_each before (KnowledgeAgent.store_extracted (VList entities)) ;;;
                 for_each (fact :: after) (KnowledgeAgent.store_extracted (VList entities)))
                (fun _ => ret tt) w).
  { intros w. unfold KnowledgeAgent.store_facts, try_except.
    rewrite Hparse. unfold bind at 1, ret at 1.
    unfold bind at 1, lift at 1. cbn [py_iter].
    rewrite Hsplit, for_each_app. reflexivity. }
  split; [unfold KnowledgeAgent.related_entities_of; cbn [py_iter]; exact Hlink |].
  split; [| split].
  - intros e. rewrite filter_In. unfold name_occurs. split.
    + intros [Hin Hocc]. split; [exact Hin |].
      destruct (entity_name e) as [n|]; [| discriminate].
      exists n. split; [reflexivity | exact Hocc].
    + intros [Hin (n & Hn & Hocc)]. split; [exact Hin |].
      rewrite Hn. exact Hocc.
  - intros w w1 Hbefore. rewrite Hrun. unfold try_except.
    rewrite (bind_ok _ Hbefore). cbn [for_each].
    unfold KnowledgeAgent.store_extracted at 1, KnowledgeAgent.related_entities_of.
    cbn [py_iter]. rewrite Hlink, Hcontent.
    unfold bind, lift, ret.
    destruct (MemoryManager.store_fact (VStr content) (VStr "conversation")
                (VList (filter (name_occurs content) entities)) w1) as [[o | e] w2];
      reflexivity.
  - intros w e w1 Hbefore. rewrite Hrun. unfold try_except.
    rewrite (bind_raise _ Hbefore). reflexivity.
Qed.

(** Two entities and the fact "John Smith works on OpenManus": "john
    smith" occurs in the lowered content, "Acme" does not, so only the
    first is linked, and the Fact node gets one MENTIONS relationship. *)
Lemma entity_linked_iff_name_occurs_witness :
  let john := VDict [("name", VStr "john smith"); ("type", VStr "Person")] in
  let acme := VDict [("name", VStr "Acme"); ("type", VStr "Organization")] in
  let fact := VDict [("content", VStr "John Smith works on OpenManus")] in
  KnowledgeAgent.related_entities_of (H := Reference.externals) (VList [john; acme]) fact
  = Ok [john]
  /\ map rel_type
       (rels (snd (KnowledgeAgent.store_facts (H := Reference.externals) (VList [john; acme])
                     (Reference.dumps (VList [fact])) (Reference.ready 7))))
     = ["MENTIONS"].
Proof.
  cbv zeta.
  destruct (entity_linked_iff_name_occurs (H := Reference.externals)
              [VDict [("name", VStr "john smith"); ("type", VStr "Person")];
               VDict [("name", VStr "Acme"); ("type", VStr "Organization")]]
              [VDict [("content", VStr "John Smith works on OpenManus")]]
              (Reference.dumps (VList [VDict [("content", VStr "John Smith works on OpenManus")]])))
    with (before := @nil PyVal)
         (fact := VDict [("content", VStr "John Smith works on OpenManus")])
         (after := @nil PyVal)
         (content := "John Smith works on OpenManus")
    as (Hlink & _ & Hreached & _).
  - repeat constructor; discriminate.
  - repeat constructor. exists "John Smith works on OpenManus". reflexivity.
  - reflexivity.
  - reflexivity.
  - reflexivity.
  - split; [exact Hlink |].
    rewrite (Hreached (Reference.ready 7) (Reference.ready 7) eq_refl). reflexivity.
Defined.

(** C9 (the claim as stated fails). One entity, ada, whose type is null,
    and two facts that both contain its name. The entity is linked to
    the first fact, whose storing raises TypeError when the label of the
    entity node is joined; the single try block ends the loop there. The
    name occurs in the second fact as well, but that fact is never
    passed to [store_fact]: the graph holds the node of the first fact
    and nothing else, and no document is written. *)
Lemma second_fact_not_stored_counterexample :
  let ada := VDict [("name", VStr "ada"); ("type", VNone)] in
  let one := VDict [("content", VStr "Ada one")] in
  let two := VDict [("content", VStr "Ada two")] in
  let r := KnowledgeAgent.store_facts (H := Reference.externals) (VList [ada])
             (Reference.dumps (VList [one; two])) (Reference.ready 7) in
  KnowledgeAgent.related_entities_of (H := Reference.externals) (VList [ada]) two = Ok [ada]
  /\ fst r = Ok tt
  /\ map node_props (nodes (snd r))
     = [[("content", VStr "Ada one"); ("timestamp", VStr "2025-11-03T17:05:00");
         ("source", VStr "conversation")]]
  /\ rels (snd r) = []
  /\ docs (snd r) = [].
Proof. repeat split; reflexivity. Qed.

(** [delete(filter_metadata={})] on a collection that holds a document:
    the call that [clear_memory()] would make with the right keyword. *)
Lemma delete_without_target_deletes_nothing_witness :
  let w := snd (MemoryManager.store_fact (H := Reference.externals)
                  (VStr "OpenManus is an agent framework") (VStr "test") VNone
                  (Reference.ready 7)) in
  List.length (docs w) = 1%nat
  /\ fst (VectorDatabase.delete (H := Reference.externals) []
            [("filter_metadata", VDict [])] w) = Ok false
  /\ docs (snd (VectorDatabase.delete (H := Reference.externals) []
                  [("filter_metadata", VDict [])] w)) = docs w.
Proof.
  split; [reflexivity |].
  destruct (delete_without_target_deletes_nothing (H := Reference.externals)
              [] [("filter_metadata", VDict [])] VNone (VDict [])
              (snd (MemoryManager.store_fact (H := Reference.externals)
                      (VStr "OpenManus is an agent framework") (VStr "test") VNone
                      (Reference.ready 7))))
    as (Hret & Hdocs & _); [reflexivity | reflexivity | reflexivity |].
  split; [exact Hret | exact Hdocs].
Defined.

(* ===================================================================== *)
(** ** categorize_memories *)
(* ===================================================================== *)

Lemma formatted_hit hits k h :
  nth_error hits k = Some h ->
  VectorDatabase.formatted (VDict (hit_lists hits)) k = Ok (hit_dict h).
Proof.
  intros Hk. unfold VectorDatabase.formatted, hit_lists. cbn.
  rewrite !nth_error_map, Hk. reflexivity.
Qed.

Lemma format_results_hits hits : forall l2 l1,
  hits = (l1 ++ l2)%list ->
  VectorDatabase.format_results (VDict (hit_lists hits))
    (seq (List.length l1) (List.length l2)) = Ok (map hit_dict l2).
Proof.
  induction l2 as [| h l2 IH]; intros l1 Hs; [reflexivity |].
  cbn [List.length seq VectorDatabase.format_results map].
  rewrite (formatted_hit hits (List.length l1) h).
  - specialize (IH (l1 ++ [h])%list).
    rewrite length_app, Nat.add_1_r in IH.
    rewrite IH; [reflexivity |]. rewrite <- app_assoc. exact Hs.
  - rewrite Hs, nth_error_app2, Nat.sub_diag by lia. reflexivity.
Qed.

Lemma format_query_result hits w :
  (documents <- lift (py_getitem (VDict (hit_lists hits)) "documents") ;;
   row <- lift (py_index documents 0) ;;
   n <- lift (py_len row) ;;
   lift (VectorDatabase.format_results (VDict (hit_lists hits)) (seq 0 n))) w
  = (Ok (map hit_dict hits), w).
Proof.
  unfold bind, lift.
  replace (py_getitem (VDict (hit_lists hits)) "documents")
    with (Ok (VList [VList (map (fun h => VStr (doc_text (fst h))) hits)]))
    by reflexivity.
  cbn [py_index nth_error py_len]. rewrite length_map.
  pose proof (format_results_hits hits hits [] eq_refl) as Hf.
  cbn [List.length] in Hf. rewrite Hf. reflexivity.
Qed.

Lemma query_body_hits `{Externals} q n f w :
  exists hits w',
    VectorDatabase.query_body q n f w = (Ok (map hit_dict hits), w')
    /\ (forall z, n = VInt z -> (List.length hits <= Z.to_nat z)%nat).
Proof.
  unfold VectorDatabase.query_body.
  destruct (ensure_collection_keeps_stores w) as (b & w1 & Hrun & _).
  rewrite (bind_ok _ Hrun).
  assert (Hnone : forall w0 : World, exists hits (w' : World),
            (Ok (@nil PyVal), w0) = (Ok (map hit_dict hits), w')
            /\ (forall z, n = VInt z -> (List.length hits <= Z.to_nat z)%nat)).
  { intros w0. exists [], w0. split; [reflexivity |]. intros; cbn; lia. }
  destruct b; cbn [negb]; [| apply Hnone].
  unfold try_except. unfold bind at 1.
  unfold collection_query, outside.
  destruct (next_fault w1) as [[e|] w2]; [apply Hnone |].
  destruct q; try apply Hnone.
  destruct n as [| | z | | | | | |]; try apply Hnone.
  destruct (z <=? 0); [apply Hnone |].
  destruct f; try apply Hnone.
  - rewrite format_query_result. eexists. eexists. split; [reflexivity |].
    intros z' [= <-]. apply firstn_le_length.
  - rewrite format_query_result. eexists. eexists. split; [reflexivity |].
    intros z' [= <-]. apply firstn_le_length.
Qed.

Lemma enhance_keeps_type `{Externals} h w r w' :
  MemoryManager.enhance (hit_dict h) w = (Ok r, w') ->
  MemoryManager.memory_type_of r = Ok (dict_get (doc_meta (fst h)) "type" VNone).
Proof.
  unfold MemoryManager.enhance.
  unfold bind at 1, lift at 1.
  cbn [hit_dict py_get dict_get dict_lookup String.eqb Ascii.eqb Bool.eqb].
  unfold bind, lift, ret.
  destruct (truthy (dict_get (doc_meta (fst h)) "graph_id" VNone));
    [| intros [= <- _]; reflexivity].
  destruct (is_str (dict_get (doc_meta (fst h)) "type" VNone) "fact").
  - destruct (py_int _) as [id | e]; [| discriminate].
    destruct (GraphDatabase.query _ _ w) as [[related | e] w1]; [| discriminate].
    intros [= <- _]. reflexivity.
  - destruct (is_str (dict_get (doc_meta (fst h)) "type" VNone) "conversation");
      [| intros [= <- _]; reflexivity].
    destruct (py_int _) as [id | e]; [| discriminate].
    destruct (GraphDatabase.query _ _ w) as [[messages | e] w1]; [| discriminate].
    intros [= <- _]. reflexivity.
Qed.

Lemma enhance_all_typed `{Externals} hits : forall w ms w',
  MemoryManager.enhance_all (map hit_dict hits) w = (Ok ms, w') ->
  List.length ms = List.length hits
  /\ Forall (fun m => exists v, MemoryManager.memory_type_of m = Ok v) ms.
Proof.
  induction hits as [| h hits IH]; intros w ms w'.
  - intros [= <- _]. split; [reflexivity | constructor].
  - cbn [map MemoryManager.enhance_all]. unfold bind at 1.
    destruct (MemoryManager.enhance (hit_dict h) w) as [[r | e] w1] eqn:Hr; [| discriminate].
    unfold bind at 1.
    destruct (MemoryManager.enhance_all (map hit_dict hits) w1) as [[rs | e] w2] eqn:Hrs;
      [| discriminate].
    intros [= <- _]. destruct (IH _ _ _ Hrs) as [Hlen Hall].
    split; [cbn; rewrite Hlen; reflexivity |].
    constructor; [| exact Hall].
    eexists. apply (enhance_keeps_type _ _ _ _ Hr).
Qed.

Lemma categorize_typed ms : forall acc,
  Forall (fun m => exists v, MemoryManager.memory_type_of m = Ok v) ms ->
  MemoryManager.categorize ms acc
  = Ok (Build_Categorized (facts acc ++ filter (of_type "fact") ms)
                          (conversations acc ++ filter (of_type "conversation") ms)).
Proof.
  induction ms as [| m ms IH]; intros acc Hall.
  - cbn. rewrite !app_nil_r. destruct acc; reflexivity.
  - inversion Hall as [| ? ? [v Hv] Hrest]; subst.
    assert (Ht : forall t, of_type t m = is_str v t)
      by (intros t; unfold of_type; rewrite Hv; reflexivity).
    cbn [MemoryManager.categorize filter]. rewrite Hv, !Ht.
    destruct (is_str v "fact") eqn:Hf.
    + assert (Hc : is_str v "conversation" = false).
      { destruct v; try reflexivity. cbn in Hf |- *.
        apply String.eqb_eq in Hf. subst. reflexivity. }
      rewrite Hc, (IH _ Hrest). cbn [facts conversations].
      rewrite <- app_assoc. reflexivity.
    + destruct (is_str v "conversation").
      * rewrite (IH _ Hrest). cbn [facts conversations].
        rewrite <- app_assoc. reflexivity.
      * apply IH. exact Hrest.
Qed.

Lemma ensure_initialized_true w w1 :
  MemoryManager.ensure_initialized w = (Ok true, w1) -> initialized w1 = true.
Proof.
  unfold MemoryManager.ensure_initialized, bind, gets.
  destruct (initialized w) eqn:Hi.
  - intros [= <-]. exact Hi.
  - unfold MemoryManager.initialize, bind, modify, ret.
    destruct (GraphDatabase.connect w) as [[g | e] w2]; [| discriminate].
    destruct (VectorDatabase.connect w2) as [[v | e] w3]; [| discriminate].
    intros [= Hb <-]. cbn. exact Hb.
Qed.

Lemma filter_disjoint_length {A} (p q : A -> bool) l :
  (forall x, p x = true -> q x = false) ->
  (List.length (filter p l) + List.length (filter q l) <= List.length l)%nat.
Proof.
  intros Hpq. induction l as [| x l IH]; [reflexivity |].
  cbn [filter]. destruct (p x) eqn:Hp.
  - rewrite (Hpq _ Hp). cbn [List.length]. lia.
  - destruct (q x); cbn [List.length]; lia.
Qed.

Lemma of_type_disjoint m :
  of_type "fact" m = true -> of_type "conversation" m = false.
Proof.
  unfold of_type. destruct (MemoryManager.memory_type_of m) as [v | e]; [| discriminate].
  destruct v; try discriminate. cbn. intros Hf.
  apply String.eqb_eq in Hf. subst. reflexivity.
Qed.

Lemma retrieve_relevant_memories_typed `{Externals} query limit w ms w' :
  initialized w = true ->
  MemoryManager.retrieve_relevant_memories query (Z.of_nat limit) w = (Ok ms, w') ->
  (List.length ms <= limit)%nat
  /\ Forall (fun m => exists v, MemoryManager.memory_type_of m = Ok v) ms.
Proof.
  intros Hi. unfold MemoryManager.retrieve_relevant_memories.
  rewrite (bind_ok _ (ensure_initialized_on _ Hi)). cbn [negb].
  change (VectorDatabase.query [query] [("n_results", VInt (Z.of_nat limit))])
    with (VectorDatabase.query_body query (VInt (Z.of_nat limit)) VNone).
  destruct (query_body_hits query (VInt (Z.of_nat limit)) VNone w) as (hits & w1 & Hq & Hlen).
  rewrite (bind_ok _ Hq). intros Hall.
  destruct (enhance_all_typed hits _ _ _ Hall) as [Hl Ht].
  split; [| exact Ht].
  rewrite Hl. specialize (Hlen _ eq_refl). rewrite Nat2Z.id in Hlen. exact Hlen.
Qed.

(** C5 (amended). [categorize_memories(q)] runs
    [retrieve_relevant_memories(q, limit=10)] and returns two lists:
    [facts] holds the results whose metadata type is "fact",
    [conversations] those whose type is "conversation", each in the
    order of the results. Together they hold at most 10 results, and a
    result is in one of the two lists exactly when its type is one of
    the two: a result of any other type is in neither. When the
    retrieval raises, so does the categorization. *)
Theorem categorize_memories_partition `{Externals} query w :
  match MemoryManager.retrieve_relevant_memories query 10 w with
  | (Ok memories, w') =>
      MemoryManager.categorize_memories query w
      = (Ok (Build_Categorized (filter (of_type "fact") memories)
                               (filter (of_type "conversation") memories)), w')
      /\ (List.length (filter (of_type "fact") memories)
          + List.length (filter (of_type "conversation") memories) <= 10)%nat
      /\ (forall m, In m (filter (of_type "fact") memories)
                    \/ In m (filter (of_type "conversation") memories)
                    <-> In m memories
                        /\ (of_type "fact" m = true \/ of_type "conversation" m = true))
  | (Raise e, w') => MemoryManager.categorize_memories query w = (Raise e, w')
  end.
Proof.
  destruct (MemoryManager.ensure_initialized w) as [[go | e] w1] eqn:Hgo.
  - destruct go.
    + pose proof (ensure_initialized_true _ _ Hgo) as Hi.
      assert (Hr : MemoryManager.retrieve_relevant_memories query 10 w
                   = MemoryManager.retrieve_relevant_memories query 10 w1).
      { unfold MemoryManager.retrieve_relevant_memories.
        rewrite (bind_ok _ Hgo), (bind_ok _ (ensure_initialized_on _ Hi)). reflexivity. }
      assert (Hc : MemoryManager.categorize_memories query w
                   = (memories <- MemoryManager.retrieve_relevant_memories query 10 ;;
                      lift (MemoryManager.categorize memories (Build_Categorized [] []))) w1).
      { unfold MemoryManager.categorize_memories. rewrite (bind_ok _ Hgo). reflexivity. }
      rewrite Hr, Hc.
      destruct (MemoryManager.retrieve_relevant_memories query 10 w1)
        as [[memories | e] w'] eqn:Hms.
      * rewrite (bind_ok _ Hms).
        destruct (retrieve_relevant_memories_typed query 10 w1 memories w' Hi Hms)
          as [Hlen Htyped].
        unfold lift. rewrite (categorize_typed memories _ Htyped). cbn [facts conversations app].
        split; [reflexivity |]. split.
        -- pose proof (filter_disjoint_length (of_type "fact") (of_type "conversation")
                         memories of_type_disjoint). lia.
        -- intros m. rewrite !filter_In. tauto.
      * rewrite (bind_raise _ Hms). reflexivity.
    + assert (Hr : MemoryManager.retrieve_relevant_memories query 10 w = (Ok [], w1)).
      { unfold MemoryManager.retrieve_relevant_memories. rewrite (bind_ok _ Hgo). reflexivity. }
      rewrite Hr. unfold MemoryManager.categorize_memories. rewrite (bind_ok _ Hgo).
      cbn. split; [reflexivity |]. split; [lia | tauto].
  - assert (Hr : MemoryManager.retrieve_relevant_memories query 10 w = (Raise e, w1)).
    { unfold MemoryManager.retrieve_relevant_memories. rewrite (bind_raise _ Hgo). reflexivity. }
    rewrite Hr. unfold MemoryManager.categorize_memories. rewrite (bind_raise _ Hgo).
    reflexivity.
Qed.

(** C5 (the claim as stated fails). A conversation stored with the
    caller metadata [{"type": "note"}] is mirrored as a document of type
    "note"; the retrieval returns it and the categorization puts it in
    neither list, so the union of the two lists is not the result set. *)
Lemma categorize_memories_union_counterexample :
  let w := snd (MemoryManager.store_conversation (H := Reference.externals)
                  [VDict [("role", VStr "user"); ("content", VStr "remember the milk")]]
                  (VStr "shopping") (VDict [("type", VStr "note")]) (Reference.ready 7)) in
  exists memory,
    fst (MemoryManager.retrieve_relevant_memories (H := Reference.externals)
           (VStr "milk") 10 w) = Ok [memory]
    /\ fst (MemoryManager.categorize_memories (H := Reference.externals) (VStr "milk") w)
       = Ok (Build_Categorized [] []).
Proof.
  cbv zeta. eexists. split; vm_compute; reflexivity.
Qed.

(* ===================================================================== *)
(** ** store_conversation and the ordered traversal *)
(* ===================================================================== *)

Lemma stored_props_skip k k' v d :
  String.eqb k k' = false ->
  dict_lookup (stored_props ((k', v) :: d)) k = dict_lookup (stored_props d) k.
Proof.
  intros Hk. unfold stored_props. cbn [filter snd].
  destruct v; cbn [dict_lookup]; try rewrite Hk; reflexivity.
Qed.

Lemma order_key_message_node `{Externals} c t i m :
  order_key (message_node c t i m) = Some (Z.of_nat i).
Proof.
  unfold order_key, message_node. cbn [node_props].
  rewrite !stored_props_skip by reflexivity. reflexivity.
Qed.

Lemma message_nodes_in `{Externals} c t ms : forall i n,
  In n (message_nodes c t i ms) ->
  exists j m, nth_error ms j = Some m /\ n = message_node c t (i + j) m.
Proof.
  induction ms as [| m ms IH]; intros i n Hin; [destruct Hin |].
  destruct Hin as [<- | Hin].
  - exists 0%nat, m. rewrite Nat.add_0_r. split; reflexivity.
  - destruct (IH _ _ Hin) as (j & m' & Hj & ->).
    exists (S j), m'. split; [exact Hj |]. f_equal. lia.
Qed.


Lemma message_node_id `{Externals} c t i m :
  node_id (message_node c t i m) = c + 1 + Z.of_nat i.
Proof. reflexivity. Qed.

Lemma message_nodes_unique `{Externals} c t ms i n n' :
  In n (message_nodes c t i ms) -> In n' (message_nodes c t i ms) ->
  node_id n' = node_id n -> n' = n.
Proof.
  intros Hn Hn' Hid.
  destruct (message_nodes_in _ _ _ _ _ Hn) as (j & m & Hj & ->).
  destruct (message_nodes_in _ _ _ _ _ Hn') as (j' & m' & Hj' & ->).
  rewrite !message_node_id in Hid.
  assert (j' = j) by lia. subst j'.
  rewrite Hj in Hj'. injection Hj' as <-. reflexivity.
Qed.

Lemma find_node_skip l rest i :
  (forall n, In n l -> node_id n <> i) ->
  find_node (l ++ rest) i = find_node rest i.
Proof.
  intros Hl. induction l as [| x l IH]; [reflexivity |].
  unfold find_node in *. cbn [app find].
  destruct (Z.eqb_spec (node_id x) i) as [E | _].
  - exfalso. apply (Hl x); [left; reflexivity | exact E].
  - apply IH. intros n Hn. apply Hl. right. exact Hn.
Qed.

Lemma find_node_unique l rest n :
  In n l ->
  (forall n', In n' l -> node_id n' = node_id n -> n' = n) ->
  find_node (l ++ rest) (node_id n) = Some n.
Proof.
  intros Hin Huniq. induction l as [| x l IH]; [destruct Hin |].
  unfold find_node in *. cbn [app find].
  destruct (Z.eqb_spec (node_id x) (node_id n)) as [E | NE].
  - f_equal. apply Huniq; [left; reflexivity | exact E].
  - destruct Hin as [-> | Hin]; [contradiction |].
    apply IH; [exact Hin |]. intros n' Hn'. apply Huniq. right. exact Hn'.
Qed.

Lemma find_node_id ns i n : find_node ns i = Some n -> node_id n = i.
Proof.
  unfold find_node. intros Hf. apply find_some in Hf. destruct Hf as [_ Hf].
  apply Z.eqb_eq. exact Hf.
Qed.

Lemma sort_smallest_last l x :
  (forall a, In a l -> order_leb a x = false) ->
  sort_by_order (l ++ [x]) = x :: sort_by_order l.
Proof.
  intros Hl. induction l as [| a l IH]; [reflexivity |].
  cbn [app sort_by_order]. rewrite IH by (intros a' Ha'; apply Hl; right; exact Ha').
  cbn [insert_by_order]. rewrite (Hl a) by (left; reflexivity). reflexivity.
Qed.

Lemma sort_rev_message_nodes `{Externals} c t ms : forall i,
  sort_by_order (rev (message_nodes c t i ms)) = message_nodes c t i ms.
Proof.
  induction ms as [| m ms IH]; intros i; [reflexivity |].
  cbn [message_nodes rev]. rewrite sort_smallest_last.
  - rewrite IH. reflexivity.
  - intros a Ha. apply in_rev in Ha.
    destruct (message_nodes_in _ _ _ _ _ Ha) as (j & m' & _ & ->).
    unfold order_leb. rewrite !order_key_message_node.
    apply Z.leb_gt. lia.
Qed.

Lemma store_message_run `{Externals} c t cn i m W :
  0 < c -> driver W = true -> faults W = [] ->
  next_id W = c + 1 + Z.of_nat i -> clock W = t + 1 + Z.of_nat i ->
  find_node (nodes W) c = Some cn ->
  MemoryManager.store_message (Some c) (i, VDict m) W
  = (Ok tt, set_graph (message_node c t i m :: nodes W)
                      (contains c (message_node c t i m) :: rels W)
                      (next_id W + 1) (set_clock (clock W + 1) W)).
Proof.
  intros Hc Hd F Hn Ht Hfind.
  unfold MemoryManager.store_message.
  unfold bind at 1, lift at 1. cbn [py_get].
  unfold bind at 1, lift at 1. cbn [py_get].
  unfold bind at 1, now_isoformat, datetime_now. unfold bind at 1. unfold ret at 1.
  unfold bind at 1, lift at 1. cbn [py_get].
  unfold bind at 1.
  rewrite (create_node_run [VStr "Message"] ["Message"] _ (set_clock (clock W + 1) W)
             Hd eq_refl eq_refl) by reflexivity.
  rewrite next_fault_healthy by (fields; exact F). fields.
  assert (Hm : id_truthy (Some (next_id W)) = true).
  { unfold id_truthy. rewrite Hn. destruct (Z.eqb_spec (c + 1 + Z.of_nat i) 0); [lia | reflexivity]. }
  assert (Hcz : id_truthy (Some c) = true).
  { unfold id_truthy. destruct (Z.eqb_spec c 0); [lia | reflexivity]. }
  rewrite Hm, Hcz. cbn [andb].
  unfold bind at 1.
  rewrite create_relationship_run by (first [reflexivity | fields; exact Hd]).
  rewrite next_fault_healthy by (fields; exact F). fields.
  unfold find_node at 1 2. cbn [find node_id].
  rewrite Z.eqb_refl.
  destruct (Z.eqb_spec (next_id W) c) as [E | _]; [lia |].
  fold (find_node (nodes W) c). rewrite Hfind.
  unfold ret, message_node, contains. cbn [node_id].
  rewrite Hn, Ht. reflexivity.
Qed.

Lemma store_messages_run `{Externals} c t cn : 0 < c -> forall ms i W,
  driver W = true -> faults W = [] ->
  next_id W = c + 1 + Z.of_nat i -> clock W = t + 1 + Z.of_nat i ->
  find_node (nodes W) c = Some cn ->
  for_each (combine (seq i (List.length ms)) (map VDict ms))
           (MemoryManager.store_message (Some c)) W
  = (Ok tt, set_graph (rev (message_nodes c t i ms) ++ nodes W)
                      (rev (map (contains c) (message_nodes c t i ms)) ++ rels W)
                      (next_id W + Z.of_nat (List.length ms))
                      (set_clock (clock W + Z.of_nat (List.length ms)) W)).
Proof.
  intros Hc. induction ms as [| m ms IH]; intros i W Hd F Hn Ht Hfind.
  - cbn. unfold ret, set_graph, set_clock. fields.
    rewrite !Z.add_0_r. destruct W; reflexivity.
  - cbn [List.length seq map combine for_each].
    rewrite (bind_ok _ (store_message_run c t cn i m W Hc Hd F Hn Ht Hfind)).
    rewrite IH.
    + unfold set_graph, set_clock. fields.
      cbn [message_nodes map rev]. rewrite <- !app_assoc. cbn [app].
      replace (next_id W + 1 + Z.of_nat (List.length ms))
        with (next_id W + Z.of_nat (S (List.length ms))) by lia.
      replace (clock W + 1 + Z.of_nat (List.length ms))
        with (clock W + Z.of_nat (S (List.length ms))) by lia.
      reflexivity.
    + fields. exact Hd.
    + fields. exact F.
    + fields. lia.
    + fields. lia.
    + fields. unfold find_node. cbn [find]. rewrite message_node_id.
      destruct (Z.eqb_spec (c + 1 + Z.of_nat i) c) as [E | _]; [lia |].
      exact Hfind.
Qed.



Lemma id_is_eqb c n : id_is [("id", VInt c)] n = (node_id n =? c).
Proof. reflexivity. Qed.

Lemma filter_all {A} (p : A -> bool) l :
  (forall x, In x l -> p x = true) -> filter p l = l.
Proof.
  intros Hp. induction l as [| x l IH]; [reflexivity |].
  cbn [filter]. rewrite (Hp x) by (left; reflexivity).
  f_equal. apply IH. intros y Hy. apply Hp. right. exact Hy.
Qed.

Lemma filter_none {A} (p : A -> bool) l :
  (forall x, In x l -> p x = false) -> filter p l = [].
Proof.
  intros Hp. induction l as [| x l IH]; [reflexivity |].
  cbn [filter]. rewrite (Hp x) by (left; reflexivity).
  apply IH. intros y Hy. apply Hp. right. exact Hy.
Qed.

Lemma conversation_messages_run c cn msgs oldnodes oldrels W :
  driver W = true -> faults W = [] ->
  nodes W = (rev msgs ++ cn :: oldnodes)%list ->
  rels W = (rev (map (contains c) msgs) ++ oldrels)%list ->
  node_id cn = c -> has_label "Conversation" cn = true ->
  (forall m, In m msgs -> has_label "Message" m = true /\ node_id m <> c) ->
  (forall m m', In m msgs -> In m' msgs -> node_id m' = node_id m -> m' = m) ->
  (forall r, In r oldrels -> rel_start r <> c) ->
  GraphDatabase.query CConversationMessages (Some [("id", VInt c)]) W
  = (Ok (map (fun n => record1 "m" (node_val n)) (sort_by_order (rev msgs))), W).
Proof.
  intros Hd F Hnodes Hrels Hcid Hclabel Hmsgs Huniq Hold.
  rewrite (graph_query_run CConversationMessages [("id", VInt c)] W Hd eq_refl eq_refl).
  rewrite (next_fault_healthy _ F). cbn [cypher].
  assert (Hfc : find_node (nodes W) c = Some cn).
  { rewrite Hnodes, find_node_skip.
    - unfold find_node. cbn [find]. rewrite Hcid, Z.eqb_refl. reflexivity.
    - intros n Hn. apply in_rev in Hn. apply (Hmsgs n Hn). }
  assert (Hfm : forall m, In m msgs -> find_node (nodes W) (node_id m) = Some m).
  { intros m Hm. rewrite Hnodes. apply find_node_unique.
    - apply in_rev. rewrite rev_involutive. exact Hm.
    - intros m' Hm' Hid. apply in_rev in Hm'. apply (Huniq m m' Hm Hm' Hid). }
  assert (Hnew : forall l, (forall m, In m l -> In m msgs) ->
            flat_map (fun r =>
              if String.eqb (rel_type r) "CONTAINS" then
                match find_node (nodes W) (rel_start r), find_node (nodes W) (rel_end r) with
                | Some a, Some b => [(a, b)]
                | _, _ => []
                end
              else []) (map (contains c) l) = map (pair cn) l).
  { induction l as [| m l IH]; intros Hl; [reflexivity |].
    cbn [map flat_map contains rel_type rel_start rel_end String.eqb Ascii.eqb Bool.eqb].
    rewrite Hfc, (Hfm m) by (apply Hl; left; reflexivity).
    cbn [app]. f_equal. apply IH. intros m' Hm'. apply Hl. right. exact Hm'. }
  unfold matches_of. rewrite Hrels, flat_map_app, <- map_rev.
  rewrite Hnew by (intros m Hm; apply in_rev; exact Hm).
  rewrite filter_app, map_app.
  rewrite filter_all, filter_none, app_nil_r.
  - rewrite map_map. cbn [snd]. rewrite map_id. reflexivity.
  - intros [a b] Hab. apply in_flat_map in Hab. destruct Hab as (r & Hr & Hab).
    destruct (String.eqb (rel_type r) "CONTAINS"); [| destruct Hab].
    destruct (find_node (nodes W) (rel_start r)) as [a' |] eqn:Ha; [| destruct Hab].
    destruct (find_node (nodes W) (rel_end r)) as [b' |]; [| destruct Hab].
    destruct Hab as [[= <- <-] | []]. cbn [fst snd].
    rewrite id_is_eqb, (find_node_id _ _ _ Ha).
    destruct (Z.eqb_spec (rel_start r) c) as [E | _]; [exfalso; exact (Hold r Hr E) |].
    apply andb_false_r.
  - intros [a b] Hab. apply in_map_iff in Hab. destruct Hab as (m & [= <- <-] & Hm).
    apply in_rev in Hm. cbn [fst snd].
    rewrite Hclabel, (proj1 (Hmsgs m Hm)), id_is_eqb, Hcid, Z.eqb_refl. reflexivity.
Qed.

(** No call of the graph adapter touches the fields of the three
    objects or the collection. *)
Lemma next_fault_connected w :
  connected w -> connected (snd (next_fault w)) /\ docs (snd (next_fault w)) = docs w.
Proof. unfold next_fault, connected. destruct (faults w); fields; auto. Qed.

Lemma cypher_connected q p w :
  connected w -> exists r w', cypher q p w = (r, w') /\ connected w' /\ docs w' = docs w.
Proof.
  intros Hc. unfold cypher, run_unread, delete_label.
  destruct q;
    repeat match goal with
           | |- context [if ?b then _ else _] => destruct b
           | |- context [match param_int ?d ?k with _ => _ end] => destruct (param_int d k)
           | |- context [match find_node ?ns ?i with _ => _ end] => destruct (find_node ns i)
           | |- context [unread ?w ?t ?d ?g] => destruct (unread w t d g) as [? [[? ?] ?]]
           end;
    eexists; eexists; (split; [reflexivity | split; [exact Hc | reflexivity]]).
Qed.

Lemma session_run_connected q p w :
  connected w ->
  exists r w', session_run q p w = (r, w') /\ connected w' /\ docs w' = docs w.
Proof.
  intros Hc. unfold session_run, outside, raise.
  destruct (has_key p "query" || has_key p "self"); [eauto |].
  destruct (next_fault_connected w Hc) as [Hn Hk].
  destruct (has_key p "parameters"); cbv beta;
    destruct (next_fault w) as [[e |] w1]; cbn [snd] in Hn, Hk; eauto.
  - unfold run_unread.
    destruct (unread w1 (statement_text q p) p (nodes w1, rels w1, next_id w1))
      as [r [[ns rs] n]].
    eexists. eexists. split; [reflexivity |]. split; [exact Hn | exact Hk].
  - destruct (cypher_connected q p w1 Hn) as (r & w2 & Hr & Hc2 & Hk2).
    exists r, w2. split; [exact Hr |]. split; [exact Hc2 | congruence].
Qed.

(** [create_node] and [create_relationship] catch what the statement
    raises. *)
Lemma create_node_returns labels ls props w :
  connected w -> join_labels labels = Ok ls ->
  exists o w', GraphDatabase.create_node labels props w = (Ok o, w')
               /\ connected w' /\ docs w' = docs w.
Proof.
  intros Hc Hl. unfold GraphDatabase.create_node.
  rewrite (bind_ok _ (ensure_driver_on _ (proj1 (proj2 Hc)))). cbn [negb].
  unfold lift, bind at 1. rewrite Hl. unfold try_except, bind.
  destruct (session_run_connected (CCreateNode ls) props w Hc) as (r & w' & Hr & Hc' & Hk).
  rewrite Hr. destruct r; eexists; eexists; (split; [reflexivity | split; assumption]).
Qed.








(** On a server that has handed out no id yet the Conversation node gets
    the id 0, which tests false: the messages are stored and none is
    linked. *)
Lemma conversation_on_fresh_server :
  let r := MemoryManager.store_conversation (H := Reference.externals)
             [VDict [("role", VStr "user"); ("content", VStr "remember the milk")]]
             (VStr "shopping") VNone Reference.fresh in
  fst r = Ok true
  /\ map node_id (nodes (snd r)) = [1; 0]
  /\ rels (snd r) = []
  /\ docs (snd r) = [].
Proof. repeat split; reflexivity. Qed.

(* ===================================================================== *)
(** ** Initialization *)
(* ===================================================================== *)

Lemma next_fault_keeps w :
  docs (snd (next_fault w)) = docs w /\ nodes (snd (next_fault w)) = nodes w
  /\ rels (snd (next_fault w)) = rels w.
Proof. unfold next_fault. destruct (faults w); fields; auto. Qed.

Lemma next_fault_fields w :
  nodes (snd (next_fault w)) = nodes w /\ rels (snd (next_fault w)) = rels w
  /\ docs (snd (next_fault w)) = docs w /\ driver (snd (next_fault w)) = driver w
  /\ client (snd (next_fault w)) = client w
  /\ collection (snd (next_fault w)) = collection w
  /\ initialized (snd (next_fault w)) = initialized w.
Proof. unfold next_fault. destruct (faults w); fields; repeat split; reflexivity. Qed.

Lemma outside_through {A} (op : M A) w :
  goes_through 0 w = true -> outside op w = op (snd (next_fault w)).
Proof.
  unfold goes_through, outside, next_fault.
  destruct (faults w) as [| [e |] fs]; cbn [nth_error]; intros G;
    [reflexivity | discriminate | reflexivity].
Qed.

Lemma goes_through_next n w :
  goes_through n (snd (next_fault w)) = goes_through (S n) w.
Proof.
  unfold goes_through, next_fault.
  destruct (faults w) as [| f fs] eqn:F; fields.
  - rewrite F. destruct n; reflexivity.
  - reflexivity.
Qed.

Lemma faults_next w : faults (snd (next_fault w)) = tl (faults w).
Proof. unfold next_fault. destruct (faults w) eqn:F; fields; [exact F | reflexivity]. Qed.

Lemma nth_error_tl {A} (l : list A) n : nth_error (tl l) n = nth_error l (S n).
Proof. destruct l; [destruct n |]; reflexivity. Qed.

Ltac through :=
  unfold goes_through in *;
  repeat (progress (fields; rewrite ?faults_next));
  rewrite ?nth_error_tl.

(** What [GraphDatabase.connect] can do: return True after both calls
    went through, return False after a ServiceUnavailable, or let any
    other exception pass. It writes to no store. *)
Lemma graph_connect_cases w :
  exists r w',
    GraphDatabase.connect w = (r, w')
    /\ nodes w' = nodes w /\ rels w' = rels w /\ docs w' = docs w
    /\ initialized w' = initialized w
    /\ match r with
       | Ok true => goes_through 0 w = true /\ goes_through 1 w = true /\ driver w' = true
       | Ok false => True
       | Raise e => e <> ServiceUnavailable
       end.
Proof.
  unfold GraphDatabase.connect, try_except_unavailable, try_except, bind, outside,
    session_run, outside, modify, goes_through.
  cbn [has_key dict_lookup orb].
  unfold next_fault at 1.
  destruct (faults w) as [| [e |] fs] eqn:F; fields.
  - unfold next_fault. fields. rewrite F. cbn.
    eexists. eexists. split; [reflexivity |]. fields. repeat split; auto.
  - destruct e; cbn; eexists; eexists; (split; [reflexivity |]); fields;
      repeat split; auto; discriminate.
  - unfold next_fault. fields.
    destruct fs as [| [e |] fs']; fields; try (destruct e); cbn;
      eexists; eexists; (split; [reflexivity |]); fields; repeat split; auto; discriminate.
Qed.

(** [MemoryManager.initialize] writes to no store, and sets the flag to
    what it returns. *)
Lemma initialize_cases w :
  exists r w',
    MemoryManager.initialize w = (r, w')
    /\ nodes w' = nodes w /\ rels w' = rels w /\ docs w' = docs w
    /\ match r with
       | Ok b => initialized w' = b
       | Raise e => e <> ServiceUnavailable /\ initialized w' = initialized w
       end.
Proof.
  unfold MemoryManager.initialize.
  destruct (graph_connect_cases w) as (r & w1 & Hg & Hn & Hr & Hd & Hi & Hcase).
  destruct r as [g | e].
  - rewrite (bind_ok _ Hg).
    destruct (vector_connect_keeps_stores w1) as (v & w2 & Hv & Hd2 & Hn2 & Hr2).
    rewrite (bind_ok _ Hv). unfold bind, modify, ret.
    eexists. eexists. split; [reflexivity |]. fields.
    repeat split; congruence.
  - rewrite (bind_raise _ Hg).
    eexists. eexists. split; [reflexivity |]. repeat split; auto.
Qed.

(** X1. A manager that is not initialized tries to initialize at every
    call; when that attempt returns False (the graph database is
    unavailable, or the vector store cannot be opened), each operation
    returns its empty answer: None for [store_fact], False for
    [store_conversation] and [clear_memory], the empty list for the
    retrievals, empty buckets for [categorize_memories], an empty record
    for [get_entity_information]. Neither store is written, and the
    manager stays uninitialized, so the next call tries again. *)
Theorem failed_initialization_gives_empty_answers `{Externals} w
        fact source related messages context metadata query limit name memory_type
        entity_type days fact_id :
  initialized w = false ->
  fst (MemoryManager.initialize w) = Ok false ->
  exists w',
    initialized w' = false /\ nodes w' = nodes w /\ rels w' = rels w /\ docs w' = docs w
    /\ MemoryManager.store_fact fact source related w = (Ok None, w')
    /\ MemoryManager.store_conversation messages context metadata w = (Ok false, w')
    /\ MemoryManager.retrieve_relevant_memories query limit w = (Ok [], w')
    /\ MemoryManager.categorize_memories query w = (Ok (Build_Categorized [] []), w')
    /\ MemoryManager.get_entity_information name w = (Ok (Build_EntityInformation VNone []), w')
    /\ MemoryManager.clear_memory memory_type w = (Ok false, w')
    /\ MemoryRetrieval.retrieve_by_entity_type entity_type limit w = (Ok [], w')
    /\ MemoryRetrieval.retrieve_recent_memories memory_type days limit w = (Ok [], w')
    /\ MemoryRetrieval.retrieve_memories_by_source source limit w = (Ok [], w')
    /\ MemoryRetrieval.retrieve_related_facts fact_id limit w = (Ok [], w').
Proof.
  intros Hi Hfail.
  destruct (initialize_cases w) as (r & w' & Hinit & Hn & Hr & Hd & Hcase).
  rewrite Hinit in Hfail. cbn [fst] in Hfail. subst r.
  assert (Hgo : MemoryManager.ensure_initialized w = (Ok false, w')).
  { unfold MemoryManager.ensure_initialized, bind, gets. rewrite Hi. exact Hinit. }
  exists w'. repeat split; auto;
    [ unfold MemoryManager.store_fact
    | unfold MemoryManager.store_conversation
    | unfold MemoryManager.retrieve_relevant_memories
    | unfold MemoryManager.categorize_memories
    | unfold MemoryManager.get_entity_information
    | unfold MemoryManager.clear_memory
    | unfold MemoryRetrieval.retrieve_by_entity_type
    | unfold MemoryRetrieval.retrieve_recent_memories
    | unfold MemoryRetrieval.retrieve_memories_by_source
    | unfold MemoryRetrieval.retrieve_related_facts ];
    rewrite (bind_ok _ Hgo); reflexivity.
Qed.

(** The graph database answers ServiceUnavailable: storing a fact
    returns None and the scan of the Fact nodes returns nothing. *)
Lemma failed_initialization_gives_empty_answers_witness :
  exists w',
    initialized w' = false /\ nodes w' = [] /\ docs w' = []
    /\ MemoryManager.store_fact (H := Reference.externals)
         (VStr "OpenManus is an agent framework") (VStr "test") VNone
         (set_faults [Some ServiceUnavailable] Reference.fresh) = (Ok None, w')
    /\ MemoryRetrieval.retrieve_by_entity_type "Fact" 10
         (set_faults [Some ServiceUnavailable] Reference.fresh) = (Ok [], w').
Proof.
  destruct (failed_initialization_gives_empty_answers (H := Reference.externals)
              (set_faults [Some ServiceUnavailable] Reference.fresh)
              (VStr "OpenManus is an agent framework") (VStr "test") VNone
              [] VNone VNone VNone 10 VNone VNone "Fact" 7 VNone eq_refl eq_refl)
    as (w' & Hi & Hn & _ & Hd & Hfact & _ & _ & _ & _ & _ & Htype & _).
  exists w'. repeat split; assumption.
Defined.

(** X2. Only ServiceUnavailable is caught while the graph database is
    being connected. When the initialization of a manager that is not
    initialized raises, the exception is never ServiceUnavailable, and
    every operation of the manager raises that same exception to its
    caller instead of returning its empty answer. *)
Theorem initialization_error_reaches_the_caller `{Externals} w e w1
        fact source related messages context metadata query limit name memory_type
        entity_type days fact_id :
  initialized w = false ->
  MemoryManager.initialize w = (Raise e, w1) ->
  e <> ServiceUnavailable
  /\ MemoryManager.store_fact fact source related w = (Raise e, w1)
  /\ MemoryManager.store_conversation messages context metadata w = (Raise e, w1)
  /\ MemoryManager.retrieve_relevant_memories query limit w = (Raise e, w1)
  /\ MemoryManager.categorize_memories query w = (Raise e, w1)
  /\ MemoryManager.get_entity_information name w = (Raise e, w1)
  /\ MemoryManager.clear_memory memory_type w = (Raise e, w1)
  /\ MemoryRetrieval.retrieve_by_entity_type entity_type limit w = (Raise e, w1)
  /\ MemoryRetrieval.retrieve_recent_memories memory_type days limit w = (Raise e, w1)
  /\ MemoryRetrieval.retrieve_memories_by_source source limit w = (Raise e, w1)
  /\ MemoryRetrieval.retrieve_related_facts fact_id limit w = (Raise e, w1).
Proof.
  intros Hi Hinit.
  assert (Hgo : MemoryManager.ensure_initialized w = (Raise e, w1)).
  { unfold MemoryManager.ensure_initialized, bind, gets. rewrite Hi. exact Hinit. }
  split.
  { destruct (initialize_cases w) as (r & w' & Hinit' & _ & _ & _ & Hcase).
    rewrite Hinit in Hinit'. injection Hinit' as <- <-. apply Hcase. }
  repeat split;
    [ unfold MemoryManager.store_fact
    | unfold MemoryManager.store_conversation
    | unfold MemoryManager.retrieve_relevant_memories
    | unfold MemoryManager.categorize_memories
    | unfold MemoryManager.get_entity_information
    | unfold MemoryManager.clear_memory
    | unfold MemoryRetrieval.retrieve_by_entity_type
    | unfold MemoryRetrieval.retrieve_recent_memories
    | unfold MemoryRetrieval.retrieve_memories_by_source
    | unfold MemoryRetrieval.retrieve_related_facts ];
    rewrite (bind_raise _ Hgo); reflexivity.
Qed.

(** The driver cannot be built for another reason than an unavailable
    service: the retrieval raises that error. *)
Lemma initialization_error_reaches_the_caller_witness :
  MemoryManager.retrieve_relevant_memories (H := Reference.externals) (VStr "agent") 5
    (set_faults [Some StoreError] Reference.fresh)
  = (Raise StoreError, Reference.fresh)
  /\ MemoryManager.clear_memory (H := Reference.externals) VNone
       (set_faults [Some StoreError] Reference.fresh)
     = (Raise StoreError, Reference.fresh).
Proof.
  destruct (initialization_error_reaches_the_caller (H := Reference.externals)
              (set_faults [Some StoreError] Reference.fresh) StoreError Reference.fresh
              VNone VNone VNone [] VNone VNone (VStr "agent") 5 VNone VNone "Fact" 7 VNone
              eq_refl eq_refl)
    as (_ & _ & _ & Hq & _ & _ & Hc & _).
  split; assumption.
Defined.

(** X3. When the five calls that open the two stores all go through
    (the Neo4j driver and its test query; the Chroma client, the
    embedding function and the collection), [MemoryManager.initialize]
    returns True, the manager is initialized with both adapters
    connected, and nothing has been written to either store. *)
Theorem initialize_connects_both_stores w :
  (forall n, (n < 5)%nat -> goes_through n w = true) ->
  exists w',
    MemoryManager.initialize w = (Ok true, w')
    /\ connected w'
    /\ nodes w' = nodes w /\ rels w' = rels w /\ docs w' = docs w.
Proof.
  intros G.
  assert (G0 := G 0%nat ltac:(lia)). assert (G1 := G 1%nat ltac:(lia)).
  assert (G2 := G 2%nat ltac:(lia)). assert (G3 := G 3%nat ltac:(lia)).
  assert (G4 := G 4%nat ltac:(lia)). clear G.
  pose (w1 := set_driver true (snd (next_fault w))).
  pose (w2 := snd (next_fault w1)).
  pose (w3 := set_client true (snd (next_fault w2))).
  pose (w4 := snd (next_fault w3)).
  pose (w5 := set_collection true (snd (next_fault w4))).
  assert (T1 : goes_through 0 w1 = true) by (unfold w1; through; exact G1).
  assert (T2 : goes_through 0 w2 = true) by (unfold w2, w1; through; exact G2).
  assert (T3 : goes_through 0 w3 = true) by (unfold w3, w2, w1; through; exact G3).
  assert (T4 : goes_through 0 w4 = true) by (unfold w4, w3, w2, w1; through; exact G4).
  assert (Hg : GraphDatabase.connect w = (Ok true, w2)).
  { unfold GraphDatabase.connect, try_except_unavailable, try_except, bind, session_run.
    cbn [has_key dict_lookup orb].
    rewrite (outside_through _ w G0). unfold modify. fold w1.
    rewrite (outside_through _ w1 T1). reflexivity. }
  assert (Hv : VectorDatabase.connect w2 = (Ok true, w5)).
  { unfold VectorDatabase.connect, try_except, bind.
    rewrite (outside_through _ w2 T2). unfold modify. fold w3.
    rewrite (outside_through _ w3 T3). unfold ret at 1. fold w4.
    rewrite (outside_through _ w4 T4). reflexivity. }
  unfold MemoryManager.initialize.
  rewrite (bind_ok _ Hg), (bind_ok _ Hv). unfold bind, modify, ret. cbn [andb].
  eexists. split; [reflexivity |].
  destruct (next_fault_fields w) as (A1 & A2 & A3 & A4 & A5 & A6 & A7).
  destruct (next_fault_fields w1) as (B1 & B2 & B3 & B4 & B5 & B6 & B7).
  destruct (next_fault_fields w2) as (C1 & C2 & C3 & C4 & C5 & C6 & C7).
  destruct (next_fault_fields w3) as (D1 & D2 & D3 & D4 & D5 & D6 & D7).
  destruct (next_fault_fields w4) as (E1 & E2 & E3 & E4 & E5 & E6 & E7).
  unfold connected, w5. fields. fold w4.
  rewrite ?E1, ?E2, ?E3, ?E4, ?E5, ?E6, ?E7. unfold w4.
  rewrite ?D1, ?D2, ?D3, ?D4, ?D5, ?D6, ?D7. unfold w3. fields. fold w2.
  rewrite ?C1, ?C2, ?C3, ?C4, ?C5, ?C6, ?C7. unfold w2.
  rewrite ?B1, ?B2, ?B3, ?B4, ?B5, ?B6, ?B7. unfold w1. fields.
  rewrite ?A1, ?A2, ?A3, ?A4, ?A5, ?A6, ?A7.
  repeat split; reflexivity.
Qed.

(** Both stores are reachable from a manager that has connected
    nothing yet. *)
Lemma initialize_connects_both_stores_witness :
  exists w',
    MemoryManager.initialize Reference.fresh = (Ok true, w') /\ connected w'.
Proof.
  destruct (initialize_connects_both_stores Reference.fresh) as (w' & Hrun & Hc & _).
  - intros n _. unfold goes_through. destruct n; reflexivity.
  - exists w'. split; assumption.
Defined.

(** X4. [GraphDatabase.connect] assigns the driver before it tests the
    connection. When the test query meets ServiceUnavailable, connect
    returns False but the driver stays assigned: the adapter's methods no
    longer try to connect and send their statement through that
    driver. *)
Theorem failed_connect_keeps_the_driver w fs :
  faults w = None :: Some ServiceUnavailable :: fs ->
  exists w',
    GraphDatabase.connect w = (Ok false, w')
    /\ driver w' = true /\ faults w' = fs
    /\ GraphDatabase.ensure_driver w' = (Ok true, w').
Proof.
  intros F. exists (set_driver true (set_faults fs w)). split.
  - unfold GraphDatabase.connect, try_except_unavailable, try_except, bind, outside,
      session_run, outside, modify.
    cbn [has_key dict_lookup orb].
    unfold next_fault at 1. rewrite F. fields.
    unfold next_fault. fields. reflexivity.
  - split; [reflexivity |]. split; [reflexivity |].
    apply ensure_driver_on. reflexivity.
Qed.

Lemma failed_connect_keeps_the_driver_witness :
  exists w',
    GraphDatabase.connect (set_faults [None; Some ServiceUnavailable] Reference.fresh)
    = (Ok false, w')
    /\ driver w' = true.
Proof.
  destruct (failed_connect_keeps_the_driver
              (set_faults [None; Some ServiceUnavailable] Reference.fresh) [] eq_refl)
    as (w' & Hrun & Hd & _).
  exists w'. split; assumption.
Defined.

(* ===================================================================== *)
(** ** The two adapters *)
(* ===================================================================== *)

Lemma join_labels_error labels e : join_labels labels = Raise e -> e = TypeError.
Proof.
  induction labels as [| l labels IH]; [discriminate |].
  destruct l; cbn [join_labels]; try (intros [= <-]; reflexivity).
  destruct (join_labels labels); [discriminate |].
  intros [= <-]. apply IH. reflexivity.
Qed.

(** A property that is called like a parameter of [run] is given
    twice: the TypeError is caught, and nothing has been sent. *)
Lemma create_node_keyword_clash labels ls properties w :
  driver w = true -> join_labels labels = Ok ls ->
  has_key properties "query" || has_key properties "self" = true ->
  GraphDatabase.create_node labels properties w = (Ok None, w).
Proof.
  intros Hd Hl Hq. unfold GraphDatabase.create_node.
  rewrite (bind_ok _ (ensure_driver_on _ Hd)). cbn [negb].
  unfold lift, bind at 1. rewrite Hl.
  unfold try_except, bind, session_run. rewrite Hq. reflexivity.
Qed.

(** X5. [GraphDatabase.create_node] on a connected adapter. The label
    text is joined before the try block, so a label that is not a string
    raises TypeError to the caller and nothing is sent. With string
    labels the method never raises here. A property called query or self
    is given twice to the driver's [run]: the method returns None and
    nothing is sent. With labels that are names and property keys that
    are plain, the statement reads as one node creation: when the call
    fails the method returns None and the graph is as before; when it
    goes through it returns the id the server gave to the new node,
    which carries the labels and the properties that are not None. *)
Theorem create_node_outcomes labels properties w :
  driver w = true ->
  match join_labels labels with
  | Raise _ =>
      GraphDatabase.create_node labels properties w = (Raise TypeError, w)
  | Ok ls =>
      (has_key properties "query" || has_key properties "self" = true ->
       GraphDatabase.create_node labels properties w = (Ok None, w))
      /\ (label_names ls = true -> plain_keys properties = true ->
          exists w',
            (GraphDatabase.create_node labels properties w = (Ok None, w')
             /\ goes_through 0 w = false
             /\ nodes w' = nodes w /\ rels w' = rels w /\ next_id w' = next_id w)
            \/
            (GraphDatabase.create_node labels properties w = (Ok (Some (next_id w)), w')
             /\ goes_through 0 w = true
             /\ nodes w' = Build_Node (next_id w) ls (stored_props properties) :: nodes w
             /\ rels w' = rels w /\ next_id w' = next_id w + 1))
  end.
Proof.
  intros Hd. destruct (join_labels labels) as [ls | e] eqn:Hl.
  - split.
    + intros Hq. exact (create_node_keyword_clash labels ls properties w Hd Hl Hq).
    + intros Hls Hp. rewrite (create_node_run labels ls properties w Hd Hl Hls Hp).
      unfold goes_through, next_fault.
      destruct (faults w) as [| [e |] fs]; cbn [nth_error].
      * eexists. right. split; [reflexivity |]. fields. auto.
      * eexists. left. split; [reflexivity |]. fields. auto.
      * eexists. right. split; [reflexivity |]. fields. auto.
  - unfold GraphDatabase.create_node.
    rewrite (bind_ok _ (ensure_driver_on _ Hd)). cbn [negb].
    unfold bind, lift. rewrite Hl. rewrite (join_labels_error _ _ Hl). reflexivity.
Qed.

(** A label that is None raises; a property called query gives None;
    the label Person gives node 7. *)
Lemma create_node_outcomes_witness :
  GraphDatabase.create_node [VNone] [("name", VStr "Ada")] (Reference.ready 7)
  = (Raise TypeError, Reference.ready 7)
  /\ GraphDatabase.create_node [VStr "Person"] [("query", VStr "Ada")] (Reference.ready 7)
     = (Ok None, Reference.ready 7)
  /\ exists w',
       GraphDatabase.create_node [VStr "Person"] [("name", VStr "Ada"); ("age", VNone)]
         (Reference.ready 7) = (Ok (Some 7), w')
       /\ nodes w' = [Build_Node 7 ["Person"] [("name", VStr "Ada")]].
Proof.
  split; [| split].
  - exact (create_node_outcomes [VNone] [("name", VStr "Ada")] (Reference.ready 7) eq_refl).
  - exact (proj1 (create_node_outcomes [VStr "Person"] [("query", VStr "Ada")]
                    (Reference.ready 7) eq_refl) eq_refl).
  - destruct (proj2 (create_node_outcomes [VStr "Person"] [("name", VStr "Ada"); ("age", VNone)]
                       (Reference.ready 7) eq_refl) eq_refl eq_refl)
      as (w' & [(_ & G & _) | (Hrun & _ & Hn & _)]).
    + discriminate G.
    + exists w'. split; [exact Hrun | exact Hn].
Defined.

(** X6. [GraphDatabase.create_relationship] with a type that is a name
    and no properties, on a connected adapter whose call goes through,
    returns True exactly when both ids name a node of the graph, and
    only then is a relationship of the given type added from the first
    node to the second; no node is touched. *)
Theorem create_relationship_needs_both_nodes a b t w :
  driver w = true -> goes_through 0 w = true -> identifier t = true ->
  exists w',
    GraphDatabase.create_relationship a b t None w
    = (Ok (match find_node (nodes w) a, find_node (nodes w) b with
           | Some _, Some _ => true
           | _, _ => false
           end), w')
    /\ nodes w' = nodes w
    /\ rels w' = match find_node (nodes w) a, find_node (nodes w) b with
                 | Some _, Some _ => Build_Rel a b t [] :: rels w
                 | _, _ => rels w
                 end.
Proof.
  intros Hd G Ht. rewrite (create_relationship_run a b t w Hd Ht).
  unfold goes_through in G. unfold next_fault.
  destruct (faults w) as [| [e |] fs]; cbn [nth_error] in G; try discriminate; fields;
    destruct (find_node (nodes w) a); destruct (find_node (nodes w) b);
    eexists; (split; [reflexivity |]); fields; auto.
Qed.

(** No node has the id 3 or 4 on an empty server. *)
Lemma create_relationship_needs_both_nodes_witness :
  exists w',
    GraphDatabase.create_relationship 3 4 "MENTIONS" None (Reference.ready 7) = (Ok false, w')
    /\ rels w' = [].
Proof.
  destruct (create_relationship_needs_both_nodes 3 4 "MENTIONS" (Reference.ready 7)
              eq_refl eq_refl eq_refl) as (w' & Hrun & _ & Hr).
  exists w'. split; [exact Hrun | exact Hr].
Defined.




Lemma id_in_strings ids d :
  id_in (map VStr ids) d = existsb (String.eqb (doc_id d)) ids.
Proof.
  unfold id_in. induction ids as [| i ids IH]; [reflexivity |].
  cbn [map existsb is_str]. rewrite IH, (String.eqb_sym i). reflexivity.
Qed.

(** X8. [VectorDatabase.delete] on a connected adapter whose call goes
    through. A non-empty list of ids is what decides: the documents with
    these ids are removed and the filter, whatever it is, is not looked
    at. The filter is used only when no ids are given; then the
    documents whose metadata match it are removed. Both calls return
    True. *)
Theorem delete_prefers_ids `{Externals} w :
  client w = true -> collection w = true -> goes_through 0 w = true ->
  (forall ids filter_metadata,
      ids <> [] ->
      exists w',
        VectorDatabase.delete []
          [("ids", VList (map VStr ids)); ("filter_metadata", filter_metadata)] w
        = (Ok true, w')
        /\ docs w' = filter (fun d => negb (existsb (String.eqb (doc_id d)) ids)) (docs w))
  /\ (forall ids f,
      truthy ids = false -> f <> [] ->
      exists w',
        VectorDatabase.delete [] [("ids", ids); ("filter_metadata", VDict f)] w = (Ok true, w')
        /\ docs w' = filter (fun d => negb (where_matches f (doc_meta d))) (docs w)).
Proof.
  intros Hc Hk G.
  assert (Hnf : exists w1, next_fault w = (None, w1) /\ docs w1 = docs w).
  { unfold goes_through in G. unfold next_fault.
    destruct (faults w) as [| [e |] fs]; cbn [nth_error] in G; try discriminate;
      eexists; (split; [reflexivity |]); reflexivity. }
  destruct Hnf as (w1 & Hnf & Hd1).
  split.
  - intros ids f Hids.
    change (VectorDatabase.delete [] _ w)
      with (VectorDatabase.delete_body (VList (map VStr ids)) f w).
    unfold VectorDatabase.delete_body.
    rewrite (bind_ok _ (ensure_collection_on _ Hc Hk)). cbn [negb].
    destruct ids as [| i ids]; [contradiction |]. cbn [map truthy].
    unfold try_except, bind, collection_delete_ids, outside. rewrite Hnf.
    eexists. split; [reflexivity |]. fields. rewrite Hd1.
    apply filter_ext. intros d. f_equal.
    apply (id_in_strings (i :: ids) d).
  - intros ids f Hids Hf.
    change (VectorDatabase.delete [] _ w) with (VectorDatabase.delete_body ids (VDict f) w).
    unfold VectorDatabase.delete_body.
    rewrite (bind_ok _ (ensure_collection_on _ Hc Hk)). cbn [negb].
    rewrite Hids. destruct f as [| kv f]; [contradiction |]. cbn [truthy].
    unfold try_except, bind, collection_delete_where, outside. rewrite Hnf.
    eexists. split; [reflexivity |]. fields. rewrite Hd1. reflexivity.
Qed.

(** One of two documents is deleted by its id although the filter
    matches both. *)
Lemma delete_prefers_ids_witness :
  exists w',
    VectorDatabase.delete (H := Reference.externals) []
      [("ids", VList [VStr "fact_7"]); ("filter_metadata", VDict [("type", VStr "fact")])]
      (set_docs [Build_Document "fact_7" "a" [("type", VStr "fact")];
                 Build_Document "fact_8" "b" [("type", VStr "fact")]] (Reference.ready 9))
    = (Ok true, w')
    /\ docs w' = [Build_Document "fact_8" "b" [("type", VStr "fact")]].
Proof.
  destruct (delete_prefers_ids (H := Reference.externals)
              (set_docs [Build_Document "fact_7" "a" [("type", VStr "fact")];
                         Build_Document "fact_8" "b" [("type", VStr "fact")]]
                        (Reference.ready 9)) eq_refl eq_refl eq_refl) as (Hids & _).
  destruct (Hids ["fact_7"] (VDict [("type", VStr "fact")])) as (w' & Hrun & Hd).
  - discriminate.
  - exists w'. split; [exact Hrun | exact Hd].
Defined.

Lemma uuid4s_run n : forall w,
  exists w',
    uuid4s n w = (Ok (map VStr (uuid_names (uuids w) n)), w')
    /\ uuids w' = uuids w + Z.of_nat n
    /\ nodes w' = nodes w /\ rels w' = rels w /\ docs w' = docs w
    /\ faults w' = faults w.
Proof.
  induction n as [| n IH]; intros w.
  - exists w. cbn. repeat split; auto; lia.
  - cbn [uuid4s uuid_names map]. unfold bind at 1, uuid4 at 1.
    destruct (IH (set_uuids (uuids w + 1) w)) as (w' & Hrun & Hu & Hn & Hr & Hd & Hf).
    unfold bind at 1. rewrite Hrun. unfold ret. fields.
    exists w'. repeat split; auto; lia.
Qed.

Lemma new_documents_texts ds : forall ms is_ new,
  new_documents ds ms is_ = Some new ->
  ds = map (fun d => VStr (doc_text d)) new.
Proof.
  induction ds as [| d ds IH]; intros ms is_ new.
  - destruct ms, is_; cbn; try discriminate. intros [= <-]. reflexivity.
  - destruct d; try discriminate.
    destruct ms as [| m ms]; [discriminate |]. destruct m; try discriminate.
    destruct is_ as [| i is_]; [discriminate |]. destruct i; try discriminate.
    cbn [new_documents].
    destruct (new_documents ds ms is_) as [rest |] eqn:Hrest; [| discriminate].
    intros [= <-]. cbn. f_equal. apply (IH _ _ _ Hrest).
Qed.

Lemma new_documents_of texts : forall ids metas,
  List.length ids = List.length texts -> List.length metas = List.length texts ->
  new_documents (map VStr texts) (map VDict metas) (map VStr ids)
  = Some (documents_of ids texts metas).
Proof.
  induction texts as [| t texts IH]; intros ids metas Hi Hm.
  - destruct ids; [| discriminate]. destruct metas; [| discriminate]. reflexivity.
  - destruct ids as [| i ids]; [discriminate |].
    destruct metas as [| m metas]; [discriminate |].
    cbn [map new_documents documents_of]. rewrite IH; [reflexivity | |];
      cbn in Hi, Hm; lia.
Qed.

Lemma uuid_names_length n : forall u, List.length (uuid_names u n) = n.
Proof. induction n; intros u; cbn; [reflexivity | rewrite IHn; reflexivity]. Qed.

(** X9. [VectorDatabase.add_documents] never raises once its arguments
    are bound, and it adds all the documents or none: when it returns
    True the collection has grown by one document for every text given,
    in the order given; when it returns False (no connection, a store
    error, lists of different lengths, a text or id that is not a
    string) the collection is as before. The graph is not touched. *)
Theorem add_documents_all_or_nothing pos kw documents metadatas ids w :
  bind_args VectorDatabase.add_documents_sig pos kw = Ok [documents; metadatas; ids] ->
  exists b new w',
    VectorDatabase.add_documents pos kw w = (Ok b, w')
    /\ docs w' = (docs w ++ new)%list
    /\ (b = false -> new = [])
    /\ (b = true -> documents = VList (map (fun d => VStr (doc_text d)) new))
    /\ nodes w' = nodes w /\ rels w' = rels w.
Proof.
  intros Hargs.
  assert (Hcall : VectorDatabase.add_documents pos kw w
                  = VectorDatabase.add_documents_body documents metadatas ids w).
  { unfold VectorDatabase.add_documents, bind, lift. rewrite Hargs. reflexivity. }
  rewrite Hcall. unfold VectorDatabase.add_documents_body.
  destruct (ensure_collection_keeps_stores w) as (go & w1 & Hrun & Hd & Hn & Hr).
  rewrite (bind_ok _ Hrun).
  assert (Hnone : forall w0 : World, docs w0 = docs w -> nodes w0 = nodes w -> rels w0 = rels w ->
            exists b new (w' : World),
              (Ok false, w0) = (Ok b, w')
              /\ docs w' = (docs w ++ new)%list
              /\ (b = false -> new = [])
              /\ (b = true -> documents = VList (map (fun d => VStr (doc_text d)) new))
              /\ nodes w' = nodes w /\ rels w' = rels w).
  { intros w0 ? ? ?. exists false, [], w0. rewrite app_nil_r.
    repeat split; auto; discriminate. }
  destruct go; cbn [negb]; [| apply Hnone; assumption].
  unfold try_except. unfold bind at 1.
  (* the ids *)
  assert (Hids : exists r w2,
            (if negb (truthy ids)
             then n <- lift (py_len documents) ;; us <- uuid4s n ;; ret (VList us)
             else ret ids) w1 = (r, w2)
            /\ docs w2 = docs w /\ nodes w2 = nodes w /\ rels w2 = rels w).
  { destruct (negb (truthy ids)).
    - unfold bind at 1, lift at 1.
      destruct (py_len documents) as [n | e].
      + destruct (uuid4s_run n w1) as (w2 & Hu & _ & Hn2 & Hr2 & Hd2 & _).
        rewrite (bind_ok _ Hu). unfold ret.
        eexists. eexists. split; [reflexivity |]. repeat split; congruence.
      + eexists. eexists. split; [reflexivity |]. repeat split; assumption.
    - unfold ret. eexists. eexists. split; [reflexivity |]. repeat split; assumption. }
  destruct Hids as (r & w2 & Hids & Hd2 & Hn2 & Hr2). rewrite Hids.
  destruct r as [ids' | e]; [| apply Hnone; assumption].
  unfold bind at 1.
  assert (Hmetas : exists r,
            (if negb (truthy metadatas)
             then n <- lift (py_len documents) ;; ret (VList (repeat (VDict []) n))
             else ret metadatas) w2 = (r, w2)).
  { destruct (negb (truthy metadatas)).
    - unfold bind, lift, ret. destruct (py_len documents); eexists; reflexivity.
    - unfold ret. eexists. reflexivity. }
  destruct Hmetas as (r & Hmetas). rewrite Hmetas.
  destruct r as [metadatas' | e]; [| apply Hnone; assumption].
  unfold bind at 1. unfold collection_add, outside.
  destruct (next_fault_keeps w2) as (Kd & Kn & Kr).
  destruct (next_fault w2) as [[e |] w3]; cbn [snd] in Kd, Kn, Kr;
    [apply Hnone; congruence |].
  destruct documents as [| | | | | ds | | |]; try (apply Hnone; congruence).
  destruct metadatas' as [| | | | | ms | | |]; try (apply Hnone; congruence).
  destruct ids' as [| | | | | is_ | | |]; try (apply Hnone; congruence).
  destruct (new_documents ds ms is_) as [new |] eqn:Hnew; [| apply Hnone; congruence].
  unfold ret. exists true, new. eexists. split; [reflexivity |]. fields.
  split; [congruence |]. split; [discriminate |].
  split; [intros _; f_equal; apply (new_documents_texts _ _ _ _ Hnew) |].
  split; congruence.
Qed.

(** Two metadata dicts for one text: nothing is added. *)
Lemma add_documents_all_or_nothing_witness :
  exists w',
    VectorDatabase.add_documents [VList [VStr "a"]; VList [VDict []; VDict []]] []
      (Reference.ready 7) = (Ok false, w')
    /\ docs w' = [].
Proof.
  destruct (add_documents_all_or_nothing
              [VList [VStr "a"]; VList [VDict []; VDict []]] []
              (VList [VStr "a"]) (VList [VDict []; VDict []]) VNone (Reference.ready 7) eq_refl)
    as (b & new & w' & Hrun & Hd & Hfalse & _).
  assert (Hb : b = false).
  { assert (E : fst (VectorDatabase.add_documents [VList [VStr "a"]; VList [VDict []; VDict []]]
                       [] (Reference.ready 7)) = Ok false) by reflexivity.
    rewrite Hrun in E. injection E as E. exact E. }
  exists w'. subst b. split; [exact Hrun |].
  rewrite Hd, (Hfalse eq_refl). reflexivity.
Defined.

(** X10. [VectorDatabase.add_documents] on a connected adapter whose
    call goes through, for texts with as many metadata dicts. Given as
    many ids, the documents are stored under these ids. Given no ids,
    one id is generated for every text, and the documents are stored
    under the generated ids in the order of the texts. *)
Theorem add_documents_generates_ids texts metas w :
  client w = true -> collection w = true -> goes_through 0 w = true ->
  texts <> [] -> List.length metas = List.length texts ->
  (forall ids, List.length ids = List.length texts ->
     exists w',
       VectorDatabase.add_documents
         [VList (map VStr texts); VList (map VDict metas); VList (map VStr ids)] [] w
       = (Ok true, w')
       /\ docs w' = (docs w ++ documents_of ids texts metas)%list)
  /\ exists w',
       VectorDatabase.add_documents [VList (map VStr texts); VList (map VDict metas)] [] w
       = (Ok true, w')
       /\ docs w' = (docs w ++ documents_of (uuid_names (uuids w) (List.length texts))
                                            texts metas)%list
       /\ uuids w' = uuids w + Z.of_nat (List.length texts).
Proof.
  intros Hc Hk G Ht Hm.
  assert (Tm : truthy (VList (map VDict metas)) = true).
  { destruct metas; [destruct texts; [contradiction | discriminate] | reflexivity]. }
  split.
  - intros ids Hi.
    change (VectorDatabase.add_documents _ [] w)
      with (VectorDatabase.add_documents_body (VList (map VStr texts)) (VList (map VDict metas))
              (VList (map VStr ids)) w).
    unfold VectorDatabase.add_documents_body.
    rewrite (bind_ok _ (ensure_collection_on _ Hc Hk)). cbn [negb].
    assert (Ti : truthy (VList (map VStr ids)) = true).
    { destruct ids; [destruct texts; [contradiction | discriminate] | reflexivity]. }
    rewrite Ti, Tm. cbn [negb].
    unfold try_except, bind, ret, collection_add.
    rewrite (outside_through _ w G).
    rewrite (new_documents_of texts ids metas Hi Hm).
    eexists. split; [reflexivity |]. fields.
    destruct (next_fault_keeps w) as (Kd & _). rewrite Kd. reflexivity.
  - change (VectorDatabase.add_documents _ [] w)
      with (VectorDatabase.add_documents_body (VList (map VStr texts)) (VList (map VDict metas))
              VNone w).
    unfold VectorDatabase.add_documents_body.
    rewrite (bind_ok _ (ensure_collection_on _ Hc Hk)). cbn [negb].
    change (truthy VNone) with false. rewrite Tm. cbn [negb].
    unfold try_except. unfold bind at 1. unfold bind at 1, lift at 1. cbn [py_len].
    rewrite length_map.
    destruct (uuid4s_run (List.length texts) w) as (w1 & Hu & Hu1 & Hn1 & Hr1 & Hd1 & Hf1).
    rewrite (bind_ok _ Hu). unfold ret at 1. unfold bind at 1. unfold ret at 1.
    unfold bind, ret, collection_add.
    assert (G1 : goes_through 0 w1 = true) by (unfold goes_through in *; rewrite Hf1; exact G).
    rewrite (outside_through _ w1 G1).
    rewrite (new_documents_of texts _ metas (uuid_names_length _ _) Hm).
    eexists. split; [reflexivity |]. fields.
    destruct (next_fault_fields w1) as (_ & _ & Kd & _).
    rewrite Kd, Hd1. split; [reflexivity |].
    unfold next_fault. destruct (faults w1); fields; exact Hu1.
Qed.

(** Two notes stored without ids get the next two generated ids. *)
Lemma add_documents_generates_ids_witness :
  exists w',
    VectorDatabase.add_documents
      [VList [VStr "first note"; VStr "second note"];
       VList [VDict [("type", VStr "note")]; VDict [("type", VStr "note")]]] []
      (Reference.ready 7) = (Ok true, w')
    /\ map doc_id (docs w') = ["uuid-0"; "uuid-1"].
Proof.
  destruct (add_documents_generates_ids ["first note"; "second note"]
              [[("type", VStr "note")]; [("type", VStr "note")]] (Reference.ready 7)
              eq_refl eq_refl eq_refl) as (_ & w' & Hrun & Hd & _).
  - discriminate.
  - reflexivity.
  - exists w'. split; [exact Hrun |]. rewrite Hd. reflexivity.
Defined.

(* ===================================================================== *)
(** ** Node ids as text: [int(str(n))] *)
(* ===================================================================== *)

Lemma int_digits_uint d : forall acc,
  int_digits (list_ascii_of_string (NilEmpty.string_of_uint d)) true acc
  = Some (uint_val d acc).
Proof.
  induction d; intros acc; cbn [NilEmpty.string_of_uint list_ascii_of_string uint_val];
    [reflexivity | ..];
    (cbn [int_digits];
     match goal with |- context [is_digit ?c] =>
       change (is_digit c) with true; cbv iota end;
     rewrite IHd; f_equal; f_equal; unfold digit_val; cbn; lia).
Qed.

Lemma int_digits_uint_start d :
  d <> Decimal.Nil ->
  int_digits (list_ascii_of_string (NilEmpty.string_of_uint d)) false 0
  = Some (uint_val d 0).
Proof.
  intros Hd. destruct d; [contradiction | ..];
    cbn [NilEmpty.string_of_uint list_ascii_of_string uint_val int_digits];
    match goal with |- context [is_digit ?c] =>
       change (is_digit c) with true; cbv iota end;
    rewrite int_digits_uint; f_equal; f_equal; unfold digit_val; cbn; lia.
Qed.

Lemma uint_val_acc d : forall p,
  Z.pos (Pos.of_uint_acc d p) = uint_val d (Z.pos p).
Proof.
  induction d; intros p; cbn [Pos.of_uint_acc uint_val]; [reflexivity | ..];
    rewrite IHd; f_equal; lia.
Qed.

Lemma uint_val_of_uint d : Z.of_N (Pos.of_uint d) = uint_val d 0.
Proof.
  induction d; cbn [Pos.of_uint uint_val]; [reflexivity | exact IHd | ..];
    cbn [Z.of_N]; rewrite uint_val_acc; reflexivity.
Qed.

Lemma digit_not_space c : is_digit c = true -> is_space c = false.
Proof.
  unfold is_digit, is_space. cbv zeta. intros Hc.
  apply andb_true_iff in Hc. destruct Hc as [H1 H2].
  apply Nat.leb_le in H1. apply Nat.leb_le in H2.
  apply orb_false_iff. split.
  - apply andb_false_iff. right. apply Nat.leb_gt. lia.
  - apply Nat.eqb_neq. lia.
Qed.

Lemma uint_chars_digits d :
  Forall (fun c => is_digit c = true) (list_ascii_of_string (NilEmpty.string_of_uint d)).
Proof.
  induction d; cbn [NilEmpty.string_of_uint list_ascii_of_string];
    [constructor | ..]; (constructor; [reflexivity | exact IHd]).
Qed.

Lemma drop_space_head l :
  match l with [] => True | c :: _ => is_space c = false end -> drop_space l = l.
Proof. destruct l as [| c l]; cbn; [reflexivity |]. intros ->. reflexivity. Qed.

Lemma drop_space_both l :
  Forall (fun c => is_space c = false) l ->
  rev (drop_space (rev (drop_space l))) = l.
Proof.
  intros F. rewrite (drop_space_head l).
  2:{ destruct F; auto. }
  rewrite drop_space_head.
  - apply rev_involutive.
  - apply Forall_rev in F. destruct F; auto.
Qed.

Lemma int_of_uint_string d :
  d <> Decimal.Nil ->
  int_of_str (NilEmpty.string_of_uint d) = Some (uint_val d 0).
Proof.
  intros Hd. unfold int_of_str. rewrite drop_space_both.
  2:{ eapply Forall_impl; [| apply uint_chars_digits]. apply digit_not_space. }
  rewrite <- (int_digits_uint_start d Hd).
  destruct d; [contradiction | ..]; reflexivity.
Qed.

Lemma int_of_neg_uint_string d :
  d <> Decimal.Nil ->
  int_of_str (String "-" (NilEmpty.string_of_uint d)) = Some (- uint_val d 0).
Proof.
  intros Hd. unfold int_of_str.
  change (list_ascii_of_string (String "-" (NilEmpty.string_of_uint d)))
    with ("-"%char :: list_ascii_of_string (NilEmpty.string_of_uint d)).
  rewrite drop_space_both.
  2:{ constructor; [reflexivity |].
      eapply Forall_impl; [| apply uint_chars_digits]. apply digit_not_space. }
  rewrite (int_digits_uint_start d Hd). reflexivity.
Qed.

Lemma string_of_uint_nonnil d :
  d <> Decimal.Nil -> NilZero.string_of_uint d = NilEmpty.string_of_uint d.
Proof. destruct d; [contradiction | ..]; reflexivity. Qed.

(** [int(str(n)) == n] for every integer. *)
Lemma int_of_str_of_int z : int_of_str (str_of_int z) = Some z.
Proof.
  unfold str_of_int. destruct z as [| p | p]; cbn [Z.to_int NilZero.string_of_int].
  - reflexivity.
  - assert (Hn := DecimalPos.Unsigned.to_uint_nonnil p).
    rewrite string_of_uint_nonnil, int_of_uint_string by exact Hn.
    rewrite <- uint_val_of_uint, DecimalPos.Unsigned.of_to. reflexivity.
  - assert (Hn := DecimalPos.Unsigned.to_uint_nonnil p).
    rewrite string_of_uint_nonnil, int_of_neg_uint_string by exact Hn.
    rewrite <- uint_val_of_uint, DecimalPos.Unsigned.of_to. reflexivity.
Qed.

Lemma str_of_int_truthy z : truthy (VStr (str_of_int z)) = true.
Proof.
  cbn [truthy]. destruct (String.eqb_spec (str_of_int z) "") as [E | _]; [| reflexivity].
  pose proof (int_of_str_of_int z) as Hz. rewrite E in Hz. discriminate Hz.
Qed.

(* ===================================================================== *)
(** ** Dicts *)
(* ===================================================================== *)

Lemma dict_lookup_set_other d k k' v :
  String.eqb k' k = false -> dict_lookup (dict_set d k v) k' = dict_lookup d k'.
Proof.
  intros Hk. induction d as [| [k0 v0] d IH]; cbn [dict_set dict_lookup].
  - rewrite Hk. reflexivity.
  - destruct (String.eqb_spec k k0) as [-> | Hne]; cbn [dict_lookup].
    + rewrite Hk. reflexivity.
    + rewrite IH. reflexivity.
Qed.

Lemma dict_lookup_update_other b : forall a k,
  dict_lookup b k = None -> dict_lookup (dict_update a b) k = dict_lookup a k.
Proof.
  unfold dict_update.
  induction b as [| [k0 v0] b IH]; intros a k Hb; [reflexivity |].
  cbn [dict_lookup] in Hb. cbn [fold_left fst snd].
  destruct (String.eqb k k0) eqn:Hk; [discriminate |].
  rewrite (IH _ _ Hb). apply dict_lookup_set_other. exact Hk.
Qed.

(* ===================================================================== *)
(** ** Retrieval and enrichment *)
(* ===================================================================== *)

Lemma message_lines_run `{Externals} ms :
  MemoryManager.message_lines (map VDict ms) = Ok (map message_line ms).
Proof.
  induction ms as [| m ms IH]; [reflexivity |].
  cbn [map MemoryManager.message_lines py_get]. rewrite IH. reflexivity.
Qed.

(** [store_conversation] on a connected manager whose stores answer
    every call: what it leaves in the graph and in the collection. *)
Lemma store_conversation_full_run `{Externals} ms context metadata extra w :
  connected w -> faults w = [] -> 0 < next_id w ->
  unpack (py_or metadata (VDict [])) = Ok extra -> plain_keys extra = true ->
  exists w',
    MemoryManager.store_conversation (map VDict ms) context metadata w = (Ok true, w')
    /\ nodes w' = (rev (message_nodes (next_id w) (clock w) 0 ms)
                   ++ conversation_node w context extra :: nodes w)%list
    /\ rels w' = (rev (map (contains (next_id w)) (message_nodes (next_id w) (clock w) 0 ms))
                  ++ rels w)%list
    /\ docs w' = (docs w ++ [conversation_document w ms context extra])%list
    /\ connected w' /\ faults w' = [].
Proof.
  intros (Hi & Hd & Hc & Hk) F Hpos Hextra Hplain.
  unfold MemoryManager.store_conversation.
  rewrite (bind_ok _ (ensure_initialized_on _ Hi)). cbn [negb].
  unfold bind at 1, now_isoformat, datetime_now. unfold bind at 1. unfold ret at 1.
  unfold bind at 1, lift at 1. rewrite Hextra.
  unfold bind at 1.
  rewrite (create_node_run [VStr "Conversation"] ["Conversation"] _
             (set_clock (clock w + 1) w) Hd eq_refl eq_refl)
    by (apply plain_keys_update; [reflexivity | exact Hplain]).
  rewrite next_fault_healthy by (fields; exact F). fields.
  unfold bind at 1. rewrite length_map.
  rewrite (store_messages_run (next_id w) (clock w) (conversation_node w context extra) Hpos);
    fields; auto; try lia.
  2:{ unfold find_node. cbn [find node_id]. rewrite Z.eqb_refl. reflexivity. }
  unfold bind at 1, lift at 1. rewrite message_lines_run.
  unfold bind at 1, now_isoformat, datetime_now. unfold bind at 1. unfold ret at 1.
  fields.
  unfold bind at 1, lift at 1.
  unfold bind at 1.
  rewrite add_documents_run by (fields; assumption).
  rewrite next_fault_healthy by (fields; exact F). fields.
  rewrite (text_if_truthy_nonzero "conversation_") by lia.
  rewrite (text_if_truthy_nonzero "") by lia.
  eexists. split; [reflexivity |]. fields. unfold connected. fields.
  repeat split; auto.
Qed.

(** X11. The document that mirrors a stored conversation. On a connected
    manager whose stores answer every call and whose next node id is
    positive, [store_conversation] with messages that are dicts and
    caller metadata whose keys are plain (names, and none of self, query
    and parameters, so that the Conversation node is created) adds
    exactly one document to the collection: its id is "conversation_"
    followed by the id of the Conversation node, its text has one line
    [role: content] for every message, in the order of the messages and
    joined by newlines, and its metadata are type, timestamp, context
    and graph_id with the caller's metadata written over them. *)
Theorem store_conversation_document `{Externals} ms context metadata extra w :
  connected w -> faults w = [] -> 0 < next_id w ->
  unpack (py_or metadata (VDict [])) = Ok extra -> plain_keys extra = true ->
  exists w',
    MemoryManager.store_conversation (map VDict ms) context metadata w = (Ok true, w')
    /\ docs w' = (docs w ++ [conversation_document w ms context extra])%list
    /\ (forall k, dict_lookup extra k = None ->
          dict_lookup (doc_meta (conversation_document w ms context extra)) k
          = dict_lookup [("type", VStr "conversation");
                         ("timestamp",
                          VStr (isoformat (clock w + 1 + Z.of_nat (List.length ms))));
                         ("context", py_or context (VStr ""));
                         ("graph_id", VStr (str_of_int (next_id w)))] k).
Proof.
  intros Hc F Hpos Hextra Hplain.
  destruct (store_conversation_full_run ms context metadata extra w Hc F Hpos Hextra Hplain)
    as (w' & Hrun & _ & _ & Hdocs & _).
  exists w'. split; [exact Hrun |]. split; [exact Hdocs |].
  intros k Hk. apply dict_lookup_update_other. exact Hk.
Qed.

(** Two messages stored on a server whose next id is 7. *)
Lemma store_conversation_document_witness :
  exists w',
    MemoryManager.store_conversation (H := Reference.externals)
      (map VDict [[("role", VStr "user"); ("content", VStr "remember the milk")];
                  [("role", VStr "assistant"); ("content", VStr "noted")]])
      (VStr "shopping") (VDict [("source", VStr "agent_workflow")]) (Reference.ready 7)
    = (Ok true, w')
    /\ docs w' = [Build_Document "conversation_7"
                    ("user: remember the milk" ++ newline ++ "assistant: noted")
                    [("type", VStr "conversation");
                     ("timestamp", VStr "2025-11-03T17:05:00.000003");
                     ("context", VStr "shopping");
                     ("graph_id", VStr "7");
                     ("source", VStr "agent_workflow")]].
Proof.
  destruct (store_conversation_document (H := Reference.externals)
              [[("role", VStr "user"); ("content", VStr "remember the milk")];
               [("role", VStr "assistant"); ("content", VStr "noted")]]
              (VStr "shopping") (VDict [("source", VStr "agent_workflow")])
              [("source", VStr "agent_workflow")] (Reference.ready 7))
    as (w' & Hrun & Hdocs & _).
  - repeat split; reflexivity.
  - reflexivity.
  - reflexivity.
  - reflexivity.
  - reflexivity.
  - exists w'. split; [exact Hrun | exact Hdocs].
Defined.

Lemma dict_get_some d k v default :
  dict_lookup d k = Some v -> dict_get d k default = v.
Proof. intros Hk. unfold dict_get. rewrite Hk. reflexivity. Qed.

Lemma enhance_conversation_hit `{Externals} d distance c records W W' :
  dict_lookup (doc_meta d) "graph_id" = Some (VStr (str_of_int c)) ->
  dict_lookup (doc_meta d) "type" = Some (VStr "conversation") ->
  GraphDatabase.query CConversationMessages (Some [("id", VInt c)]) W = (Ok records, W') ->
  MemoryManager.enhance (hit_dict (d, distance)) W
  = (Ok (enriched (d, distance) [("messages", VList records)]), W').
Proof.
  intros Hg Ht Hq. unfold MemoryManager.enhance.
  unfold bind at 1, lift at 1.
  cbn [hit_dict py_get dict_get dict_lookup String.eqb Ascii.eqb Bool.eqb fst snd].
  rewrite !(dict_get_some _ _ _ _ Hg), !(dict_get_some _ _ _ _ Ht).
  unfold bind at 1, lift at 1. rewrite str_of_int_truthy.
  unfold bind at 1, lift at 1.
  change (is_str (VStr "conversation") "fact") with false. cbv iota.
  unfold bind at 1, lift at 1.
  change (is_str (VStr "conversation") "conversation") with true. cbv iota.
  unfold bind at 1, lift at 1. cbn [py_int]. rewrite int_of_str_of_int.
  rewrite (bind_ok _ Hq). reflexivity.
Qed.

Lemma enhance_fact_hit `{Externals} d distance f records W W' :
  dict_lookup (doc_meta d) "graph_id" = Some (VStr (str_of_int f)) ->
  dict_lookup (doc_meta d) "type" = Some (VStr "fact") ->
  GraphDatabase.query CFactMentions (Some [("id", VInt f)]) W = (Ok records, W') ->
  MemoryManager.enhance (hit_dict (d, distance)) W
  = (Ok (enriched (d, distance) [("related_entities", VList records)]), W').
Proof.
  intros Hg Ht Hq. unfold MemoryManager.enhance.
  unfold bind at 1, lift at 1.
  cbn [hit_dict py_get dict_get dict_lookup String.eqb Ascii.eqb Bool.eqb fst snd].
  rewrite !(dict_get_some _ _ _ _ Hg), !(dict_get_some _ _ _ _ Ht).
  unfold bind at 1, lift at 1. rewrite str_of_int_truthy.
  unfold bind at 1, lift at 1.
  change (is_str (VStr "fact") "fact") with true. cbv iota.
  unfold bind at 1, lift at 1. cbn [py_int]. rewrite int_of_str_of_int.
  rewrite (bind_ok _ Hq). reflexivity.
Qed.

(** The vector search of [retrieve_relevant_memories] on a connected
    manager whose calls go through. *)
Lemma relevant_hits_run `{Externals} query limit w :
  client w = true -> collection w = true -> faults w = [] -> 0 < limit ->
  VectorDatabase.query [VStr query] [("n_results", VInt limit)] w
  = (Ok (map hit_dict (firstn (Z.to_nat limit) (nearest query (docs w)))), w).
Proof.
  intros Hc Hk F Hl.
  change (VectorDatabase.query [VStr query] [("n_results", VInt limit)] w)
    with (VectorDatabase.query_body (VStr query) (VInt limit) VNone w).
  unfold VectorDatabase.query_body.
  rewrite (bind_ok _ (ensure_collection_on _ Hc Hk)). cbn [negb].
  unfold try_except. unfold bind at 1. unfold collection_query, outside.
  rewrite (next_fault_healthy _ F).
  destruct (Z.leb_spec limit 0) as [Hle | _]; [lia |].
  rewrite format_query_result. reflexivity.
Qed.

(** X12. A stored conversation comes back with its messages. After
    [store_conversation] on a connected manager whose stores answer
    every call (positive next id, messages that are dicts, caller
    metadata with plain keys that set neither type nor graph_id), a
    [retrieve_relevant_memories] whose vector search
    returns the document of that conversation returns it as one memory:
    the document, its metadata, its id and its distance, and under the
    key messages the Message nodes of the conversation in the order in
    which the messages were given. *)
Theorem stored_conversation_comes_back_with_its_messages `{Externals}
        ms context metadata extra query limit distance w :
  connected w -> faults w = [] -> 0 < next_id w -> rels_wf w ->
  unpack (py_or metadata (VDict [])) = Ok extra -> plain_keys extra = true ->
  dict_lookup extra "type" = None -> dict_lookup extra "graph_id" = None ->
  0 < limit ->
  firstn (Z.to_nat limit)
         (nearest query (docs w ++ [conversation_document w ms context extra])%list)
  = [(conversation_document w ms context extra, distance)] ->
  exists w',
    MemoryManager.store_conversation (map VDict ms) context metadata w = (Ok true, w')
    /\ MemoryManager.retrieve_relevant_memories (VStr query) limit w'
       = (Ok [enriched (conversation_document w ms context extra, distance)
                [("messages",
                  VList (map (fun n => record1 "m" (node_val n))
                             (message_nodes (next_id w) (clock w) 0 ms)))]], w').
Proof.
  intros Hc F Hpos Hwf Hextra Hplain Htype Hgid Hlimit Hnear.
  destruct (store_conversation_full_run ms context metadata extra w Hc F Hpos Hextra Hplain)
    as (w' & Hrun & Hnodes & Hrels & Hdocs & (Hi' & Hd' & Hc' & Hk') & F').
  exists w'. split; [exact Hrun |].
  unfold MemoryManager.retrieve_relevant_memories.
  rewrite (bind_ok _ (ensure_initialized_on _ Hi')). cbn [negb].
  rewrite (bind_ok _ (relevant_hits_run query limit w' Hc' Hk' F' Hlimit)).
  rewrite Hdocs, Hnear. cbn [map MemoryManager.enhance_all].
  assert (Hq : GraphDatabase.query CConversationMessages (Some [("id", VInt (next_id w))]) w'
               = (Ok (map (fun n => record1 "m" (node_val n))
                          (message_nodes (next_id w) (clock w) 0 ms)), w')).
  { rewrite (conversation_messages_run (next_id w) (conversation_node w context extra)
               (message_nodes (next_id w) (clock w) 0 ms) (nodes w) (rels w) w'
               Hd' F' Hnodes Hrels eq_refl eq_refl).
    - rewrite sort_rev_message_nodes. reflexivity.
    - intros m Hm. destruct (message_nodes_in _ _ _ _ _ Hm) as (j & m' & _ & ->).
      split; [reflexivity |]. rewrite message_node_id. lia.
    - intros m m' Hm Hm'. apply (message_nodes_unique _ _ _ _ _ _ Hm Hm').
    - intros r Hr. specialize (Hwf r Hr). lia. }
  assert (Mg : dict_lookup (doc_meta (conversation_document w ms context extra)) "graph_id"
               = Some (VStr (str_of_int (next_id w)))).
  { unfold conversation_document. cbn [doc_meta].
    rewrite dict_lookup_update_other by exact Hgid. reflexivity. }
  assert (Mt : dict_lookup (doc_meta (conversation_document w ms context extra)) "type"
               = Some (VStr "conversation")).
  { unfold conversation_document. cbn [doc_meta].
    rewrite dict_lookup_update_other by exact Htype. reflexivity. }
  rewrite (bind_ok _ (enhance_conversation_hit _ distance (next_id w) _ w' w' Mg Mt Hq)).
  reflexivity.
Qed.

(** Two messages stored in an empty collection and found again. *)
Lemma stored_conversation_comes_back_with_its_messages_witness :
  exists w',
    MemoryManager.store_conversation (H := Reference.externals)
      (map VDict [[("role", VStr "user"); ("content", VStr "remember the milk")];
                  [("role", VStr "assistant"); ("content", VStr "noted")]])
      (VStr "shopping") VNone (Reference.ready 7) = (Ok true, w')
    /\ exists memory,
         MemoryManager.retrieve_relevant_memories (H := Reference.externals)
           (VStr "milk") 5 w' = (Ok [memory], w')
         /\ py_getitem memory "id" = Ok (VStr "conversation_7")
         /\ py_getitem memory "messages"
            = Ok (VList
                 [record1 "m" (VNode 8 ["Message"]
                                 [("role", VStr "user"); ("content", VStr "remember the milk");
                                  ("timestamp", VStr "2025-11-03T17:05:00.000001");
                                  ("order", VInt 0)]);
                  record1 "m" (VNode 9 ["Message"]
                                 [("role", VStr "assistant"); ("content", VStr "noted");
                                  ("timestamp", VStr "2025-11-03T17:05:00.000002");
                                  ("order", VInt 1)])]).
Proof.
  destruct (stored_conversation_comes_back_with_its_messages (H := Reference.externals)
              [[("role", VStr "user"); ("content", VStr "remember the milk")];
               [("role", VStr "assistant"); ("content", VStr "noted")]]
              (VStr "shopping") VNone [] "milk" 5
              (VFloat 1 0)
              (Reference.ready 7))
    as (w' & Hrun & Hget).
  - repeat split; reflexivity.
  - reflexivity.
  - reflexivity.
  - intros r [].
  - reflexivity.
  - reflexivity.
  - reflexivity.
  - reflexivity.
  - reflexivity.
  - reflexivity.
  - exists w'. split; [exact Hrun |].
    eexists. split; [exact Hget |]. split; reflexivity.
Defined.

(** The two traversals of the enrichment, on an adapter that has its
    driver: they read the graph, never raise and leave both stores and
    the driver as they are. *)
Lemma graph_read_returns q id w :
  q = CFactMentions \/ q = CConversationMessages -> driver w = true ->
  exists records w',
    GraphDatabase.query q (Some [("id", VInt id)]) w = (Ok records, w')
    /\ nodes w' = nodes w /\ rels w' = rels w /\ docs w' = docs w /\ driver w' = true.
Proof.
  intros Hq Hd. rewrite (graph_query_run q [("id", VInt id)] w Hd eq_refl eq_refl).
  destruct (next_fault_fields w) as (Kn & Kr & Kd & Kv & _).
  destruct (next_fault w) as [[e |] w1]; cbn [snd] in Kn, Kr, Kd, Kv.
  - eexists. eexists. split; [reflexivity |]. repeat split; congruence.
  - destruct Hq as [-> | ->]; cbn [cypher];
      eexists; eexists; (split; [reflexivity |]); repeat split; congruence.
Qed.

(** The enrichment of one hit: it adds what a traversal returns, or it
    raises because [int] rejects the graph id. *)
Lemma enhance_cases `{Externals} h w :
  driver w = true ->
  exists r w',
    MemoryManager.enhance (hit_dict h) w = (r, w')
    /\ nodes w' = nodes w /\ rels w' = rels w /\ docs w' = docs w /\ driver w' = true
    /\ match r with
       | Ok memory => enriched_hit h memory
       | Raise _ => graph_id_reads (doc_meta (fst h)) = false
       end.
Proof.
  intros Hd. unfold MemoryManager.enhance, graph_id_reads.
  unfold bind at 1, lift at 1.
  cbn [hit_dict py_get dict_get dict_lookup String.eqb Ascii.eqb Bool.eqb].
  unfold bind at 1, lift at 1. cbn [py_get].
  assert (Hsame : enriched_hit h (hit_dict h)).
  { exists []. split; [| left; reflexivity].
    unfold enriched, hit_dict. rewrite app_nil_r. reflexivity. }
  destruct (truthy (dict_get (doc_meta (fst h)) "graph_id" VNone)); cbn [andb];
    [| unfold ret; eexists; eexists; split; [reflexivity |]; auto 6].
  unfold bind at 1, lift at 1.
  destruct (is_str (dict_get (doc_meta (fst h)) "type" VNone) "fact"); cbn [orb].
  - unfold bind at 1, lift at 1.
    destruct (py_int _) as [id | e];
      [| eexists; eexists; split; [reflexivity |]; auto 6].
    destruct (graph_read_returns CFactMentions id w (or_introl eq_refl) Hd)
      as (related & w1 & Hq & Hn & Hr & Hk & Hd1).
    unfold bind at 1. rewrite Hq. unfold ret.
    eexists. eexists. split; [reflexivity |]. repeat split; try assumption.
    exists [("related_entities", VList related)]. split; [reflexivity |].
    right. exists related. left. reflexivity.
  - unfold bind at 1, lift at 1.
    destruct (is_str (dict_get (doc_meta (fst h)) "type" VNone) "conversation");
      [| unfold ret; eexists; eexists; split; [reflexivity |]; auto 6].
    unfold bind at 1, lift at 1.
    destruct (py_int _) as [id | e];
      [| eexists; eexists; split; [reflexivity |]; auto 6].
    destruct (graph_read_returns CConversationMessages id w (or_intror eq_refl) Hd)
      as (messages & w1 & Hq & Hn & Hr & Hk & Hd1).
    unfold bind at 1. rewrite Hq. unfold ret.
    eexists. eexists. split; [reflexivity |]. repeat split; try assumption.
    exists [("messages", VList messages)]. split; [reflexivity |].
    right. exists messages. right. reflexivity.
Qed.

Lemma enhance_all_cases `{Externals} hits : forall w,
  driver w = true ->
  exists r w',
    MemoryManager.enhance_all (map hit_dict hits) w = (r, w')
    /\ nodes w' = nodes w /\ rels w' = rels w /\ docs w' = docs w
    /\ match r with
       | Ok memories => Forall2 enriched_hit hits memories
       | Raise _ => exists h, In h hits /\ graph_id_reads (doc_meta (fst h)) = false
       end.
Proof.
  induction hits as [| h hits IH]; intros w Hd.
  - exists (Ok []), w. split; [reflexivity |]. repeat split. constructor.
  - cbn [map MemoryManager.enhance_all]. unfold bind at 1.
    destruct (enhance_cases h w Hd) as (r & w1 & Hrun & Hn & Hr & Hk & Hd1 & Hcase).
    rewrite Hrun. destruct r as [memory | e].
    + destruct (IH w1 Hd1) as (rs & w2 & Hrest & Hn2 & Hr2 & Hk2 & Hcases).
      unfold bind at 1. rewrite Hrest. destruct rs as [memories | e].
      * unfold ret. eexists. eexists. split; [reflexivity |].
        repeat split; try congruence. constructor; assumption.
      * eexists. eexists. split; [reflexivity |].
        repeat split; try congruence.
        destruct Hcases as (h' & Hin & Hbad). exists h'. split; [right; exact Hin | exact Hbad].
    + eexists. eexists. split; [reflexivity |]. repeat split; try assumption.
      exists h. split; [left; reflexivity | exact Hcase].
Qed.

(** The vector search of [retrieve_relevant_memories] when its call goes
    through: the nearest documents, in ranking order. *)
Lemma relevant_hits_through `{Externals} query limit w :
  client w = true -> collection w = true -> goes_through 0 w = true -> 0 < limit ->
  VectorDatabase.query [VStr query] [("n_results", VInt limit)] w
  = (Ok (map hit_dict (firstn (Z.to_nat limit) (nearest query (docs w)))),
     snd (next_fault w)).
Proof.
  intros Hc Hk G Hl.
  change (VectorDatabase.query [VStr query] [("n_results", VInt limit)] w)
    with (VectorDatabase.query_body (VStr query) (VInt limit) VNone w).
  unfold VectorDatabase.query_body.
  rewrite (bind_ok _ (ensure_collection_on _ Hc Hk)). cbn [negb].
  unfold try_except. unfold bind at 1. unfold collection_query.
  rewrite (outside_through _ w G).
  destruct (Z.leb_spec limit 0) as [Hle | _]; [lia |].
  destruct (next_fault_fields w) as (_ & _ & Kd & _). rewrite <- Kd.
  rewrite format_query_result. reflexivity.
Qed.

(** X13. What [retrieve_relevant_memories] returns for a query text and
    a positive limit, on a connected manager whose vector search goes
    through. The hits are the [limit] nearest documents of the
    collection, in the ranking order of the search. The call returns
    one memory for every hit, in that order: the document, the
    metadata, the id and the distance of the hit, and at most one key
    added behind them, related_entities or messages. It raises only
    when a hit carries a graph id that [int] rejects. In both cases it
    writes to neither store. *)
Theorem retrieve_relevant_memories_keeps_the_hits `{Externals} query limit w :
  connected w -> goes_through 0 w = true -> 0 < limit ->
  exists r w',
    MemoryManager.retrieve_relevant_memories (VStr query) limit w = (r, w')
    /\ nodes w' = nodes w /\ rels w' = rels w /\ docs w' = docs w
    /\ match r with
       | Ok memories =>
           Forall2 enriched_hit (firstn (Z.to_nat limit) (nearest query (docs w))) memories
       | Raise _ =>
           exists h, In h (firstn (Z.to_nat limit) (nearest query (docs w)))
                     /\ graph_id_reads (doc_meta (fst h)) = false
       end.
Proof.
  intros (Hi & Hd & Hc & Hk) G Hlimit.
  unfold MemoryManager.retrieve_relevant_memories.
  rewrite (bind_ok _ (ensure_initialized_on _ Hi)). cbn [negb].
  rewrite (bind_ok _ (relevant_hits_through query limit w Hc Hk G Hlimit)).
  destruct (next_fault_fields w) as (Kn & Kr & Kd & Kv & _).
  destruct (enhance_all_cases (firstn (Z.to_nat limit) (nearest query (docs w)))
              (snd (next_fault w)))
    as (r & w' & Hrun & Hn & Hr & Hdocs & Hcase); [congruence |].
  exists r, w'. split; [exact Hrun |].
  split; [congruence |]. split; [congruence |]. split; [congruence | exact Hcase].
Qed.

(** A fact stored without entities is returned with an empty list of
    related entities behind its four keys. *)
Lemma retrieve_relevant_memories_keeps_the_hits_witness :
  let w := snd (MemoryManager.store_fact (H := Reference.externals)
                  (VStr "OpenManus is an agent framework") (VStr "test") VNone
                  (Reference.ready 7)) in
  exists w',
    MemoryManager.retrieve_relevant_memories (H := Reference.externals) (VStr "agent") 5 w
    = (Ok [VDict [("document", VStr "OpenManus is an agent framework");
                  ("metadata", VDict [("type", VStr "fact"); ("source", VStr "test");
                                      ("timestamp", VStr "2025-11-03T17:05:00.000001");
                                      ("graph_id", VStr "7")]);
                  ("id", VStr "fact_7"); ("distance", VFloat 1 0);
                  ("related_entities", VList [])]], w')
    /\ Forall2 enriched_hit
         (firstn 5 (nearest (Externals := Reference.externals) "agent" (docs w)))
         [VDict [("document", VStr "OpenManus is an agent framework");
                 ("metadata", VDict [("type", VStr "fact"); ("source", VStr "test");
                                     ("timestamp", VStr "2025-11-03T17:05:00.000001");
                                     ("graph_id", VStr "7")]);
                 ("id", VStr "fact_7"); ("distance", VFloat 1 0);
                 ("related_entities", VList [])]].
Proof.
  cbv zeta.
  destruct (retrieve_relevant_memories_keeps_the_hits (H := Reference.externals)
              "agent" 5
              (snd (MemoryManager.store_fact (H := Reference.externals)
                      (VStr "OpenManus is an agent framework") (VStr "test") VNone
                      (Reference.ready 7))))
    as (r & w' & Hrun & _ & _ & _ & Hcase).
  - repeat split; reflexivity.
  - reflexivity.
  - reflexivity.
  - vm_compute in Hrun. injection Hrun as <- <-.
    eexists. split; [reflexivity | exact Hcase].
Defined.

(* ===================================================================== *)
(** ** Facts and the entities they mention *)
(* ===================================================================== *)

Lemma entity_node_id `{Externals} f i e : node_id (entity_node f i e) = f + 1 + Z.of_nat i.
Proof. reflexivity. Qed.

Lemma entity_nodes_in `{Externals} f es : forall i n,
  In n (entity_nodes f i es) ->
  exists j e, nth_error es j = Some e /\ n = entity_node f (i + j) e.
Proof.
  induction es as [| e es IH]; intros i n; [intros [] |].
  cbn [entity_nodes]. intros [<- | Hin].
  - exists 0%nat, e. rewrite Nat.add_0_r. split; reflexivity.
  - destruct (IH _ _ Hin) as (j & e' & Hj & ->).
    exists (S j), e'. split; [exact Hj |]. f_equal. lia.
Qed.

Lemma entity_nodes_nth `{Externals} f es : forall i j e,
  nth_error es j = Some e -> In (entity_node f (i + j) e) (entity_nodes f i es).
Proof.
  induction es as [| e0 es IH]; intros i j e; [destruct j; discriminate |].
  destruct j as [| j]; cbn [nth_error entity_nodes].
  - intros [= <-]. rewrite Nat.add_0_r. left. reflexivity.
  - intros Hj. right. replace (i + S j)%nat with (S i + j)%nat by lia. apply IH. exact Hj.
Qed.

Lemma entity_nodes_unique `{Externals} f es i n n' :
  In n (entity_nodes f i es) -> In n' (entity_nodes f i es) ->
  node_id n' = node_id n -> n' = n.
Proof.
  intros Hn Hn' Hid.
  destruct (entity_nodes_in _ _ _ _ Hn) as (j & e & Hj & ->).
  destruct (entity_nodes_in _ _ _ _ Hn') as (j' & e' & Hj' & ->).
  rewrite !entity_node_id in Hid.
  assert (j' = j) by lia. subst j'. rewrite Hj in Hj'. injection Hj' as <-. reflexivity.
Qed.

Lemma entity_nodes_length `{Externals} f es : forall i,
  List.length (entity_nodes f i es) = List.length es.
Proof. induction es; intros i; cbn; [reflexivity | rewrite IHes; reflexivity]. Qed.

Lemma mention_run `{Externals} f fn i e W :
  0 < f -> driver W = true -> faults W = [] ->
  next_id W = f + 1 + Z.of_nat i ->
  find_node (nodes W) f = Some fn ->
  labelled e = true ->
  MemoryManager.mention f (VDict e) W
  = (Ok tt, set_graph (entity_node f i e :: nodes W)
                      (mentions f (entity_node f i e) :: rels W)
                      (next_id W + 1) W).
Proof.
  intros Hf Hd F Hn Hfind Ht.
  unfold MemoryManager.mention.
  unfold bind at 1, lift at 1. cbn [py_get].
  unfold bind at 1, lift at 1. cbn [py_get].
  unfold bind at 1, lift at 1. cbn [py_get].
  unfold bind at 1.
  unfold entity_node. unfold labelled, entity_type in *.
  destruct (dict_get e "type" (VStr "Entity")) as [| | | | s | | | |] eqn:Htype;
    try discriminate.
  assert (Hls : label_names [s] = true) by (cbn; rewrite Ht; reflexivity).
  rewrite (create_node_run [VStr s] [s] _ W Hd eq_refl Hls) by reflexivity.
  rewrite (next_fault_healthy _ F).
  assert (Hm : id_truthy (Some (next_id W)) = true).
  { unfold id_truthy. rewrite Hn.
    destruct (Z.eqb_spec (f + 1 + Z.of_nat i) 0); [lia | reflexivity]. }
  rewrite Hm.
  unfold bind at 1.
  rewrite create_relationship_run by (first [reflexivity | fields; exact Hd]).
  rewrite next_fault_healthy by (fields; exact F). fields.
  unfold find_node at 1 2. cbn [find node_id].
  rewrite Z.eqb_refl.
  destruct (Z.eqb_spec (next_id W) f) as [E | _]; [lia |].
  fold (find_node (nodes W) f). rewrite Hfind.
  unfold ret, mentions. cbn [node_id].
  rewrite Hn. reflexivity.
Qed.

Lemma mentions_run `{Externals} f fn : 0 < f -> forall es i W,
  driver W = true -> faults W = [] ->
  next_id W = f + 1 + Z.of_nat i ->
  find_node (nodes W) f = Some fn ->
  Forall (fun e => labelled e = true) es ->
  for_each (map VDict es) (MemoryManager.mention f) W
  = (Ok tt, set_graph (rev (entity_nodes f i es) ++ nodes W)
                      (rev (map (mentions f) (entity_nodes f i es)) ++ rels W)
                      (next_id W + Z.of_nat (List.length es)) W).
Proof.
  intros Hf. induction es as [| e es IH]; intros i W Hd F Hn Hfind Hall.
  - cbn. unfold ret, set_graph. rewrite Z.add_0_r. destruct W; reflexivity.
  - inversion Hall as [| ? ? He Hrest]; subst.
    cbn [map for_each].
    rewrite (bind_ok _ (mention_run f fn i e W Hf Hd F Hn Hfind He)).
    rewrite (IH (S i)).
    + unfold set_graph. fields.
      cbn [entity_nodes map rev List.length]. rewrite <- !app_assoc. cbn [app].
      replace (next_id W + 1 + Z.of_nat (List.length es))
        with (next_id W + Z.of_nat (S (List.length es))) by lia.
      reflexivity.
    + fields. exact Hd.
    + fields. exact F.
    + fields. lia.
    + fields. unfold find_node. cbn [find]. rewrite entity_node_id.
      destruct (Z.eqb_spec (f + 1 + Z.of_nat i) f) as [E | _]; [lia |].
      exact Hfind.
    + exact Hrest.
Qed.

(** [store_fact] with related entities on a connected manager whose
    stores answer every call. *)
Lemma store_fact_entities_run `{Externals} text source es w :
  connected w -> faults w = [] -> 0 < next_id w ->
  Forall (fun e => labelled e = true) es ->
  exists w',
    MemoryManager.store_fact (VStr text) source (VList (map VDict es)) w
    = (Ok (Some (next_id w)), w')
    /\ nodes w' = (rev (entity_nodes (next_id w) 0 es)
                   ++ fact_node w (VStr text) source :: nodes w)%list
    /\ rels w' = (rev (map (mentions (next_id w)) (entity_nodes (next_id w) 0 es))
                  ++ rels w)%list
    /\ docs w' = (docs w ++ [fact_document w text source])%list
    /\ connected w' /\ faults w' = [].
Proof.
  intros (Hi & Hd & Hc & Hk) F Hpos Hall.
  unfold MemoryManager.store_fact.
  rewrite (bind_ok _ (ensure_initialized_on _ Hi)). cbn [negb].
  unfold bind at 1, now_isoformat, datetime_now. unfold bind at 1. unfold ret at 1.
  unfold bind at 1.
  rewrite (create_node_run [VStr "Fact"] ["Fact"] _ (set_clock (clock w + 1) w) Hd eq_refl eq_refl)
    by reflexivity.
  rewrite next_fault_healthy by (fields; exact F). fields.
  assert (Hm : id_truthy (Some (next_id w)) = true).
  { unfold id_truthy. destruct (Z.eqb_spec (next_id w) 0); [lia | reflexivity]. }
  rewrite Hm, andb_true_r.
  assert (Hloop :
    (if truthy (VList (map VDict es))
     then entities <- lift (py_iter (VList (map VDict es))) ;;
          for_each entities (MemoryManager.mention (next_id w))
     else ret tt)
      (set_graph (Build_Node (next_id w) ["Fact"]
                    (stored_props [("content", VStr text);
                                   ("timestamp", VStr (isoformat (clock w)));
                                   ("source", py_or source (VStr "agent"))]) :: nodes w)
                 (rels w) (next_id w + 1) (set_clock (clock w + 1) w))
    = (Ok tt,
       set_graph (rev (entity_nodes (next_id w) 0 es)
                  ++ fact_node w (VStr text) source :: nodes w)%list
                 (rev (map (mentions (next_id w)) (entity_nodes (next_id w) 0 es))
                  ++ rels w)%list
                 (next_id w + 1 + Z.of_nat (List.length es))
                 (set_clock (clock w + 1) w))).
  { destruct es as [| e es].
    - cbn. unfold ret, set_graph, fact_node. fields. rewrite Z.add_0_r. reflexivity.
    - change (truthy (VList (map VDict (e :: es)))) with true. cbv iota.
      unfold bind at 1, lift at 1. cbn [py_iter].
      rewrite (mentions_run (next_id w) (fact_node w (VStr text) source) Hpos (e :: es) 0);
        fields; auto; try lia.
      unfold find_node. cbn [find node_id]. rewrite Z.eqb_refl. reflexivity. }
  unfold bind at 1. rewrite Hloop.
  unfold bind at 1, now_isoformat, datetime_now. unfold bind at 1. unfold ret at 1.
  fields.
  unfold bind at 1.
  rewrite add_documents_run by (fields; assumption).
  rewrite next_fault_healthy by (fields; exact F). fields.
  rewrite (text_if_truthy_nonzero "fact_") by lia.
  rewrite (text_if_truthy_nonzero "") by lia.
  unfold ret. eexists. split; [reflexivity |]. fields. unfold connected. fields.
  repeat split; auto.
Qed.

Lemma matches_of_in W t r a b :
  In r (rels W) -> rel_type r = t ->
  find_node (nodes W) (rel_start r) = Some a ->
  find_node (nodes W) (rel_end r) = Some b ->
  In (a, b) (matches_of W t).
Proof.
  intros Hr Ht Ha Hb. unfold matches_of. apply in_flat_map.
  exists r. split; [exact Hr |].
  rewrite Ht, String.eqb_refl, Ha, Hb. left. reflexivity.
Qed.

(** The graph that [store_fact] leaves: the Fact node is found by its
    id, and every entity node by its own. *)
Lemma fact_graph_lookup `{Externals} f fn ents oldnodes W :
  nodes W = (rev ents ++ fn :: oldnodes)%list ->
  node_id fn = f ->
  (forall e, In e ents -> node_id e <> f) ->
  (forall e e', In e ents -> In e' ents -> node_id e' = node_id e -> e' = e) ->
  find_node (nodes W) f = Some fn
  /\ (forall e, In e ents -> find_node (nodes W) (node_id e) = Some e).
Proof.
  intros Hnodes Hfid Hents Huniq. split.
  - rewrite Hnodes, find_node_skip.
    + unfold find_node. cbn [find]. rewrite Hfid, Z.eqb_refl. reflexivity.
    + intros n Hn. apply in_rev in Hn. apply (Hents n Hn).
  - intros e He. rewrite Hnodes. apply find_node_unique.
    + apply in_rev. rewrite rev_involutive. exact He.
    + intros e' He' Hid. apply in_rev in He'. apply (Huniq e e' He He' Hid).
Qed.

Lemma fact_mentions_run `{Externals} f fn ents oldnodes oldrels W :
  driver W = true -> faults W = [] ->
  nodes W = (rev ents ++ fn :: oldnodes)%list ->
  rels W = (rev (map (mentions f) ents) ++ oldrels)%list ->
  node_id fn = f -> has_label "Fact" fn = true ->
  (forall e, In e ents -> node_id e <> f) ->
  (forall e e', In e ents -> In e' ents -> node_id e' = node_id e -> e' = e) ->
  (forall r, In r oldrels -> rel_start r <> f) ->
  GraphDatabase.query CFactMentions (Some [("id", VInt f)]) W
  = (Ok (map (fun n => record1 "e" (node_val n)) (rev ents)), W).
Proof.
  intros Hd F Hnodes Hrels Hfid Hflabel Hents Huniq Hold.
  rewrite (graph_query_run CFactMentions [("id", VInt f)] W Hd eq_refl eq_refl).
  rewrite (next_fault_healthy _ F). cbn [cypher].
  destruct (fact_graph_lookup f fn ents oldnodes W Hnodes Hfid Hents Huniq) as [Hff Hfe].
  assert (Hnew : forall l, (forall e, In e l -> In e ents) ->
            flat_map (fun r =>
              if String.eqb (rel_type r) "MENTIONS" then
                match find_node (nodes W) (rel_start r), find_node (nodes W) (rel_end r) with
                | Some a, Some b => [(a, b)]
                | _, _ => []
                end
              else []) (map (mentions f) l) = map (pair fn) l).
  { induction l as [| e l IH]; intros Hl; [reflexivity |].
    cbn [map flat_map mentions rel_type rel_start rel_end String.eqb Ascii.eqb Bool.eqb].
    rewrite Hff, (Hfe e) by (apply Hl; left; reflexivity).
    cbn [app]. f_equal. apply IH. intros e' He'. apply Hl. right. exact He'. }
  unfold matches_of. rewrite Hrels, flat_map_app, <- map_rev.
  rewrite Hnew by (intros e He; apply in_rev; exact He).
  rewrite filter_app, map_app.
  rewrite filter_all, filter_none, app_nil_r.
  - rewrite map_map. reflexivity.
  - intros [a b] Hab. apply in_flat_map in Hab. destruct Hab as (r & Hr & Hab).
    destruct (String.eqb (rel_type r) "MENTIONS"); [| destruct Hab].
    destruct (find_node (nodes W) (rel_start r)) as [a' |] eqn:Ha; [| destruct Hab].
    destruct (find_node (nodes W) (rel_end r)) as [b' |]; [| destruct Hab].
    destruct Hab as [[= <- <-] | []]. cbn [fst snd].
    rewrite id_is_eqb, (find_node_id _ _ _ Ha).
    destruct (Z.eqb_spec (rel_start r) f) as [E | _]; [exfalso; exact (Hold r Hr E) |].
    apply andb_false_r.
  - intros [a b] Hab. apply in_map_iff in Hab. destruct Hab as (e & [= <- <-] & He).
    cbn [fst snd]. rewrite Hflabel, id_is_eqb, Hfid, Z.eqb_refl. reflexivity.
Qed.

Lemma fact_mentions_after_store `{Externals} text source es w w' :
  0 < next_id w -> rels_wf w ->
  driver w' = true -> faults w' = [] ->
  nodes w' = (rev (entity_nodes (next_id w) 0 es)
              ++ fact_node w (VStr text) source :: nodes w)%list ->
  rels w' = (rev (map (mentions (next_id w)) (entity_nodes (next_id w) 0 es))
             ++ rels w)%list ->
  GraphDatabase.query CFactMentions (Some [("id", VInt (next_id w))]) w'
  = (Ok (map (fun n => record1 "e" (node_val n)) (rev (entity_nodes (next_id w) 0 es))), w').
Proof.
  intros Hpos Hwf Hd' F' Hnodes Hrels.
  apply (fact_mentions_run (next_id w) (fact_node w (VStr text) source)
           (entity_nodes (next_id w) 0 es) (nodes w) (rels w) w' Hd' F' Hnodes Hrels
           eq_refl eq_refl).
  - intros e He. destruct (entity_nodes_in _ _ _ _ He) as (j & e' & _ & ->).
    rewrite entity_node_id. lia.
  - intros e e' He He'. apply (entity_nodes_unique _ _ _ _ _ He He').
  - intros r Hr. specialize (Hwf r Hr). lia.
Qed.

(** X14. [store_fact] with related entities, on a connected manager
    whose stores answer every call and whose next node id is positive,
    for entities that are dicts whose type is a string that is a name
    (or that have none): it returns
    the id of the new Fact node; for every entity, at every call, one
    new node is created, labelled with the entity's type ("Entity" when
    it has none) and carrying its name and its properties as JSON text,
    and linked from the Fact node by MENTIONS, so the graph grows by one
    node for the fact and one for each entity given; the traversal of
    MENTIONS from the fact returns exactly these entity nodes. *)
Theorem store_fact_links_its_entities `{Externals} text source es w :
  connected w -> faults w = [] -> 0 < next_id w -> rels_wf w ->
  Forall (fun e => labelled e = true) es ->
  exists w',
    MemoryManager.store_fact (VStr text) source (VList (map VDict es)) w
    = (Ok (Some (next_id w)), w')
    /\ List.length (nodes w') = (List.length (nodes w) + 1 + List.length es)%nat
    /\ (forall i e, nth_error es i = Some e ->
          In (entity_node (next_id w) i e) (nodes w')
          /\ In (mentions (next_id w) (entity_node (next_id w) i e)) (rels w'))
    /\ exists related,
         GraphDatabase.query CFactMentions (Some [("id", VInt (next_id w))]) w'
         = (Ok related, w')
         /\ Permutation related
              (map (fun n => record1 "e" (node_val n)) (entity_nodes (next_id w) 0 es)).
Proof.
  intros Hc F Hpos Hwf Hall.
  destruct (store_fact_entities_run text source es w Hc F Hpos Hall)
    as (w' & Hrun & Hnodes & Hrels & _ & (_ & Hd' & _) & F').
  exists w'. split; [exact Hrun |]. split; [| split].
  - rewrite Hnodes, length_app, length_rev, entity_nodes_length. cbn [List.length]. lia.
  - intros i e Hi.
    pose proof (entity_nodes_nth (next_id w) es 0 i e Hi) as Hin. cbn [Nat.add] in Hin.
    split.
    + rewrite Hnodes. apply in_or_app. left. apply in_rev. rewrite rev_involutive. exact Hin.
    + rewrite Hrels. apply in_or_app. left. apply in_rev. rewrite rev_involutive.
      apply in_map. exact Hin.
  - eexists. split.
    + apply (fact_mentions_after_store text source es w w' Hpos Hwf Hd' F' Hnodes Hrels).
    + rewrite map_rev. apply Permutation_sym, Permutation_rev.
Qed.

(** A fact that mentions a person and an organization. *)
Lemma store_fact_links_its_entities_witness :
  exists w',
    MemoryManager.store_fact (H := Reference.externals)
      (VStr "Ada works at Acme") (VStr "conversation")
      (VList (map VDict [[("type", VStr "Person"); ("name", VStr "Ada")];
                         [("name", VStr "Acme")]]))
      (Reference.ready 7) = (Ok (Some 7), w')
    /\ map node_labels (nodes w') = [["Entity"]; ["Person"]; ["Fact"]]
    /\ rels w' = [Build_Rel 7 9 "MENTIONS" []; Build_Rel 7 8 "MENTIONS" []].
Proof.
  destruct (store_fact_links_its_entities (H := Reference.externals)
              "Ada works at Acme" (VStr "conversation")
              [[("type", VStr "Person"); ("name", VStr "Ada")]; [("name", VStr "Acme")]]
              (Reference.ready 7)) as (w' & Hrun & _).
  - repeat split; reflexivity.
  - reflexivity.
  - reflexivity.
  - intros r [].
  - repeat constructor.
  - exists w'. split; [exact Hrun |].
    assert (E : w' = snd (MemoryManager.store_fact (H := Reference.externals)
                            (VStr "Ada works at Acme") (VStr "conversation")
                            (VList (map VDict [[("type", VStr "Person"); ("name", VStr "Ada")];
                                               [("name", VStr "Acme")]]))
                            (Reference.ready 7)))
      by (rewrite Hrun; reflexivity).
    rewrite E. split; reflexivity.
Defined.

(** X15. A stored fact comes back with its entities. After [store_fact]
    with related entities (on a connected manager whose stores answer
    every call, with a positive next node id, for entities that are
    dicts whose type is a string that is a name, or that have none), a
    [retrieve_relevant_memories] whose vector search returns the
    document of that fact returns it as one memory: the document, its
    metadata, its id and its distance, and under the key
    related_entities the entity nodes that the fact mentions. *)
Theorem stored_fact_comes_back_with_its_entities `{Externals}
        text source es query limit distance w :
  connected w -> faults w = [] -> 0 < next_id w -> rels_wf w ->
  Forall (fun e => labelled e = true) es ->
  0 < limit ->
  firstn (Z.to_nat limit) (nearest query (docs w ++ [fact_document w text source])%list)
  = [(fact_document w text source, distance)] ->
  exists w' related,
    MemoryManager.store_fact (VStr text) source (VList (map VDict es)) w
    = (Ok (Some (next_id w)), w')
    /\ MemoryManager.retrieve_relevant_memories (VStr query) limit w'
       = (Ok [enriched (fact_document w text source, distance)
                [("related_entities", VList related)]], w')
    /\ Permutation related
         (map (fun n => record1 "e" (node_val n)) (entity_nodes (next_id w) 0 es)).
Proof.
  intros Hc F Hpos Hwf Hall Hlimit Hnear.
  destruct (store_fact_entities_run text source es w Hc F Hpos Hall)
    as (w' & Hrun & Hnodes & Hrels & Hdocs & (Hi' & Hd' & Hc' & Hk') & F').
  exists w'. eexists. split; [exact Hrun |]. split.
  - unfold MemoryManager.retrieve_relevant_memories.
    rewrite (bind_ok _ (ensure_initialized_on _ Hi')). cbn [negb].
    rewrite (bind_ok _ (relevant_hits_run query limit w' Hc' Hk' F' Hlimit)).
    rewrite Hdocs, Hnear. cbn [map MemoryManager.enhance_all].
    rewrite (bind_ok _ (enhance_fact_hit (fact_document w text source) distance (next_id w)
                          _ w' w' eq_refl eq_refl
                          (fact_mentions_after_store text source es w w' Hpos Hwf Hd' F'
                             Hnodes Hrels))).
    reflexivity.
  - rewrite map_rev. apply Permutation_sym, Permutation_rev.
Qed.

(** The fact about Ada, stored in an empty collection and found
    again. *)
Lemma stored_fact_comes_back_with_its_entities_witness :
  exists w' memory related,
    MemoryManager.store_fact (H := Reference.externals)
      (VStr "Ada works at Acme") (VStr "conversation")
      (VList (map VDict [[("type", VStr "Person"); ("name", VStr "Ada")]]))
      (Reference.ready 7) = (Ok (Some 7), w')
    /\ MemoryManager.retrieve_relevant_memories (H := Reference.externals)
         (VStr "Ada") 5 w' = (Ok [memory], w')
    /\ py_getitem memory "related_entities" = Ok (VList related)
    /\ Permutation related
         [record1 "e" (VNode 8 ["Person"]
                         [("name", VStr "Ada");
                          ("properties", VStr (Reference.dumps (VDict [])))])].
Proof.
  destruct (stored_fact_comes_back_with_its_entities (H := Reference.externals)
              "Ada works at Acme" (VStr "conversation")
              [[("type", VStr "Person"); ("name", VStr "Ada")]] "Ada" 5 (VFloat 1 0)
              (Reference.ready 7)) as (w' & related & Hrun & Hget & Hperm).
  - repeat split; reflexivity.
  - reflexivity.
  - reflexivity.
  - intros r [].
  - repeat constructor.
  - reflexivity.
  - reflexivity.
  - exists w'. eexists. exists related.
    split; [exact Hrun |]. split; [exact Hget |]. split; [reflexivity | exact Hperm].
Defined.

(* ===================================================================== *)
(** ** get_entity_information *)
(* ===================================================================== *)

Lemma column_f_records {A} (g : A -> PyVal) l :
  MemoryManager.column_f (map (fun x => record1 "f" (g x)) l) = Ok (map g l).
Proof.
  induction l as [| x l IH]; [reflexivity |].
  cbn [map MemoryManager.column_f]. rewrite IH. reflexivity.
Qed.

Lemma name_is_string n node :
  name_is [("name", VStr n)] node = true <->
  dict_lookup (node_props node) "name" = Some (VStr n).
Proof.
  unfold name_is. cbn [dict_get dict_lookup String.eqb Ascii.eqb Bool.eqb].
  destruct (dict_lookup (node_props node) "name") as [v |]; [| split; discriminate].
  split.
  - destruct v as [| | | | | | | | []]; cbn; try discriminate. intros Hs. apply String.eqb_eq in Hs. subst. reflexivity.
  - intros [= ->]. cbn. apply String.eqb_refl.
Qed.

(** [get_entity_information] on a connected manager whose calls go
    through: the first node with the name, and the facts that mention a
    node with the name. *)
Lemma get_entity_information_run n w :
  initialized w = true -> driver w = true -> faults w = [] ->
  MemoryManager.get_entity_information (VStr n) w
  = (Ok (match filter (name_is [("name", VStr n)]) (nodes w) with
         | [] => Build_EntityInformation VNone []
         | first :: _ =>
             Build_EntityInformation (node_val first)
               (map (fun ab => node_val (fst ab))
                    (filter (fun ab => has_label "Fact" (fst ab)
                                       && name_is [("name", VStr n)] (snd ab))
                            (matches_of w "MENTIONS")))
         end), w).
Proof.
  intros Hi Hd F. unfold MemoryManager.get_entity_information.
  rewrite (bind_ok _ (ensure_initialized_on _ Hi)). cbn [negb].
  unfold bind at 1.
  rewrite (graph_query_run CEntityByName [("name", VStr n)] w Hd eq_refl eq_refl).
  rewrite (next_fault_healthy _ F). cbn [cypher].
  destruct (filter (name_is [("name", VStr n)]) (nodes w)) as [| first rest];
    [reflexivity |].
  cbn [map]. unfold bind at 1, lift at 1.
  change (py_getitem (record1 "e" (node_val first)) "e") with (Ok (node_val first)).
  unfold bind at 1.
  rewrite (graph_query_run CFactsAboutEntity [("name", VStr n)] w Hd eq_refl eq_refl).
  rewrite (next_fault_healthy _ F). cbn [cypher].
  unfold bind at 1, lift at 1.
  rewrite (column_f_records (fun ab : Node * Node => node_val (fst ab))).
  reflexivity.
Qed.

(** X16. An entity stored with a fact is found by its name. After
    [store_fact] with related entities (connected manager, stores that
    answer every call, positive next id, entities that are dicts whose
    type is a string that is a name, or that have none),
    [get_entity_information] with
    the name of one of the entities returns a node that carries this
    name, and its related facts include the Fact node just written. *)
Theorem entity_information_finds_the_fact `{Externals} text source es i e n w :
  connected w -> faults w = [] -> 0 < next_id w -> rels_wf w ->
  Forall (fun e => labelled e = true) es ->
  nth_error es i = Some e -> dict_lookup e "name" = Some (VStr n) ->
  exists w' info node,
    MemoryManager.store_fact (VStr text) source (VList (map VDict es)) w
    = (Ok (Some (next_id w)), w')
    /\ MemoryManager.get_entity_information (VStr n) w' = (Ok info, w')
    /\ entity info = node_val node
    /\ dict_lookup (node_props node) "name" = Some (VStr n)
    /\ In (node_val (fact_node w (VStr text) source)) (related_facts info).
Proof.
  intros Hc F Hpos Hwf Hall Hi Hname.
  destruct (store_fact_entities_run text source es w Hc F Hpos Hall)
    as (w' & Hrun & Hnodes & Hrels & _ & (Hi' & Hd' & _) & F').
  pose proof (entity_nodes_nth (next_id w) es 0 i e Hi) as Hin. cbn [Nat.add] in Hin.
  assert (Hen : name_is [("name", VStr n)] (entity_node (next_id w) i e) = true).
  { apply name_is_string. unfold entity_node. cbn [node_props].
    rewrite (dict_get_some _ _ _ _ Hname). reflexivity. }
  assert (Hnode : In (entity_node (next_id w) i e) (nodes w')).
  { rewrite Hnodes. apply in_or_app. left. apply in_rev. rewrite rev_involutive. exact Hin. }
  destruct (fact_graph_lookup (next_id w) (fact_node w (VStr text) source)
              (entity_nodes (next_id w) 0 es) (nodes w) w' Hnodes eq_refl) as [Hff Hfe].
  { intros x Hx. destruct (entity_nodes_in _ _ _ _ Hx) as (j & e' & _ & ->).
    rewrite entity_node_id. lia. }
  { intros x x' Hx Hx'. apply (entity_nodes_unique _ _ _ _ _ Hx Hx'). }
  exists w'. rewrite (get_entity_information_run n w' Hi' Hd' F').
  destruct (filter (name_is [("name", VStr n)]) (nodes w')) as [| first rest] eqn:Hf.
  - exfalso.
    assert (Hin' : In (entity_node (next_id w) i e)
                      (filter (name_is [("name", VStr n)]) (nodes w')))
      by (apply filter_In; split; assumption).
    rewrite Hf in Hin'. exact Hin'.
  - eexists. exists first. split; [exact Hrun |]. split; [reflexivity |].
    cbn [entity related_facts]. split; [reflexivity |]. split.
    + apply name_is_string.
      assert (Hfirst : In first (filter (name_is [("name", VStr n)]) (nodes w')))
        by (rewrite Hf; left; reflexivity).
      apply filter_In in Hfirst. apply Hfirst.
    + apply (in_map (fun ab : Node * Node => node_val (fst ab)) _
               (fact_node w (VStr text) source, entity_node (next_id w) i e)).
      apply filter_In. split.
      * apply (matches_of_in w' "MENTIONS"
                 (mentions (next_id w) (entity_node (next_id w) i e))).
        -- rewrite Hrels. apply in_or_app. left. apply in_rev. rewrite rev_involutive.
           apply in_map. exact Hin.
        -- reflexivity.
        -- exact Hff.
        -- apply Hfe. exact Hin.
      * cbn [fst snd]. rewrite Hen. reflexivity.
Qed.

(** Ada is found, with the fact that mentions her. *)
Lemma entity_information_finds_the_fact_witness :
  exists w' info,
    MemoryManager.store_fact (H := Reference.externals)
      (VStr "Ada works at Acme") (VStr "conversation")
      (VList (map VDict [[("type", VStr "Person"); ("name", VStr "Ada")]]))
      (Reference.ready 7) = (Ok (Some 7), w')
    /\ MemoryManager.get_entity_information (VStr "Ada") w' = (Ok info, w')
    /\ In (VNode 7 ["Fact"] [("content", VStr "Ada works at Acme");
                             ("timestamp", VStr "2025-11-03T17:05:00");
                             ("source", VStr "conversation")])
          (related_facts info).
Proof.
  destruct (entity_information_finds_the_fact (H := Reference.externals)
              "Ada works at Acme" (VStr "conversation")
              [[("type", VStr "Person"); ("name", VStr "Ada")]] 0
              [("type", VStr "Person"); ("name", VStr "Ada")] "Ada"
              (Reference.ready 7)) as (w' & info & node & Hrun & Hget & _ & _ & Hin).
  - repeat split; reflexivity.
  - reflexivity.
  - reflexivity.
  - intros r [].
  - repeat constructor.
  - reflexivity.
  - reflexivity.
  - exists w', info. split; [exact Hrun |]. split; [exact Hget | exact Hin].
Defined.

(** X17. [get_entity_information] for a name that no node carries, on a
    connected manager: the answer is the record with entity None and no
    related facts, whether the lookup goes through or fails, so a failed
    lookup cannot be told from a missing entity. Nothing is written. *)
Theorem entity_information_of_an_unknown_name n w :
  initialized w = true -> driver w = true ->
  (forall node, In node (nodes w) -> dict_lookup (node_props node) "name" <> Some (VStr n)) ->
  exists w',
    MemoryManager.get_entity_information (VStr n) w
    = (Ok (Build_EntityInformation VNone []), w')
    /\ nodes w' = nodes w /\ rels w' = rels w /\ docs w' = docs w.
Proof.
  intros Hi Hd Hnone. unfold MemoryManager.get_entity_information.
  rewrite (bind_ok _ (ensure_initialized_on _ Hi)). cbn [negb].
  unfold bind at 1.
  rewrite (graph_query_run CEntityByName [("name", VStr n)] w Hd eq_refl eq_refl).
  destruct (next_fault_keeps w) as (Kd & Kn & Kr).
  destruct (next_fault w) as [[e |] w1]; cbn [snd] in Kd, Kn, Kr.
  - unfold ret. eexists. split; [reflexivity |]. auto.
  - cbn [cypher]. rewrite filter_none.
    + unfold ret. eexists. split; [reflexivity |]. auto.
    + intros node Hnode. rewrite Kn in Hnode.
      destruct (name_is [("name", VStr n)] node) eqn:Hn; [| reflexivity].
      exfalso. apply (Hnone node Hnode). apply name_is_string. exact Hn.
Qed.

(** Nobody is called Grace on an empty server. *)
Lemma entity_information_of_an_unknown_name_witness :
  exists w',
    MemoryManager.get_entity_information (VStr "Grace") (Reference.ready 7)
    = (Ok (Build_EntityInformation VNone []), w').
Proof.
  destruct (entity_information_of_an_unknown_name "Grace" (Reference.ready 7) eq_refl eq_refl)
    as (w' & Hrun & _).
  - intros node [].
  - exists w'. exact Hrun.
Defined.

(* ===================================================================== *)
(** ** Scans and lookups of memory_retrieval.py *)
(* ===================================================================== *)

Lemma in_firstn {A} n (l : list A) x : In x (firstn n l) -> In x l.
Proof.
  intros Hx. rewrite <- (firstn_skipn n l). apply in_or_app. left. exact Hx.
Qed.

(** X18. [retrieve_by_entity_type] on a connected manager, for an entity
    type that is a name and an integer limit (both are spliced into the
    text of the statement), never raises. It returns nodes of the graph
    that carry the given label, each as a record with the key e, at most
    [limit] of them; when the call goes through these are the first
    [limit] nodes with the label in the order of the server's scan, and
    a negative limit, which the server refuses, gives the empty list
    like any other failure. Nothing is written. *)
Theorem retrieve_by_entity_type_scans_the_label entity_type limit w :
  initialized w = true -> driver w = true -> identifier entity_type = true ->
  exists found w',
    MemoryRetrieval.retrieve_by_entity_type entity_type limit w
    = (Ok (map (fun n => record1 "e" (node_val n)) found), w')
    /\ (List.length found <= Z.to_nat limit)%nat
    /\ (forall n, In n found -> In n (nodes w) /\ has_label entity_type n = true)
    /\ (goes_through 0 w = true -> 0 <= limit ->
        found = firstn (Z.to_nat limit) (filter (has_label entity_type) (nodes w)))
    /\ nodes w' = nodes w /\ rels w' = rels w /\ docs w' = docs w.
Proof.
  intros Hi Hd Hname. unfold MemoryRetrieval.retrieve_by_entity_type.
  rewrite (bind_ok _ (ensure_initialized_on _ Hi)). cbn [negb].
  unfold GraphDatabase.query.
  rewrite (bind_ok _ (ensure_driver_on _ Hd)). cbn [negb truthy].
  rewrite session_run_plain by reflexivity.
  unfold try_except, outside, goes_through, next_fault.
  destruct (faults w) as [| [e |] fs] eqn:F; cbn [nth_error cypher well_spliced];
    rewrite ?Hname; fields.
  - destruct (Z.ltb_spec limit 0) as [Hneg | Hpos].
    + exists [], w. split; [reflexivity |]. split; [cbn; lia |].
      split; [intros n [] |]. split; [intros _ Hl; lia | auto].
    + exists (firstn (Z.to_nat limit) (filter (has_label entity_type) (nodes w))), w.
      split; [reflexivity |]. split; [apply firstn_le_length |].
      split; [| auto].
      intros n Hn. apply in_firstn in Hn. apply filter_In in Hn. exact Hn.
  - exists []. eexists. split; [reflexivity |]. split; [cbn; lia |].
    split; [intros n [] |]. split; [discriminate | fields; auto].
  - destruct (Z.ltb_spec limit 0) as [Hneg | Hpos].
    + exists []. eexists. split; [reflexivity |]. split; [cbn; lia |].
      split; [intros n [] |]. split; [intros _ Hl; lia | fields; auto].
    + exists (firstn (Z.to_nat limit) (filter (has_label entity_type) (nodes w))).
      eexists. split; [reflexivity |]. split; [apply firstn_le_length |].
      split; [| fields; auto].
      intros n Hn. apply in_firstn in Hn. apply filter_In in Hn. exact Hn.
Qed.

(** Of three nodes, the two persons are found; with the limit 1, the
    newer one. *)
Lemma retrieve_by_entity_type_scans_the_label_witness :
  exists found w',
    MemoryRetrieval.retrieve_by_entity_type "Person" 1
      (set_graph [Build_Node 3 ["Person"] [("name", VStr "Ada")];
                  Build_Node 2 ["Fact"] [("content", VStr "Ada works at Acme")];
                  Build_Node 1 ["Person"] [("name", VStr "Grace")]] [] 4 (Reference.ready 4))
    = (Ok (map (fun n => record1 "e" (node_val n)) found), w')
    /\ found = [Build_Node 3 ["Person"] [("name", VStr "Ada")]].
Proof.
  destruct (retrieve_by_entity_type_scans_the_label "Person" 1
              (set_graph [Build_Node 3 ["Person"] [("name", VStr "Ada")];
                          Build_Node 2 ["Fact"] [("content", VStr "Ada works at Acme")];
                          Build_Node 1 ["Person"] [("name", VStr "Grace")]] [] 4
                         (Reference.ready 4)) eq_refl eq_refl eq_refl)
    as (found & w' & Hrun & _ & _ & Hfound & _).
  exists found, w'. split; [exact Hrun |].
  apply Hfound; [reflexivity | lia].
Defined.

(** X19. [retrieve_related_facts] for an id that no Fact node has, on a
    connected manager: it returns the empty list, whether the lookup
    goes through or not, and writes nothing. The id may be given as an
    integer or as its decimal text, which is converted with [int]; both
    give the same answer. *)
Theorem related_facts_of_an_unknown_fact `{Externals} z limit w :
  initialized w = true -> driver w = true ->
  (forall node, In node (nodes w) -> has_label "Fact" node = true -> node_id node <> z) ->
  exists w',
    MemoryRetrieval.retrieve_related_facts (VInt z) limit w = (Ok [], w')
    /\ MemoryRetrieval.retrieve_related_facts (VStr (str_of_int z)) limit w = (Ok [], w')
    /\ nodes w' = nodes w /\ rels w' = rels w /\ docs w' = docs w.
Proof.
  intros Hi Hd Hnone.
  assert (Hsame : MemoryRetrieval.retrieve_related_facts (VStr (str_of_int z)) limit w
                  = MemoryRetrieval.retrieve_related_facts (VInt z) limit w).
  { unfold MemoryRetrieval.retrieve_related_facts.
    rewrite !(bind_ok _ (ensure_initialized_on _ Hi)). cbn [negb].
    unfold bind at 1. unfold bind at 1, lift at 1. cbn [py_int].
    rewrite int_of_str_of_int. reflexivity. }
  rewrite Hsame.
  assert (Hmain : exists w',
            MemoryRetrieval.retrieve_related_facts (VInt z) limit w = (Ok [], w')
            /\ nodes w' = nodes w /\ rels w' = rels w /\ docs w' = docs w).
  { unfold MemoryRetrieval.retrieve_related_facts.
    rewrite (bind_ok _ (ensure_initialized_on _ Hi)). cbn [negb].
    unfold bind at 1. unfold ret at 1. unfold bind at 1.
    rewrite (graph_query_run CFactById [("id", VInt z)] w Hd eq_refl eq_refl).
    destruct (next_fault_keeps w) as (Kd & Kn & Kr).
    destruct (next_fault w) as [[e |] w1]; cbn [snd] in Kd, Kn, Kr.
    - unfold ret. eexists. split; [reflexivity |]. auto.
    - cbn [cypher]. rewrite filter_none.
      + unfold ret. eexists. split; [reflexivity |]. auto.
      + intros node Hnode. rewrite Kn in Hnode.
        destruct (has_label "Fact" node) eqn:Hl; [| reflexivity].
        rewrite id_is_eqb. cbn [andb]. apply Z.eqb_neq. apply (Hnone node Hnode Hl). }
  destruct Hmain as (w' & Hrun & Hstores).
  exists w'. split; [exact Hrun |]. split; [exact Hrun | exact Hstores].
Qed.

(** No fact has the id 12 on an empty server, asked as "12". *)
Lemma related_facts_of_an_unknown_fact_witness :
  exists w',
    MemoryRetrieval.retrieve_related_facts (H := Reference.externals) (VStr "12") 10
      (Reference.ready 7) = (Ok [], w').
Proof.
  destruct (related_facts_of_an_unknown_fact (H := Reference.externals) 12 10
              (Reference.ready 7) eq_refl eq_refl) as (w' & _ & Hrun & _).
  - intros node [].
  - exists w'. exact Hrun.
Defined.

Lemma now_isoformat_run `{Externals} w :
  now_isoformat w = (Ok (VStr (isoformat (clock w))), set_clock (clock w + 1) w).
Proof. reflexivity. Qed.




(* ===================================================================== *)
(** ** Prompt templates *)
(* ===================================================================== *)

Lemma str_app_assoc (a b c : string) : ((a ++ b) ++ c = a ++ (b ++ c))%string.
Proof. induction a as [| x a IH]; cbn; [reflexivity | rewrite IH; reflexivity]. Qed.

Lemma str_app_nil_r (a : string) : (a ++ "" = a)%string.
Proof. induction a as [| x a IH]; cbn; [reflexivity | rewrite IH; reflexivity]. Qed.

Lemma str_replace_app c r (a b : string) :
  str_replace c r (a ++ b) = (str_replace c r a ++ str_replace c r b)%string.
Proof.
  induction a as [| x a IH]; cbn [append str_replace]; [reflexivity |].
  rewrite IH. destruct (Ascii.eqb x c); [rewrite str_app_assoc |]; reflexivity.
Qed.

Lemma str_without_app c (a b : string) :
  str_without c (a ++ b) = str_without c a && str_without c b.
Proof.
  induction a as [| x a IH]; cbn [append str_without]; [reflexivity |].
  rewrite IH, andb_assoc. reflexivity.
Qed.

Lemma str_replace_without c r s :
  str_without c s = true -> str_replace c r s = s.
Proof.
  induction s as [| x s IH]; cbn [str_without str_replace]; [reflexivity |].
  intros Hs. apply andb_true_iff in Hs. destruct Hs as [Hx Hs].
  apply negb_true_iff in Hx. rewrite Hx, (IH Hs). reflexivity.
Qed.

(** Doubling the braces brings in no character other than a brace. *)
Lemma str_replace_keeps_without c x r s :
  str_without c r = true -> str_without c s = true ->
  str_without c (str_replace x r s) = true.
Proof.
  intros Hr. induction s as [| y s IH]; cbn [str_without str_replace]; [reflexivity |].
  intros Hs. apply andb_true_iff in Hs. destruct Hs as [Hy Hs].
  destruct (Ascii.eqb y x).
  - rewrite str_without_app, Hr, (IH Hs). reflexivity.
  - cbn [str_without]. rewrite Hy, (IH Hs). reflexivity.
Qed.

Lemma str_replace_nonempty x r s :
  r <> "" -> s <> "" -> str_replace x r s <> "".
Proof.
  intros Hr Hs. destruct s as [| y s]; [contradiction |].
  cbn [str_replace]. destruct (Ascii.eqb y x); [| discriminate].
  destruct r; [contradiction | discriminate].
Qed.

Lemma re_sub_plain (a t : string) :
  str_without "<" a = true -> re_sub 0 (a ++ t) = (a ++ re_sub 0 t)%string.
Proof.
  induction a as [| x a IH]; cbn [append str_without]; [reflexivity |].
  intros Ha. apply andb_true_iff in Ha. destruct Ha as [Hx Ha].
  apply negb_true_iff in Hx. cbn [re_sub].
  assert (Hp : placeholder_at (String x (a ++ t)) = None).
  { unfold placeholder_at. destruct (Ascii.eqb_spec x "<") as [-> | Hne]; [discriminate |].
    destruct x as [[] [] [] [] [] [] [] []]; try reflexivity. contradiction. }
  rewrite Hp, (IH Ha). reflexivity.
Qed.

Lemma re_sub_skip (a t : string) :
  re_sub (String.length a) (a ++ t) = re_sub 0 t.
Proof.
  induction a as [| x a IH]; cbn [append String.length]; [reflexivity |].
  cbn [re_sub]. exact IH.
Qed.

Lemma span_not_gt_run (n t : string) :
  str_without ">" n = true ->
  span_not_gt (n ++ String ">" t) = String.length n.
Proof.
  induction n as [| x n IH]; cbn [append str_without span_not_gt String.length];
    [reflexivity |].
  intros Hn. apply andb_true_iff in Hn. destruct Hn as [Hx Hn].
  apply negb_true_iff in Hx. rewrite Hx, (IH Hn). reflexivity.
Qed.

Lemma str_skip_app (a t : string) : str_skip (String.length a) (a ++ t) = t.
Proof.
  induction a as [| x a IH]; cbn [append String.length str_skip];
    [destruct t; reflexivity | exact IH].
Qed.

Lemma re_sub_step x s :
  re_sub 0 (String x s)
  = match placeholder_at (String x s) with
    | Some n => ("{1}" ++ re_sub (n - 1) s)%string
    | None => String x (re_sub 0 s)
    end.
Proof. reflexivity. Qed.

Lemma prefix_close t : String.prefix ">>" (String ">" (String ">" t)) = true.
Proof. cbn. destruct t; reflexivity. Qed.

Lemma re_sub_placeholder (n t : string) :
  n <> "" -> str_without ">" n = true ->
  re_sub 0 ("<<" ++ n ++ ">>" ++ t) = ("{1}" ++ re_sub 0 t)%string.
Proof.
  intros Hne Hn.
  change ("<<" ++ n ++ ">>" ++ t)%string
    with (String "<" (String "<" (n ++ String ">" (String ">" t)))).
  assert (Hp : placeholder_at (String "<" (String "<" (n ++ String ">" (String ">" t))))
               = Some (String.length n + 4)%nat).
  { unfold placeholder_at. rewrite (span_not_gt_run n _ Hn), str_skip_app, prefix_close.
    destruct n as [| x n]; [contradiction |]. reflexivity. }
  rewrite re_sub_step, Hp.
  replace (String.length n + 4 - 1)%nat
    with (String.length (String "<" (n ++ ">>")))%nat.
  2:{ cbn [String.length]. clear. induction n as [| x n IH]; cbn in *; lia. }
  replace (String "<" (n ++ String ">" (String ">" t)))
    with ((String "<" (n ++ ">>")) ++ t)%string.
  2:{ cbn [append]. rewrite str_app_assoc. reflexivity. }
  rewrite re_sub_skip. reflexivity.
Qed.

(** X21. What [get_prompt_template] makes of a template text. A
    placeholder, written as two [<], a name of at least one character
    without [>], and two [>], is replaced by the fixed text [{1}],
    whatever the name: the text before the first placeholder and the
    text behind it are processed on their own, and the name does not
    appear in the result. In a text without [<] every brace is doubled
    and nothing else is changed, so a text without braces and without
    [<] is returned as it is. *)
Theorem placeholders_become_a_fixed_text p name s :
  str_without "<" p = true -> name <> "" -> str_without ">" name = true ->
  OpenManusPromptTemplate.process (p ++ "<<" ++ name ++ ">>" ++ s)
  = (OpenManusPromptTemplate.process p ++ "{1}" ++ OpenManusPromptTemplate.process s)%string
  /\ OpenManusPromptTemplate.process p
     = str_replace "}" "}}" (str_replace "{" "{{" p)
  /\ (str_without "{" p = true -> str_without "}" p = true ->
      OpenManusPromptTemplate.process p = p).
Proof.
  intros Hp Hne Hn.
  assert (Hdp : str_without "<" (str_replace "}" "}}" (str_replace "{" "{{" p)) = true)
    by (repeat apply str_replace_keeps_without; auto).
  assert (Hplain : OpenManusPromptTemplate.process p
                   = str_replace "}" "}}" (str_replace "{" "{{" p)).
  { unfold OpenManusPromptTemplate.process.
    rewrite <- (str_app_nil_r (str_replace "}" "}}" (str_replace "{" "{{" p))) at 1.
    rewrite (re_sub_plain _ "" Hdp). cbn [re_sub]. apply str_app_nil_r. }
  split; [| split; [exact Hplain |]].
  - rewrite Hplain. unfold OpenManusPromptTemplate.process.
    rewrite !str_replace_app.
    change (str_replace "}" "}}" (str_replace "{" "{{" "<<")) with "<<".
    change (str_replace "}" "}}" (str_replace "{" "{{" ">>")) with ">>".
    rewrite (re_sub_plain _ _ Hdp).
    rewrite re_sub_placeholder.
    + reflexivity.
    + repeat apply str_replace_nonempty; try discriminate. exact Hne.
    + repeat apply str_replace_keeps_without; auto.
  - intros Ho Hc. rewrite Hplain.
    rewrite (str_replace_without "{" "{{" p Ho), (str_replace_without "}" "}}" p Hc).
    reflexivity.
Qed.

(** The placeholder for the time and the one for the conversation give
    the same text; the braces of a JSON example are doubled. *)
Lemma placeholders_become_a_fixed_text_witness :
  OpenManusPromptTemplate.process "Time: <<CURRENT_TIME>>. Answer as {}."
  = "Time: {1}. Answer as {{}}."
  /\ OpenManusPromptTemplate.process "Time: <<conversation>>. Answer as {}."
     = "Time: {1}. Answer as {{}}.".
Proof.
  split.
  - exact (proj1 (placeholders_become_a_fixed_text "Time: " "CURRENT_TIME" ". Answer as {}."
                    eq_refl ltac:(discriminate) eq_refl)).
  - exact (proj1 (placeholders_become_a_fixed_text "Time: " "conversation" ". Answer as {}."
                    eq_refl ltac:(discriminate) eq_refl)).
Defined.

(* ===================================================================== *)
(** ** The prompts of the knowledge agent *)
(* ===================================================================== *)

Lemma bind_raises {A B} (m : M A) (k : A -> M B) :
  (forall a w1, exists e w2, k a w1 = (Raise e, w2)) ->
  forall w, exists e w', bind m k w = (Raise e, w').
Proof.
  intros Hk w. unfold bind. destruct (m w) as [[a | e] w1].
  - apply Hk.
  - exists e, w1. reflexivity.
Qed.

Lemma bind_raises_first {A B} (m : M A) (k : A -> M B) w :
  (exists e w', m w = (Raise e, w')) ->
  exists e w', bind m k w = (Raise e, w').
Proof.
  intros (e & w' & Hm). exists e, w'. unfold bind. rewrite Hm. reflexivity.
Qed.

(** [apply_prompt_template] on a state without the key messages
    raises, after one reading of the clock. *)
Lemma apply_prompt_template_raises `{Prompting} prompt_name state w :
  dict_lookup state "messages" = None ->
  exists e,
    OpenManusPromptTemplate.apply_prompt_template prompt_name (VDict state) w
    = (Raise e, set_clock (clock w + 1) w).
Proof.
  intros Hm. unfold OpenManusPromptTemplate.apply_prompt_template.
  unfold bind at 1, datetime_now at 1.
  unfold bind at 1, lift at 1.
  destruct (OpenManusPromptTemplate.get_prompt_template prompt_name) as [template | e];
    [| exists e; reflexivity].
  unfold bind at 1, lift at 1.
  destruct (prompt_template template) as [prompt | e]; [| exists e; reflexivity].
  unfold bind at 1, lift at 1. cbn [unpack].
  unfold bind at 1.
  destruct (dict_lookup state "CURRENT_TIME") as [v |]; [exists TypeError; reflexivity |].
  unfold ret at 1. unfold bind at 1, lift at 1.
  destruct (prompt_format prompt _) as [system_prompt | e]; [| exists e; reflexivity].
  unfold bind at 1, lift at 1. cbn [py_getitem]. rewrite Hm.
  exists KeyError. reflexivity.
Qed.

(** X22. [apply_prompt_template] returns the system prompt followed by
    the messages of the state, so it needs the key messages: for every
    state dict without that key and every prompt name the call raises.
    It raises KeyError when the template can be read and formatted, and
    whatever the reading or the formatting raised otherwise; in each
    case the clock has been read once. *)
Theorem apply_prompt_template_needs_messages `{Prompting} prompt_name state w :
  dict_lookup state "messages" = None ->
  exists e,
    OpenManusPromptTemplate.apply_prompt_template prompt_name (VDict state) w
    = (Raise e, set_clock (clock w + 1) w)
    /\ (forall template prompt system_prompt,
          OpenManusPromptTemplate.get_prompt_template prompt_name = Ok template ->
          prompt_template template = Ok prompt ->
          dict_lookup state "CURRENT_TIME" = None ->
          prompt_format prompt (("CURRENT_TIME", VStr (strftime (clock w))) :: state)
          = Ok system_prompt ->
          e = KeyError).
Proof.
  intros Hm. unfold OpenManusPromptTemplate.apply_prompt_template.
  unfold bind at 1, datetime_now at 1.
  unfold bind at 1, lift at 1.
  destruct (OpenManusPromptTemplate.get_prompt_template prompt_name) as [template | e].
  2:{ exists e. split; [reflexivity |]. intros ? ? ? [=]. }
  unfold bind at 1, lift at 1.
  destruct (prompt_template template) as [prompt | e] eqn:Hp.
  2:{ exists e. split; [reflexivity |]. intros ? ? ? [= <-] Hp'.
      rewrite Hp in Hp'. discriminate. }
  unfold bind at 1, lift at 1. cbn [unpack].
  unfold bind at 1.
  destruct (dict_lookup state "CURRENT_TIME") as [v |].
  { exists TypeError. split; [reflexivity |]. intros ? ? ? _ _ [=]. }
  unfold ret at 1. unfold bind at 1, lift at 1.
  destruct (prompt_format prompt _) as [system_prompt | e] eqn:Hf.
  2:{ exists e. split; [reflexivity |]. intros ? ? ? [= <-] Hp' _ Hf'.
      rewrite Hp in Hp'. injection Hp' as <-. rewrite Hf in Hf'. discriminate. }
  unfold bind at 1, lift at 1. cbn [py_getitem]. rewrite Hm.
  exists KeyError. split; [reflexivity |]. reflexivity.
Qed.

(** The state that [knowledge_agent] passes. *)
Lemma apply_prompt_template_needs_messages_witness :
  fst (OpenManusPromptTemplate.apply_prompt_template (H := plain_prompting)
         "knowledge_extraction" (VDict [("conversation", VStr "remember the milk")])
         (Reference.ready 7))
  = Raise KeyError.
Proof.
  destruct (apply_prompt_template_needs_messages (H := plain_prompting)
              "knowledge_extraction" [("conversation", VStr "remember the milk")]
              (Reference.ready 7) eq_refl) as (e & Hrun & He).
  rewrite Hrun. cbn [fst]. f_equal.
  apply (He _ _ _ eq_refl eq_refl eq_refl eq_refl).
Defined.

(** X23. [knowledge_agent] never returns a state update. It builds its
    first prompt with [apply_prompt_template] on a state that holds the
    conversation only, and that call raises for want of the key
    messages; so for every workflow state, every content of the stores
    and every behaviour of the language model and of the libraries, the
    call of [knowledge_agent] ends in an exception, raised there or
    before. The extraction of entities and facts behind it is never
    reached. *)
Theorem knowledge_agent_never_returns `{Externals} `{Prompting} state w :
  exists e w', knowledge_agent state w = (Raise e, w').
Proof.
  unfold knowledge_agent.
  apply bind_raises. intros i w1.
  apply bind_raises. intros _ w2.
  apply bind_raises. intros messages w3.
  cbv zeta.
  apply bind_raises. intros relevant_memories w4.
  apply bind_raises. intros categorized w5.
  apply bind_raises. intros _ w6.
  apply bind_raises. intros _ w7.
  apply bind_raises_first.
  destruct (apply_prompt_template_raises "knowledge_extraction"
              [("conversation",
                match rev messages with
                | [] => VStr ""
                | last :: _ => message_content last
                end)] w7 eq_refl) as (e & Hrun).
  exists e. eexists. exact Hrun.
Qed.

(* ===================================================================== *)
(** ** The extraction, when an answer has another shape *)
(* ===================================================================== *)

Lemma link_without_content `{Externals} fact e : forall entities,
  py_getitem fact "content" = Raise e ->
  entities <> [] -> exists e', KnowledgeAgent.link entities fact = Raise e'.
Proof.
  intros entities Hc Hne. destruct entities as [| x rest]; [contradiction |].
  cbn [KnowledgeAgent.link].
  destruct (py_getitem x "name") as [name | e1]; [| eexists; reflexivity].
  destruct (py_lower name) as [needle | e2]; [| eexists; reflexivity].
  rewrite Hc. eexists. reflexivity.
Qed.

(** A fact without the key content is not stored, and nothing is
    written for it. *)
Lemma store_extracted_without_content `{Externals} entities fact e w :
  py_getitem fact "content" = Raise e ->
  exists e', KnowledgeAgent.store_extracted entities fact w = (Raise e', w).
Proof.
  intros Hc. unfold KnowledgeAgent.store_extracted, KnowledgeAgent.related_entities_of.
  unfold bind at 1, lift at 1.
  destruct (py_iter entities) as [es | e1]; [| eexists; reflexivity].
  destruct es as [| x rest].
  - cbn [KnowledgeAgent.link]. unfold bind at 1, lift at 1. rewrite Hc.
    eexists. reflexivity.
  - destruct (link_without_content fact e (x :: rest) Hc ltac:(discriminate)) as (e' & ->).
    eexists. reflexivity.
Qed.

Lemma store_facts_total `{Externals} entities fact_content w :
  exists w', KnowledgeAgent.store_facts entities fact_content w = (Ok tt, w').
Proof.
  unfold KnowledgeAgent.store_facts, try_except.
  match goal with |- context [match ?m w with _ => _ end] => destruct (m w) as [[[] | e] w1] end;
    eexists; reflexivity.
Qed.

(** X24. The loop that stores the extracted facts stops at the first
    fact that cannot be stored, without undoing anything and without
    raising. When the fact answer parses to a list in which some
    element has no key content (it is not a dict, or the key is
    missing), the facts before that element are stored exactly as a
    list of them alone would be, the element and all facts behind it
    are dropped, and the exception goes no further than the message
    that is printed. *)
Theorem store_facts_stops_at_the_first_failure `{Externals}
        entities fact_content good bad rest e w w1 :
  json_loads fact_content = Some (VList (good ++ bad :: rest)%list) ->
  py_getitem bad "content" = Raise e ->
  for_each good (KnowledgeAgent.store_extracted entities) w = (Ok tt, w1) ->
  KnowledgeAgent.store_facts entities fact_content w = (Ok tt, w1).
Proof.
  intros Hjson Hbad Hgood.
  unfold KnowledgeAgent.store_facts, try_except.
  rewrite Hjson. unfold bind at 1, ret at 1. unfold bind at 1, lift at 1. cbn [py_iter].
  rewrite for_each_app. rewrite (bind_ok _ Hgood). cbn [for_each].
  destruct (store_extracted_without_content entities bad e w1 Hbad) as (e' & Hraise).
  rewrite (bind_raise _ Hraise). reflexivity.
Qed.

(** Of three extracted facts the second is a bare string: the first is
    stored, the third is not. *)
Lemma store_facts_stops_at_the_first_failure_witness :
  map node_props
      (nodes (snd (KnowledgeAgent.store_facts (H := Reference.externals) (VList [])
                     (Reference.dumps
                        (VList [VDict [("content", VStr "Ada works at Acme")];
                                VStr "Acme is in Paris";
                                VDict [("content", VStr "Paris is in France")]]))
                     (Reference.ready 7))))
  = [[("content", VStr "Ada works at Acme");
      ("timestamp", VStr "2025-11-03T17:05:00");
      ("source", VStr "conversation")]].
Proof.
  rewrite (store_facts_stops_at_the_first_failure (H := Reference.externals)
             (VList [])
             (Reference.dumps
                (VList [VDict [("content", VStr "Ada works at Acme")];
                        VStr "Acme is in Paris";
                        VDict [("content", VStr "Paris is in France")]]))
             [VDict [("content", VStr "Ada works at Acme")]]
             (VStr "Acme is in Paris")
             [VDict [("content", VStr "Paris is in France")]]
             TypeError (Reference.ready 7)
             (snd (for_each [VDict [("content", VStr "Ada works at Acme")]]
                     (KnowledgeAgent.store_extracted (H := Reference.externals) (VList []))
                     (Reference.ready 7)))
             eq_refl eq_refl eq_refl).
  reflexivity.
Defined.

(** X25. Only the parsing of the entity answer is guarded. When the
    answer is well-formed JSON of another shape than a list of objects,
    the extraction raises after the facts have been handled: TypeError
    when the value cannot be iterated (a number, true, null), and
    AttributeError when its first element has no method [get] (a list
    of strings, or an object, whose keys are then taken for the
    entities). *)
Theorem extraction_needs_entity_objects `{Externals} entity_content fact_content entities w :
  json_loads entity_content = Some entities ->
  (py_iter entities = Raise TypeError ->
   exists w', KnowledgeAgent.extraction entity_content fact_content w = (Raise TypeError, w'))
  /\ (forall first rest,
        py_iter entities = Ok (first :: rest) ->
        py_get first "name" VNone = Raise AttributeError ->
        exists w', KnowledgeAgent.extraction entity_content fact_content w
                   = (Raise AttributeError, w')).
Proof.
  intros Hjson.
  unfold KnowledgeAgent.extraction, KnowledgeAgent.parse_entities. rewrite Hjson.
  destruct (store_facts_total entities fact_content w) as (w1 & Hstore).
  rewrite (bind_ok _ Hstore). split.
  - intros Hiter. unfold bind, lift. rewrite Hiter. eexists. reflexivity.
  - intros first rest Hiter Hget. unfold bind at 1, lift at 1. rewrite Hiter.
    cbn [KnowledgeAgent.entity_information].
    unfold bind at 1. unfold bind at 1, lift at 1. rewrite Hget.
    eexists. reflexivity.
Qed.

(** The entity answer is an object with the key entities. *)
Lemma extraction_needs_entity_objects_witness :
  exists w',
    KnowledgeAgent.extraction (H := Reference.externals)
      (Reference.dumps (VDict [("entities", VList [])])) "not json" (Reference.ready 7)
    = (Raise AttributeError, w').
Proof.
  destruct (extraction_needs_entity_objects (H := Reference.externals)
              (Reference.dumps (VDict [("entities", VList [])])) "not json"
              (VDict [("entities", VList [])]) (Reference.ready 7) eq_refl) as (_ & Hattr).
  apply (Hattr (VStr "entities") []); reflexivity.
Defined.

(** A retrieval whose vector search finds nothing returns the empty
    list and leaves the world as it is. *)
Lemma retrieve_nothing `{Externals} query limit w :
  connected w -> faults w = [] ->
  (forall q, nearest q (docs w) = []) ->
  MemoryManager.retrieve_relevant_memories query limit w = (Ok [], w).
Proof.
  intros (Hi & Hd & Hc & Hk) F Hnone.
  unfold MemoryManager.retrieve_relevant_memories.
  rewrite (bind_ok _ (ensure_initialized_on _ Hi)). cbn [negb].
  change (VectorDatabase.query [query] [("n_results", VInt limit)])
    with (VectorDatabase.query_body query (VInt limit) VNone).
  assert (Hq : VectorDatabase.query_body query (VInt limit) VNone w = (Ok [], w)).
  { unfold VectorDatabase.query_body.
    rewrite (bind_ok _ (ensure_collection_on _ Hc Hk)). cbn [negb].
    unfold try_except. unfold bind at 1. unfold collection_query, outside.
    rewrite (next_fault_healthy _ F).
    destruct query; try reflexivity.
    destruct (limit <=? 0); [reflexivity |].
    rewrite Hnone, firstn_nil. rewrite format_query_result. reflexivity. }
  rewrite (bind_ok _ Hq). reflexivity.
Qed.

(** X26. Before it raises, [knowledge_agent] has stored the
    conversation. On a connected manager whose stores answer every call
    (positive next node id, a vector search that finds nothing), for
    every state with messages, the call ends in an exception, and the
    world it leaves holds the new Conversation node with one Message
    node for each message of the state, and the document that mirrors
    the conversation, written with the metadata source
    "agent_workflow": the exception undoes nothing. *)
Theorem knowledge_agent_stores_the_conversation_first `{Externals} `{Prompting}
        messages context w :
  connected w -> faults w = [] -> 0 < next_id w ->
  (forall q, nearest q (docs w) = []) ->
  exists e w',
    knowledge_agent (Build_State (Some messages) context) w = (Raise e, w')
    /\ nodes w'
       = (rev (message_nodes (next_id w) (clock w) 0
                 (map (fun msg => [("role", VStr (role_of msg));
                                   ("content", message_content msg)]) messages))
          ++ conversation_node w (match context with Some c => c | None => VStr "" end)
               [("source", VStr "agent_workflow")]
          :: nodes w)%list
    /\ docs w'
       = (docs w
          ++ [conversation_document w
                (map (fun msg => [("role", VStr (role_of msg));
                                  ("content", message_content msg)]) messages)
                (match context with Some c => c | None => VStr "" end)
                [("source", VStr "agent_workflow")]])%list.
Proof.
  intros Hc F Hpos Hnone.
  pose proof Hc as (Hi & Hd & Hcl & Hk).
  unfold knowledge_agent.
  unfold bind at 1, gets at 1. rewrite Hi.
  unfold bind at 1, ret at 1.
  cbn [state_messages state_context].
  unfold bind at 1, ret at 1.
  cbv zeta.
  rewrite (bind_ok _ (retrieve_nothing _ 5 w Hc F Hnone)).
  assert (Hcat : MemoryManager.categorize_memories
                   (match rev messages with
                    | [] => VStr ""
                    | last :: _ => message_content last
                    end) w = (Ok (Build_Categorized [] []), w)).
  { unfold MemoryManager.categorize_memories.
    rewrite (bind_ok _ (ensure_initialized_on _ Hi)). cbn [negb].
    rewrite (bind_ok _ (retrieve_nothing _ 10 w Hc F Hnone)). reflexivity. }
  rewrite (bind_ok _ Hcat).
  rewrite <- (map_map (fun msg => [("role", VStr (role_of msg));
                                   ("content", message_content msg)]) VDict).
  destruct (store_conversation_full_run
              (map (fun msg => [("role", VStr (role_of msg));
                                ("content", message_content msg)]) messages)
              (match context with Some c => c | None => VStr "" end)
              (VDict [("source", VStr "agent_workflow")])
              [("source", VStr "agent_workflow")] w Hc F Hpos eq_refl eq_refl)
    as (w1 & Hrun & Hnodes & _ & Hdocs & _).
  rewrite (bind_ok _ Hrun).
  unfold bind at 1, lift at 1.
  destruct get_llm as [[] | e].
  - destruct (apply_prompt_template_raises "knowledge_extraction"
                [("conversation",
                  match rev messages with
                  | [] => VStr ""
                  | last :: _ => message_content last
                  end)] w1 eq_refl) as (e & Hraise).
    rewrite (bind_raise _ Hraise).
    exists e. eexists. split; [reflexivity |]. fields. split; assumption.
  - exists e, w1. split; [reflexivity |]. split; assumption.
Qed.

(** One message from the user, on an empty collection. *)
Lemma knowledge_agent_stores_the_conversation_first_witness :
  exists e w',
    knowledge_agent (H := Reference.externals) (H0 := plain_prompting)
      (Build_State (Some [Build_Message HumanMessage (VStr "remember the milk")]) None)
      (Reference.ready 7) = (Raise e, w')
    /\ map node_labels (nodes w') = [["Message"]; ["Conversation"]]
    /\ map doc_id (docs w') = ["conversation_7"].
Proof.
  destruct (knowledge_agent_stores_the_conversation_first
              (H := Reference.externals) (H0 := plain_prompting)
              [Build_Message HumanMessage (VStr "remember the milk")] None
              (Reference.ready 7)) as (e & w' & Hrun & Hn & Hd).
  - repeat split; reflexivity.
  - reflexivity.
  - reflexivity.
  - reflexivity.
  - exists e, w'. split; [exact Hrun |]. rewrite Hn, Hd. split; reflexivity.
Defined.

(* ===================================================================== *)
(** ** Arguments of another type, and a connection lost half way *)
(* ===================================================================== *)

(** X27. [store_conversation] checks neither the metadata nor the
    messages. On a connected manager: metadata that test true and are
    not a dict raise TypeError where they are unpacked, before anything
    is written; a first message that is not a dict raises
    AttributeError in the loop, after the call that creates the
    Conversation node, and no document is written. When that call has
    gone through, for metadata with plain keys, the Conversation node
    stays in the graph and no message is linked to it. *)
Theorem store_conversation_checks_no_argument `{Externals} messages context metadata w :
  connected w ->
  (unpack (py_or metadata (VDict [])) = Raise TypeError ->
   exists w',
     MemoryManager.store_conversation messages context metadata w = (Raise TypeError, w')
     /\ nodes w' = nodes w /\ rels w' = rels w /\ docs w' = docs w)
  /\ (forall extra first rest,
        unpack (py_or metadata (VDict [])) = Ok extra ->
        messages = first :: rest ->
        py_get first "role" (VStr "unknown") = Raise AttributeError ->
        exists w',
          MemoryManager.store_conversation messages context metadata w
          = (Raise AttributeError, w')
          /\ docs w' = docs w
          /\ (goes_through 0 w = true -> plain_keys extra = true ->
              nodes w' = conversation_node w context extra :: nodes w
              /\ rels w' = rels w)).
Proof.
  intros Hc. pose proof Hc as (Hi & Hd & _ & _). split.
  - intros Hbad. unfold MemoryManager.store_conversation.
    rewrite (bind_ok _ (ensure_initialized_on _ Hi)). cbn [negb].
    rewrite (bind_ok _ (now_isoformat_run w)).
    unfold bind, lift. rewrite Hbad.
    eexists. split; [reflexivity |]. fields. auto.
  - intros extra first rest Hextra -> Hrole.
    unfold MemoryManager.store_conversation.
    rewrite (bind_ok _ (ensure_initialized_on _ Hi)). cbn [negb].
    rewrite (bind_ok _ (now_isoformat_run w)).
    unfold bind at 1, lift at 1. rewrite Hextra.
    assert (Hc1 : connected (set_clock (clock w + 1) w)) by exact Hc.
    destruct (create_node_returns [VStr "Conversation"] ["Conversation"]
                (dict_update [("timestamp", VStr (isoformat (clock w)));
                              ("context", py_or context (VStr ""))] extra)
                _ Hc1 eq_refl) as (cid & w1 & Hcn & _ & Hk1).
    rewrite (bind_ok _ Hcn).
    assert (Hloop : for_each (combine (seq 0 (List.length (first :: rest))) (first :: rest))
                             (MemoryManager.store_message cid) w1
                    = (Raise AttributeError, w1)).
    { cbn [List.length seq combine for_each].
      assert (Hm : MemoryManager.store_message cid (0%nat, first) w1
                   = (Raise AttributeError, w1)).
      { unfold MemoryManager.store_message. unfold bind, lift. rewrite Hrole. reflexivity. }
      rewrite (bind_raise _ Hm). reflexivity. }
    rewrite (bind_raise _ Hloop).
    exists w1. split; [reflexivity |]. split; [exact Hk1 |].
    intros G Hplain.
    rewrite (create_node_run [VStr "Conversation"] ["Conversation"] _
               (set_clock (clock w + 1) w) Hd eq_refl eq_refl) in Hcn
      by (apply plain_keys_update; [reflexivity | exact Hplain]).
    unfold goes_through in G. unfold next_fault in Hcn. fields.
    destruct (faults w) as [| [x |] fs]; cbn [nth_error] in G; try discriminate;
      injection Hcn as _ <-; fields; auto.
Qed.

(** A conversation given as a list of strings. *)
Lemma store_conversation_checks_no_argument_witness :
  exists w',
    MemoryManager.store_conversation (H := Reference.externals)
      [VStr "remember the milk"] (VStr "shopping") VNone (Reference.ready 7)
    = (Raise AttributeError, w')
    /\ map node_labels (nodes w') = [["Conversation"]]
    /\ docs w' = [].
Proof.
  destruct (store_conversation_checks_no_argument (H := Reference.externals)
              [VStr "remember the milk"] (VStr "shopping") VNone (Reference.ready 7))
    as (_ & Hmsg).
  - repeat split; reflexivity.
  - destruct (Hmsg [] (VStr "remember the milk") [] eq_refl eq_refl eq_refl)
      as (w' & Hrun & Hd & Hgraph).
    destruct (Hgraph eq_refl eq_refl) as (Hn & _).
    exists w'. split; [exact Hrun |]. rewrite Hn, Hd. split; reflexivity.
Defined.

(** X28. [VectorDatabase.connect] assigns the client before it asks for
    the collection. When that last call fails on an adapter without a
    collection, connect returns False with the client assigned and
    still no collection, and, unlike the graph adapter, the vector
    adapter connects again at its next call: once the store answers, a
    query on that adapter returns the nearest documents, 5 by default,
    and the adapter has its collection. *)
Theorem vector_adapter_connects_again `{Externals} e query w :
  collection w = false ->
  faults w = [None; None; Some e] ->
  exists w1 w2,
    VectorDatabase.connect w = (Ok false, w1)
    /\ client w1 = true /\ collection w1 = false
    /\ VectorDatabase.query [VStr query] [] w1
       = (Ok (map hit_dict (firstn 5 (nearest query (docs w)))), w2)
    /\ client w2 = true /\ collection w2 = true.
Proof.
  intros Hk F.
  exists (set_client true (set_faults [] w)). eexists.
  split.
  { unfold VectorDatabase.connect, try_except, bind, outside, modify, ret.
    unfold next_fault. fields. rewrite F. fields. reflexivity. }
  split; [reflexivity |].
  split; [fields; exact Hk |].
  split.
  { change (VectorDatabase.query [VStr query] [] (set_client true (set_faults [] w)))
      with (VectorDatabase.query_body (VStr query) (VInt 5) VNone
              (set_client true (set_faults [] w))).
    unfold VectorDatabase.query_body.
    unfold bind at 1. unfold VectorDatabase.ensure_collection.
    unfold bind at 1, gets at 1. unfold bind at 1, gets at 1. fields. rewrite Hk.
    cbn [negb orb].
    unfold VectorDatabase.connect, try_except, bind at 1 2 3, outside, modify, ret.
    unfold next_fault. fields. cbn [negb].
    unfold bind at 1. unfold collection_query, outside, next_fault. fields.
    cbn [Z.leb Z.compare].
    rewrite format_query_result. reflexivity. }
  split; reflexivity.
Qed.

(** The collection cannot be opened at the first call. *)
Lemma vector_adapter_connects_again_witness :
  exists w1 w2,
    VectorDatabase.connect (set_faults [None; None; Some StoreError] Reference.fresh)
    = (Ok false, w1)
    /\ VectorDatabase.query (H := Reference.externals) [VStr "milk"] [] w1 = (Ok [], w2)
    /\ collection w2 = true.
Proof.
  destruct (vector_adapter_connects_again (H := Reference.externals) StoreError "milk"
              (set_faults [None; None; Some StoreError] Reference.fresh) eq_refl eq_refl)
    as (w1 & w2 & Hc & _ & _ & Hq & _ & Hk).
  exists w1, w2. split; [exact Hc |]. split; [exact Hq | exact Hk].
Defined.

(* ===================================================================== *)
(** ** Metadata that the driver takes for its own arguments *)
(* ===================================================================== *)

Lemma has_key_set d k k' v :
  has_key (dict_set d k' v) k = has_key d k || String.eqb k k'.
Proof.
  unfold has_key. induction d as [| [k0 v0] d IH]; cbn [dict_set dict_lookup].
  - destruct (String.eqb k k'); reflexivity.
  - destruct (String.eqb_spec k' k0) as [-> | Hne]; cbn [dict_lookup].
    + destruct (String.eqb k k0); [reflexivity |].
      destruct (dict_lookup d k); reflexivity.
    + destruct (String.eqb_spec k k0) as [-> | _].
      * reflexivity.
      * exact IH.
Qed.

Lemma has_key_update b : forall a k,
  has_key (dict_update a b) k = has_key a k || has_key b k.
Proof.
  unfold dict_update. induction b as [| [k' v] b IH]; intros a k; cbn [fold_left fst snd].
  - unfold has_key at 3. cbn. rewrite orb_false_r. reflexivity.
  - rewrite IH, has_key_set. unfold has_key at 4. cbn [dict_lookup].
    destruct (String.eqb k k'); cbn [orb].
    + rewrite orb_true_r. reflexivity.
    + rewrite orb_false_r. reflexivity.
Qed.

(** A message of a conversation that has no node of its own: the
    Message node is written and nothing links it. *)
Lemma store_message_unlinked_run `{Externals} c t i m W :
  driver W = true -> faults W = [] ->
  next_id W = c + 1 + Z.of_nat i -> clock W = t + 1 + Z.of_nat i ->
  MemoryManager.store_message None (i, VDict m) W
  = (Ok tt, set_graph (message_node c t i m :: nodes W) (rels W)
                      (next_id W + 1) (set_clock (clock W + 1) W)).
Proof.
  intros Hd F Hn Ht.
  unfold MemoryManager.store_message.
  unfold bind at 1, lift at 1. cbn [py_get].
  unfold bind at 1, lift at 1. cbn [py_get].
  unfold bind at 1, now_isoformat, datetime_now. unfold bind at 1. unfold ret at 1.
  unfold bind at 1, lift at 1. cbn [py_get].
  unfold bind at 1.
  rewrite (create_node_run [VStr "Message"] ["Message"] _ (set_clock (clock W + 1) W)
             Hd eq_refl eq_refl) by reflexivity.
  rewrite next_fault_healthy by (fields; exact F). fields.
  unfold ret, message_node. rewrite Hn, Ht. reflexivity.
Qed.

Lemma store_messages_unlinked_run `{Externals} c t : forall ms i W,
  driver W = true -> faults W = [] ->
  next_id W = c + 1 + Z.of_nat i -> clock W = t + 1 + Z.of_nat i ->
  for_each (combine (seq i (List.length ms)) (map VDict ms))
           (MemoryManager.store_message None) W
  = (Ok tt, set_graph (rev (message_nodes c t i ms) ++ nodes W) (rels W)
                      (next_id W + Z.of_nat (List.length ms))
                      (set_clock (clock W + Z.of_nat (List.length ms)) W)).
Proof.
  induction ms as [| m ms IH]; intros i W Hd F Hn Ht.
  - cbn. unfold ret, set_graph, set_clock. fields.
    rewrite !Z.add_0_r. destruct W; reflexivity.
  - cbn [List.length seq map combine for_each].
    rewrite (bind_ok _ (store_message_unlinked_run c t i m W Hd F Hn Ht)).
    rewrite IH.
    + unfold set_graph, set_clock. fields.
      cbn [message_nodes rev]. rewrite <- !app_assoc. cbn [app].
      replace (next_id W + 1 + Z.of_nat (List.length ms))
        with (next_id W + Z.of_nat (S (List.length ms))) by lia.
      replace (clock W + 1 + Z.of_nat (List.length ms))
        with (clock W + Z.of_nat (S (List.length ms))) by lia.
      reflexivity.
    + fields. exact Hd.
    + fields. exact F.
    + fields. lia.
    + fields. lia.
Qed.

(** X29. The caller's metadata become keyword arguments of the driver's
    [run]. On a connected manager whose stores answer every call, when
    the metadata have a key called query or self, [store_conversation]
    still returns True, but the creation of the Conversation node fails
    before anything is sent: the graph gets no Conversation node, the
    messages are stored as Message nodes that nothing links (they take
    the ids from the one the Conversation node would have had), and the
    collection gets no document, because the document would have the
    id None. *)
Theorem store_conversation_with_a_driver_keyword `{Externals} ms context metadata extra w :
  connected w -> faults w = [] ->
  unpack (py_or metadata (VDict [])) = Ok extra ->
  has_key extra "query" || has_key extra "self" = true ->
  exists w',
    MemoryManager.store_conversation (map VDict ms) context metadata w = (Ok true, w')
    /\ nodes w' = (rev (message_nodes (next_id w - 1) (clock w) 0 ms) ++ nodes w)%list
    /\ rels w' = rels w
    /\ docs w' = docs w.
Proof.
  intros (Hi & Hd & Hc & Hk) F Hextra Hkey.
  unfold MemoryManager.store_conversation.
  rewrite (bind_ok _ (ensure_initialized_on _ Hi)). cbn [negb].
  unfold bind at 1, now_isoformat, datetime_now. unfold bind at 1. unfold ret at 1.
  unfold bind at 1, lift at 1. rewrite Hextra.
  unfold bind at 1.
  rewrite (create_node_keyword_clash [VStr "Conversation"] ["Conversation"] _
             (set_clock (clock w + 1) w) Hd eq_refl).
  2:{ rewrite !has_key_update.
      change (has_key [("timestamp", VStr (isoformat (clock w)));
                       ("context", py_or context (VStr ""))] "query") with false.
      change (has_key [("timestamp", VStr (isoformat (clock w)));
                       ("context", py_or context (VStr ""))] "self") with false.
      exact Hkey. }
  unfold bind at 1. rewrite length_map.
  rewrite (store_messages_unlinked_run (next_id w - 1) (clock w) ms 0);
    fields; auto; try lia.
  unfold bind at 1, lift at 1. rewrite message_lines_run.
  unfold bind at 1, now_isoformat, datetime_now. unfold bind at 1. unfold ret at 1.
  fields.
  unfold bind at 1, lift at 1.
  unfold bind at 1.
  rewrite add_documents_run by (fields; assumption).
  rewrite next_fault_healthy by (fields; exact F). fields.
  cbn [text_if_truthy].
  eexists. split; [reflexivity |]. fields. auto.
Qed.

(** The metadata of the caller name the query that led to the
    conversation. *)
Lemma store_conversation_with_a_driver_keyword_witness :
  exists w',
    MemoryManager.store_conversation (H := Reference.externals)
      (map VDict [[("role", VStr "user"); ("content", VStr "remember the milk")]])
      (VStr "shopping") (VDict [("query", VStr "milk")]) (Reference.ready 7) = (Ok true, w')
    /\ map node_labels (nodes w') = [["Message"]]
    /\ map node_id (nodes w') = [7]
    /\ rels w' = []
    /\ docs w' = [].
Proof.
  destruct (store_conversation_with_a_driver_keyword (H := Reference.externals)
              [[("role", VStr "user"); ("content", VStr "remember the milk")]]
              (VStr "shopping") (VDict [("query", VStr "milk")]) [("query", VStr "milk")]
              (Reference.ready 7))
    as (w' & Hrun & Hn & Hr & Hd).
  - repeat split; reflexivity.
  - reflexivity.
  - reflexivity.
  - reflexivity.
  - exists w'. split; [exact Hrun |]. rewrite Hn, Hr, Hd. repeat split; reflexivity.
Defined.
